(** * LibRARy: a .tar.gz source installer with install tracking

    A shallow embedding of [src/core/installer.py] and
    [src/core/db_manager.py].

    Python [str] values are modelled by [string] (8-bit characters), so the
    character classes [\w] and [\d] of the regular expressions are the ASCII
    ones.  Python exceptions are modelled by an error result, the mutable
    [Installer] object and the operating system by an explicit state that
    every method threads, and what the outside world answers (the content of
    an archive, which executables exist, what a process prints) by a
    read-only [World]. *)

From Stdlib Require Import String Ascii List Bool Arith ZArith Lia Permutation.
From Stdlib Require Import DecimalString.
Import ListNotations.

Local Open Scope string_scope.
Local Open Scope list_scope.

(* ================================================================== *)
(** ** Python string methods *)

Module Str.

(** [s.startswith(p)] *)
Fixpoint startswith (s p : string) : bool :=
  match p, s with
  | EmptyString, _ => true
  | String _ _, EmptyString => false
  | String a p', String b s' => Ascii.eqb a b && startswith s' p'
  end.

(** [s.endswith(suf)] : [suf] is [s] or a suffix of the tail of [s]. *)
Fixpoint endswith (s suf : string) : bool :=
  String.eqb s suf ||
  match s with
  | EmptyString => false
  | String _ s' => endswith s' suf
  end.

(** [sub in s] *)
Fixpoint contains (s sub : string) : bool :=
  startswith s sub ||
  match s with
  | EmptyString => false
  | String _ s' => contains s' sub
  end.

(** [s.split(sep)] for a one-character separator. *)
Fixpoint split (sep : ascii) (s : string) : list string :=
  match s with
  | EmptyString => [EmptyString]
  | String c s' =>
      if Ascii.eqb c sep then EmptyString :: split sep s'
      else match split sep s' with
           | h :: t => String c h :: t
           | [] => [String c EmptyString]
           end
  end.

(** [sep.join(l)] *)
Fixpoint join (sep : string) (l : list string) : string :=
  match l with
  | [] => EmptyString
  | [x] => x
  | x :: l' => x ++ sep ++ join sep l'
  end.

(** [s.replace(old, new)] for a non-empty [old]: occurrences are found
    from the left and do not overlap.  [skip] counts the characters of
    the occurrence just replaced that are still to be passed over. *)
Fixpoint replace_from (old new : string) (skip : nat) (s : string) : string :=
  match s with
  | EmptyString => EmptyString
  | String c s' =>
      match skip with
      | S k => replace_from old new k s'
      | O =>
          if startswith s old
          then new ++ replace_from old new (String.length old - 1) s'
          else String c (replace_from old new 0 s')
      end
  end.

Definition replace (s old new : string) : string := replace_from old new 0 s.

(** The characters [str.strip()] removes, among the first 128. *)
Definition isspace (c : ascii) : bool :=
  let n := nat_of_ascii c in
  (((9 <=? n) && (n <=? 13)) || ((28 <=? n) && (n <=? 32)))%nat.

Fixpoint lstrip (s : string) : string :=
  match s with
  | EmptyString => EmptyString
  | String c s' => if isspace c then lstrip s' else s
  end.

(** [s.rstrip()] : a character is kept when something that is not blank
    follows it or when it is not blank itself. *)
Fixpoint rstrip (s : string) : string :=
  match s with
  | EmptyString => EmptyString
  | String c s' =>
      match rstrip s' with
      | EmptyString => if isspace c then EmptyString else String c EmptyString
      | r => String c r
      end
  end.

Definition strip (s : string) : string := rstrip (lstrip s).

(** [str(n)] for a natural number *)
Definition of_nat (n : nat) : string := NilZero.string_of_uint (Nat.to_uint n).

Definition nl : string := String (ascii_of_nat 10) EmptyString.

(** Python truth value of a string *)
Definition truthy (s : string) : bool :=
  match s with EmptyString => false | _ => true end.

End Str.

(* ================================================================== *)
(** ** [os.path] (posixpath) *)

Module OsPath.

(** One step of [posixpath.join]: [path] joined with the next part [b]. *)
Definition join2 (path b : string) : string :=
  if Str.startswith b "/" then b
  else if negb (Str.truthy path) || Str.endswith path "/" then path ++ b
  else path ++ "/" ++ b.

(** [os.path.join(a, *p)] *)
Definition join (a : string) (p : list string) : string :=
  fold_left join2 p a.

(** [os.path.basename(p)] : what follows the last ['/']. *)
Definition basename (p : string) : string :=
  last (Str.split "/" p) EmptyString.

(** One turn of the loop of [posixpath.normpath] over the components. *)
Definition normpath_step (initial_slashes : nat) (new_comps : list string)
           (comp : string) : list string :=
  if String.eqb comp "" || String.eqb comp "." then new_comps
  else if negb (String.eqb comp "..")
          || (Nat.eqb initial_slashes 0 && Nat.eqb (List.length new_comps) 0)
          || (negb (Nat.eqb (List.length new_comps) 0)
              && String.eqb (last new_comps "") "..")
  then new_comps ++ [comp]
  else removelast new_comps.

Fixpoint slashes (n : nat) : string :=
  match n with
  | 0 => ""
  | S n' => ("/" ++ slashes n')%string
  end.

(** [os.path.normpath(path)] *)
Definition normpath (path : string) : string :=
  if negb (Str.truthy path) then "."
  else
    let initial_slashes :=
      if Str.startswith path "/"
      then if Str.startswith path "//" && negb (Str.startswith path "///")
           then 2 else 1
      else 0 in
    let comps :=
      fold_left (normpath_step initial_slashes) (Str.split "/" path) [] in
    let path' := (slashes initial_slashes ++ Str.join "/" comps)%string in
    if Str.truthy path' then path' else ".".

(** [os.path.abspath(path)] in the working directory [cwd] *)
Definition abspath (cwd path : string) : string :=
  normpath (if Str.startswith path "/" then path else join2 cwd path).

(** Length of [os.path.commonprefix([l1, l2])] for two lists of
    components: the longest prefix they share. *)
Fixpoint commonprefix_length (l1 l2 : list string) : nat :=
  match l1, l2 with
  | x :: l1', y :: l2' =>
      if String.eqb x y then S (commonprefix_length l1' l2') else 0
  | _, _ => 0
  end.

(** [[x for x in p.split('/') if x]] *)
Definition components (p : string) : list string :=
  filter Str.truthy (Str.split "/" p).

(** [os.path.relpath(path, start)] for a non-empty [path] *)
Definition relpath (cwd path start : string) : string :=
  let start_list := components (abspath cwd start) in
  let path_list := components (abspath cwd path) in
  let i := commonprefix_length start_list path_list in
  let rel_list :=
    repeat ".." (List.length start_list - i) ++ skipn i path_list in
  match rel_list with
  | [] => "."
  | first :: rest => join first rest
  end.

End OsPath.

(* ================================================================== *)
(** ** The fragment of [re] the installer uses

  A pattern is a sequence of atoms, each a literal text or a greedy
  [[class]+]; a regular expression is a list of alternative patterns,
  tried in order.  Matching backtracks as Python's engine does: a
  [[class]+] first takes the longest run of class characters and gives
  characters back one at a time until the rest of the pattern matches. *)

Module Re.

Definition in_range (lo hi : nat) (c : ascii) : bool :=
  let n := nat_of_ascii c in ((lo <=? n) && (n <=? hi))%nat.

(** [\d] *)
Definition isdigit (c : ascii) : bool := in_range 48 57 c.

(** [\w] *)
Definition isword (c : ascii) : bool :=
  isdigit c || in_range 65 90 c || in_range 97 122 c || Ascii.eqb c "_".

Inductive atom : Type :=
| Lit (text : string)
| Plus (cls : ascii -> bool).

Definition pattern := list atom.

Fixpoint drop (n : nat) (s : string) : string :=
  match n, s with
  | S n', String _ s' => drop n' s'
  | _, _ => s
  end.

Fixpoint take (n : nat) (s : string) : string :=
  match n, s with
  | S n', String c s' => String c (take n' s')
  | _, _ => EmptyString
  end.

(** Length of the longest prefix of [s] made of [cls] characters. *)
Fixpoint span (cls : ascii -> bool) (s : string) : nat :=
  match s with
  | String c s' => if cls c then S (span cls s') else 0
  | EmptyString => 0
  end.

(** [[cls]+] taking [k] characters, then [k-1], ..., then one. *)
Fixpoint backtrack (k : nat) (rest : string -> option (list string))
         (s : string) : option (list string) :=
  match k with
  | 0 => None
  | S k' =>
      match rest (drop k s) with
      | Some pieces => Some (take k s :: pieces)
      | None => backtrack k' rest s
      end
  end.

(** Match [p] at the start of [s]; the result lists the text each atom
    matched. *)
Fixpoint match_here (p : pattern) (s : string) : option (list string) :=
  match p with
  | [] => Some []
  | Lit text :: p' =>
      if Str.startswith s text
      then option_map (cons text) (match_here p' (drop (String.length text) s))
      else None
  | Plus cls :: p' => backtrack (span cls s) (match_here p') s
  end.

(** [a|b|...] at the start of [s]: the first alternative that matches. *)
Fixpoint match_alt (alts : list pattern) (s : string) : option (list string) :=
  match alts with
  | [] => None
  | p :: alts' =>
      match match_here p s with
      | Some pieces => Some pieces
      | None => match_alt alts' s
      end
  end.

(** [re.search]: the match at the leftmost position that has one. *)
Fixpoint search (alts : list pattern) (s : string) : option (list string) :=
  match match_alt alts s with
  | Some pieces => Some pieces
  | None =>
      match s with
      | EmptyString => None
      | String _ s' => search alts s'
      end
  end.

(** [re.findall] for an expression whose only group encloses all of it
    and that matches no empty text: the matched texts, from left to
    right, without overlap.  [skip] counts the characters of the last
    match still to be passed over. *)
Fixpoint findall_from (alts : list pattern) (skip : nat) (s : string) : list string :=
  match s with
  | EmptyString => []
  | String _ s' =>
      match skip with
      | S k => findall_from alts k s'
      | O =>
          match match_alt alts s with
          | Some pieces =>
              let m := String.concat "" pieces in
              m :: findall_from alts (String.length m - 1) s'
          | None => findall_from alts 0 s'
          end
      end
  end.

Definition findall (alts : list pattern) (s : string) : list string :=
  findall_from alts 0 s.

(** [re.match(r'^\d', s)] as a truth value *)
Definition match_leading_digit (s : string) : bool :=
  match s with
  | String c _ => isdigit c
  | EmptyString => false
  end.

End Re.

(* ================================================================== *)
(** ** Exceptions and the state-and-error monad *)

Inductive exn : Type :=
| ValueError (msg : string)
| AttributeError (attr : string)
| FileNotFoundError (filename : string)
| IntegrityError (msg : string).

Inductive outcome (A : Type) : Type :=
| Return (a : A)
| Raise (e : exn).

Arguments Return {A} a.
Arguments Raise {A} e.

(** A Python value bound to an SQL parameter. *)
Inductive pyval : Type :=
| PyNone
| PyStr (s : string).

(* ================================================================== *)
(** ** [db_manager.py] *)

Module DBManager.

(** A row of [packages]; [install_date] is filled by the engine and no
    code reads it. *)
Record package_row : Type := {
  pkg_id : Z;
  pkg_name : string;
  pkg_version : pyval
}.

Record file_row : Type := {
  file_id : Z;
  file_package_id : Z;
  file_path : string
}.

(** The two tables and, for each, the largest row id ever given out
    ([AUTOINCREMENT]). *)
Record tables : Type := {
  packages : list package_row;
  installed_files : list file_row;
  seq_packages : Z;
  seq_installed_files : Z
}.

(** A connection of [sqlite3] with its default transaction control: the
    database file holds [committed]; the first [INSERT] opens a
    transaction, whose working copy is [pending], and [commit] writes
    it back. *)
Record connection : Type := {
  committed : tables;
  pending : option tables
}.

(** What a statement on this connection sees. *)
Definition view (c : connection) : tables :=
  match pending c with
  | Some t => t
  | None => committed c
  end.

(** [_create_tables] on a new database file. *)
Definition empty_tables : tables :=
  {| packages := []; installed_files := [];
     seq_packages := 0; seq_installed_files := 0 |}.

Definition connect : connection :=
  {| committed := empty_tables; pending := None |}.

(** [INSERT INTO packages (name, version) VALUES (?, ?)]: [name] is
    [NOT NULL]; the result is the new row id and the new tables. *)
Definition insert_package (name version : pyval) (t : tables)
  : option (Z * tables) :=
  match name with
  | PyNone => None
  | PyStr n =>
      let rowid := (seq_packages t + 1)%Z in
      Some (rowid,
            {| packages := packages t ++
                 [{| pkg_id := rowid; pkg_name := n; pkg_version := version |}];
               installed_files := installed_files t;
               seq_packages := rowid;
               seq_installed_files := seq_installed_files t |})
  end.

(** [INSERT INTO installed_files (package_id, path) VALUES (?, ?)]:
    [path] is [NOT NULL]. *)
Definition insert_file (package_id : Z) (path : pyval) (t : tables)
  : option tables :=
  match path with
  | PyNone => None
  | PyStr p =>
      let rowid := (seq_installed_files t + 1)%Z in
      Some {| packages := packages t;
              installed_files := installed_files t ++
                [{| file_id := rowid; file_package_id := package_id;
                    file_path := p |}];
              seq_packages := seq_packages t;
              seq_installed_files := rowid |}
  end.

(** [executemany]: one [INSERT] per record, in order; the first one
    that fails stops the loop and the rows inserted before it stay in
    the transaction.  The boolean tells whether every insert passed. *)
Fixpoint executemany (records : list (Z * pyval)) (t : tables) : bool * tables :=
  match records with
  | [] => (true, t)
  | (package_id, path) :: records' =>
      match insert_file package_id path t with
      | Some t' => executemany records' t'
      | None => (false, t)
      end
  end.

(** [add_package(self, name, version, files)] *)
Definition add_package (name version : pyval) (files : list pyval)
           (c : connection) : outcome Z * connection :=
  match insert_package name version (view c) with
  | None =>
      (Raise (IntegrityError "NOT NULL constraint failed: packages.name"),
       {| committed := committed c; pending := Some (view c) |})
  | Some (package_id, t1) =>
      let file_records := map (fun file_path => (package_id, file_path)) files in
      match executemany file_records t1 with
      | (false, t2) =>
          (Raise (IntegrityError "NOT NULL constraint failed: installed_files.path"),
           {| committed := committed c; pending := Some t2 |})
      | (true, t2) =>
          (Return package_id, {| committed := t2; pending := None |})
      end
  end.

(** [get_files_for_package(self, package_id)] *)
Definition get_files_for_package (package_id : Z) (c : connection) : list string :=
  map file_path
      (filter (fun r => Z.eqb (file_package_id r) package_id)
              (installed_files (view c))).

End DBManager.

(* ================================================================== *)
(** ** [installer.py]: the world and the state *)

Module Installer.

(** A member of an archive ([tarfile.TarInfo]). *)
Record tarinfo : Type := {
  name : string;
  isdir : bool;
  size : nat
}.

(** What [tarfile.open(path, 'r:gz')] and then [extractall] do.  Of the
    failures of [tarfile], the ones the program handles are
    represented, those of class [tarfile.TarError]; an archive file
    that is missing or cut short ([FileNotFoundError], [EOFError]) is
    not, so the statements below speak of archives that open or fail
    with a [TarError]. *)
Inductive tarfile : Type :=
| TarError (msg : string)
    (* [open] or [getmembers] raises [tarfile.TarError] *)
| TarFile (members : list tarinfo) (extractall_error : option string).
    (* [getmembers()], and the [TarError] of [extractall], if any *)

(** A directory tree as [os.walk] sees it: an entry is a directory or
    it is listed among the files. *)
#[warnings="-register-all"]
Inductive node : Type :=
| File
| Dir (entries : list (string * node)).

(** A finished child process: the text of its merged standard output
    and error, its exit status, and what it wrote below [DESTDIR]. *)
Record process : Type := {
  output : string;
  returncode : Z;
  destdir_entries : list (string * node)
}.

Record World : Type := {
  gettempdir : string;
  mkdtemp_random : nat -> string;       (* random part of the n-th name *)
  getcwd : string;
  tar_open : string -> tarfile;
  path_isdir : string -> bool;          (* [os.path.isdir] *)
  path_exists : string -> bool;         (* [os.path.exists] *)
  which : string -> bool;               (* can [argv[0]] be launched? *)
  run : list string -> option string -> process
                                        (* [argv], [DESTDIR] *)
}.

(** The fields of the [Installer] object, the log sink, the temporary
    directories that exist and the processes started so far. *)
Record state : Type := {
  file_path : string;
  temp_dir : option string;
  extracted_path : option string;       (* [None]: attribute not set *)
  db_manager : option DBManager.connection;
  log : list string;
  tmp_count : nat;
  tmp_dirs : list string;
  spawned : list (list string * option string)
}.

(** [Installer(file_path, log_callback, db_manager)] *)
Definition init (path : string) (db : option DBManager.connection) : state :=
  {| file_path := path; temp_dir := None; extracted_path := None;
     db_manager := db; log := []; tmp_count := 0; tmp_dirs := [];
     spawned := [] |}.

Definition set_temp_dir (v : option string) (s : state) : state :=
  {| file_path := file_path s; temp_dir := v;
     extracted_path := extracted_path s; db_manager := db_manager s;
     log := log s; tmp_count := tmp_count s; tmp_dirs := tmp_dirs s;
     spawned := spawned s |}.

Definition set_extracted_path (v : option string) (s : state) : state :=
  {| file_path := file_path s; temp_dir := temp_dir s;
     extracted_path := v; db_manager := db_manager s;
     log := log s; tmp_count := tmp_count s; tmp_dirs := tmp_dirs s;
     spawned := spawned s |}.

Definition set_db_manager (v : option DBManager.connection) (s : state) : state :=
  {| file_path := file_path s; temp_dir := temp_dir s;
     extracted_path := extracted_path s; db_manager := v;
     log := log s; tmp_count := tmp_count s; tmp_dirs := tmp_dirs s;
     spawned := spawned s |}.

Definition set_log (v : list string) (s : state) : state :=
  {| file_path := file_path s; temp_dir := temp_dir s;
     extracted_path := extracted_path s; db_manager := db_manager s;
     log := v; tmp_count := tmp_count s; tmp_dirs := tmp_dirs s;
     spawned := spawned s |}.

Definition set_tmp (count : nat) (dirs : list string) (s : state) : state :=
  {| file_path := file_path s; temp_dir := temp_dir s;
     extracted_path := extracted_path s; db_manager := db_manager s;
     log := log s; tmp_count := count; tmp_dirs := dirs;
     spawned := spawned s |}.

Definition set_spawned (v : list (list string * option string)) (s : state) : state :=
  {| file_path := file_path s; temp_dir := temp_dir s;
     extracted_path := extracted_path s; db_manager := db_manager s;
     log := log s; tmp_count := tmp_count s; tmp_dirs := tmp_dirs s;
     spawned := v |}.

(** *** The monad of the methods *)

Definition M (A : Type) : Type := state -> outcome A * state.

Definition ret {A : Type} (a : A) : M A := fun s => (Return a, s).

Definition raise {A : Type} (e : exn) : M A := fun s => (Raise e, s).

Definition bind {A B : Type} (m : M A) (k : A -> M B) : M B :=
  fun s =>
    match m s with
    | (Return a, s') => k a s'
    | (Raise e, s') => (Raise e, s')
    end.

Definition get : M state := fun s => (Return s, s).

Definition modify (f : state -> state) : M unit := fun s => (Return tt, f s).

(** [try: body except E: handler] *)
Definition try_except {A : Type} (body : M A) (catches : exn -> bool)
           (handler : exn -> M A) : M A :=
  fun s =>
    match body s with
    | (Raise e, s') => if catches e then handler e s' else (Raise e, s')
    | r => r
    end.

Declare Scope py_scope.
Delimit Scope py_scope with py.
Notation "x <- m ;; k" := (bind m (fun x => k))
  (at level 61, m at next level, right associativity) : py_scope.
Notation "m ;; k" := (bind m (fun _ => k))
  (at level 61, right associativity) : py_scope.
Local Open Scope py_scope.

(** *** Operating system calls *)

(** [self._log(message)] *)
Definition _log (message : string) : M unit :=
  modify (fun s => set_log (log s ++ [message]) s).

Definition mem (p : string) (l : list string) : bool :=
  existsb (String.eqb p) l.

Section WithWorld.

Variable w : World.

(** [tempfile.mkdtemp(prefix=...)] *)
Definition mkdtemp (prefix : string) : M string :=
  fun s =>
    let path := OsPath.join2 (gettempdir w) (prefix ++ mkdtemp_random w (tmp_count s)) in
    (Return path, set_tmp (S (tmp_count s)) (tmp_dirs s ++ [path]) s).

(** [shutil.rmtree(path)] of a temporary directory.  A removal the
    file system refuses ([PermissionError] on a tree with a read-only
    directory) is not represented: an existing directory is always
    removed. *)
Definition rmtree (path : string) : M unit :=
  fun s =>
    if mem path (tmp_dirs s)
    then (Return tt,
          set_tmp (tmp_count s)
                  (filter (fun d => negb (String.eqb path d)) (tmp_dirs s)) s)
    else (Raise (FileNotFoundError path), s).

(** [subprocess.Popen(command, cwd=..., env=...)] up to the exit of the
    child; a child that starts is added to [spawned].  A command that
    cannot be started fails with [FileNotFoundError], the error the
    program handles; the other [OSError]s of [Popen] (a file without
    the execute permission) are not represented. *)
Definition popen (command : list string) (destdir : option string) : M process :=
  fun s =>
    if which w (hd "" command)
    then (Return (run w command destdir),
          set_spawned (spawned s ++ [(command, destdir)]) s)
    else (Raise (FileNotFoundError (hd "" command)), s).

Definition is_FileNotFoundError (e : exn) : bool :=
  match e with FileNotFoundError _ => true | _ => false end.

(** The lines [process.stdout.readline] returns before the empty
    string of the end of file. *)
Fixpoint readlines (text : string) : list string :=
  match text with
  | EmptyString => []
  | String c text' =>
      if Ascii.eqb c (ascii_of_nat 10) then String c EmptyString :: readlines text'
      else match readlines text' with
           | [] => [String c EmptyString]
           | line :: lines => String c line :: lines
           end
  end.

(** *** [cleanup] and [extract_package] *)

Definition cleanup : M unit :=
  s <- get ;;
  match temp_dir s with
  | Some d =>
      if Str.truthy d && mem d (tmp_dirs s)
      then rmtree d ;;
           _log ("Cleaned up temporary directory: " ++ d)
      else ret tt
  | None => ret tt
  end.

(** The [except tarfile.TarError as e] branch. *)
Definition extract_failed (e : string) : M (option string) :=
  _log ("Error extracting tar file: " ++ e) ;;
  cleanup ;;
  ret None.

Definition extract_package : M (option string) :=
  s <- get ;;
  if negb (Str.endswith (file_path s) ".tar.gz")
  then raise (ValueError "Invalid file type. Only .tar.gz is supported.")
  else
    tmp <- mkdtemp "library_" ;;
    modify (set_temp_dir (Some tmp)) ;;
    _log ("Extracting " ++ file_path s ++ " to " ++ tmp) ;;
    match tar_open w (file_path s) with
    | TarError e => extract_failed e
    | TarFile members extractall_error =>
        let path :=
          match members with
          | first :: _ =>
              let root_folder := hd "" (Str.split "/" (name first)) in
              OsPath.join tmp [root_folder]
          | [] => tmp
          end in
        modify (set_extracted_path (Some path)) ;;
        match extractall_error with
        | Some e => extract_failed e
        | None =>
            _log ("Extraction successful to " ++ path) ;;
            ret (Some path)
        end
    end.

(** *** [detect_build_system] *)

Inductive build_system : Type := autotools | cmake | python | make.

Definition build_system_name (b : build_system) : string :=
  match b with
  | autotools => "autotools"
  | cmake => "cmake"
  | python => "python"
  | make => "make"
  end.

Definition detect_build_system : M (option build_system) :=
  s <- get ;;
  match extracted_path s with
  | None => raise (AttributeError "extracted_path")
  | Some path =>
      if negb (Str.truthy path) || negb (path_isdir w path)
      then _log "Extracted path not found." ;; ret None
      else if path_exists w (OsPath.join path ["configure"]) then ret (Some autotools)
      else if path_exists w (OsPath.join path ["CMakeLists.txt"]) then ret (Some cmake)
      else if path_exists w (OsPath.join path ["setup.py"]) then ret (Some python)
      else if path_exists w (OsPath.join path ["Makefile"]) then ret (Some make)
      else ret None
  end.

(** *** [_parse_error_for_dependencies] *)

(** [fatal error: ([\w\/\.]+\.h):] ; the group is the second piece
    followed by [.h]. *)
Definition header_class (c : ascii) : bool :=
  Re.isword c || Ascii.eqb c "/" || Ascii.eqb c ".".

Definition header_re : list Re.pattern :=
  [[Re.Lit "fatal error: "; Re.Plus header_class; Re.Lit ".h:"]].

Definition header_group (pieces : list string) : string :=
  nth 1 pieces "" ++ ".h".

(** [cannot find -l(\w+)] ; the group is the second piece. *)
Definition lib_re : list Re.pattern :=
  [[Re.Lit "cannot find -l"; Re.Plus Re.isword]].

Definition lib_group (pieces : list string) : string := nth 1 pieces "".

Definition _parse_error_for_dependencies (error_output : string)
  : M (option string) :=
  match Re.search header_re error_output with
  | Some header_match =>
      let missing_header := header_group header_match in
      _log ("Potential missing header file: " ++ missing_header ++
            ". Try installing a related '-dev' package.") ;;
      ret (Some ("package containing " ++ missing_header)%string)
  | None =>
      match Re.search lib_re error_output with
      | Some lib_match =>
          let missing_lib := lib_group lib_match in
          let suggested_package := ("lib" ++ missing_lib ++ "-dev")%string in
          _log ("Potential missing library: lib" ++ missing_lib ++
                ". Suggested package: " ++ suggested_package) ;;
          ret (Some suggested_package)
      | None => ret None
      end
  end.

(** *** [_get_package_name] and [_get_package_version] *)

Definition package_name_of (path : string) : string :=
  let basename := OsPath.basename path in
  let parts := Str.split "-" (Str.replace basename ".tar.gz" "") in
  let name_parts := filter (fun p => negb (Re.match_leading_digit p)) parts in
  let joined := Str.join "-" name_parts in
  if Str.truthy joined then joined else "unknown_package".

(** [(\d+\.\d+\.\d+|\d+\.\d+)] *)
Definition version_re : list Re.pattern :=
  [[Re.Plus Re.isdigit; Re.Lit "."; Re.Plus Re.isdigit; Re.Lit ".";
    Re.Plus Re.isdigit];
   [Re.Plus Re.isdigit; Re.Lit "."; Re.Plus Re.isdigit]].

Definition package_version_of (path : string) : string :=
  let basename := OsPath.basename path in
  let matches := Re.findall version_re basename in
  match matches with
  | first :: _ => first
  | [] => "unknown"
  end.

Definition _get_package_name : M string :=
  s <- get ;; ret (package_name_of (file_path s)).

Definition _get_package_version : M string :=
  s <- get ;; ret (package_version_of (file_path s)).

(** *** The install tracker: [os.walk] over the staging directory *)

Definition is_dir (n : node) : bool :=
  match n with Dir _ => true | File => false end.

Definition dirnames (entries : list (string * node)) : list string :=
  map fst (filter (fun e => is_dir (snd e)) entries).

Definition filenames (entries : list (string * node)) : list string :=
  map fst (filter (fun e => negb (is_dir (snd e))) entries).

(** [os.walk(top)], top down: the directory itself, then each of its
    sub-directories in turn; nothing for what is not a directory. *)
Fixpoint walk (top : string) (n : node)
  : list (string * list string * list string) :=
  match n with
  | File => []
  | Dir entries =>
      (top, dirnames entries, filenames entries) ::
      (fix subdirs (es : list (string * node)) :=
         match es with
         | [] => []
         | (dirname, child) :: es' =>
             walk (OsPath.join top [dirname]) child ++ subdirs es'
         end) entries
  end.

(** Step 3 of [run_installation]. *)
Definition track_installed_files (staging_dir : string)
           (entries : list (string * node)) : list string :=
  flat_map
    (fun '(root, _, files) =>
       map (fun file =>
              let full_path := OsPath.join root [file] in
              let relative_path :=
                OsPath.relpath (getcwd w) full_path staging_dir in
              ("/" ++ relative_path)%string)
           files)
    (walk staging_dir (Dir entries)).

(** *** [run_installation] *)

(** The second component of the pair [run_installation] returns: a
    text, or the dictionary [{"type": "dependency", "package": p}]. *)
Inductive payload : Type :=
| Message (text : string)
| DependencyInfo (package : string).

Definition commands (b : build_system) : list (list string) :=
  match b with
  | autotools => [["./configure"]; ["make"]; ["make"; "install"]]
  | cmake => [["cmake"; "."]; ["make"]; ["make"; "install"]]
  | python => [["python3"; "setup.py"; "install"]]
  | make => [["make"]; ["make"; "install"]]
  end.

Definition mentions_install (cmd : list string) : bool :=
  Str.contains (Str.join " " cmd) "install".

Definition build_commands_of (install_commands : list (list string))
  : list (list string) :=
  filter (fun cmd => negb (mentions_install cmd)) install_commands.

Definition install_commands_only_of (install_commands : list (list string))
  : list (list string) :=
  filter mentions_install install_commands.

(** The loop over [process.stdout.readline]: every line goes to the
    log, stripped, and is added to [full_output]. *)
Fixpoint read_output (lines : list string) (full_output : string) : M string :=
  match lines with
  | [] => ret full_output
  | line :: lines' =>
      _log (Str.strip line) ;;
      read_output lines' (full_output ++ line)%string
  end.

(** One turn of the loop over [build_commands]; [Some r] stands for
    [return r], [None] for going on with the next command. *)
Definition run_build_command (command : list string)
  : M (option (bool * payload)) :=
  _log (Str.nl ++ "--- Running build command: " ++ Str.join " " command ++ " ---") ;;
  try_except
    (process <- popen command None ;;
     full_output <- read_output (readlines (output process)) "" ;;
     if negb (Z.eqb (returncode process) 0)
     then
       _log ("Error executing command: " ++ Str.join " " command) ;;
       missing_package <- _parse_error_for_dependencies full_output ;;
       match missing_package with
       | Some package =>
           if Str.truthy package
           then ret (Some (false, DependencyInfo package))
           else ret (Some (false,
                  Message ("Command failed: " ++ Str.join " " command)))
       | None =>
           ret (Some (false,
                  Message ("Command failed: " ++ Str.join " " command)))
       end
     else ret None)
    is_FileNotFoundError
    (fun _ =>
       _log ("Error: Command '" ++ hd "" command ++
             "' not found. Is it in your PATH?") ;;
       ret (Some (false, Message ("Command not found: " ++ hd "" command)))).

Fixpoint run_build_commands (build_commands : list (list string))
  : M (option (bool * payload)) :=
  match build_commands with
  | [] => ret None
  | command :: rest =>
      r <- run_build_command command ;;
      match r with
      | Some result => ret (Some result)
      | None => run_build_commands rest
      end
  end.

Fixpoint log_each (prefix : string) (items : list string) : M unit :=
  match items with
  | [] => ret tt
  | item :: items' => _log (prefix ++ item) ;; log_each prefix items'
  end.

(** [self.db_manager.add_package(...)] on the shared store.  The
    errors of [sqlite3] other than the [NOT NULL] constraints (a text
    that cannot be encoded, a locked database file, a connection used
    from another thread) are not represented. *)
Definition db_add_package (package_name package_version : string)
           (installed_files : list string) : M Z :=
  fun s =>
    match db_manager s with
    | Some c =>
        let (r, c') :=
          DBManager.add_package (PyStr package_name) (PyStr package_version)
                                (map PyStr installed_files) c in
        (r, set_db_manager (Some c') s)
    | None => (Raise (AttributeError "add_package"), s)
    end.

Definition nonempty {A : Type} (l : list A) : bool :=
  match l with [] => false | _ => true end.

Definition run_installation : M (bool * payload) :=
  build_system <- detect_build_system ;;
  match build_system with
  | None =>
      _log "Could not detect a known build system." ;;
      ret (false, Message "Build system not detected")
  | Some b =>
      _log ("Detected build system: " ++ build_system_name b) ;;
      let install_commands := commands b in
      let build_commands := build_commands_of install_commands in
      let install_commands_only := install_commands_only_of install_commands in
      early <- run_build_commands build_commands ;;
      match early with
      | Some result => ret result
      | None =>
          _log (Str.nl ++ "Build process completed successfully.") ;;
          match install_commands_only with
          | [] =>
              _log "No installation command found. Skipping file tracking." ;;
              ret (true, Message "Build successful (no install step)")
          | install_command :: _ =>
              staging_dir <- mkdtemp "library_staging_" ;;
              _log ("Created staging directory for installation tracking: "
                    ++ staging_dir) ;;
              _log (Str.nl ++ "--- Running install command: " ++
                    Str.join " " install_command ++ " with DESTDIR=" ++
                    staging_dir ++ " ---") ;;
              process <- popen install_command (Some staging_dir) ;;
              log_each "" (map Str.strip (readlines (output process))) ;;
              if negb (Z.eqb (returncode process) 0)
              then
                _log ("Error executing install command: " ++
                      Str.join " " install_command) ;;
                rmtree staging_dir ;;
                ret (false, Message "Installation command failed")
              else
                let installed_files :=
                  track_installed_files staging_dir (destdir_entries process) in
                _log ("Tracked " ++ Str.of_nat (List.length installed_files) ++
                      " installed files:") ;;
                log_each "- " installed_files ;;
                s <- get ;;
                match db_manager s with
                | Some _ =>
                    if nonempty installed_files
                    then
                      package_name <- _get_package_name ;;
                      package_version <- _get_package_version ;;
                      _log ("Saving package '" ++ package_name ++ "-" ++
                            package_version ++ "' to database.") ;;
                      db_add_package package_name package_version
                                     installed_files ;;
                      _log "Package information saved successfully."
                    else ret tt
                | None => ret tt
                end ;;
                rmtree staging_dir ;;
                _log "Cleaned up staging directory." ;;
                _log (Str.nl ++ "Installation tracking finished.") ;;
                ret (true, Message "Success")
          end
      end
  end.

End WithWorld.

End Installer.

(* ================================================================== *)
(** ** [main_window.py]: the worker thread *)

Module Worker.

Import Installer.
Local Open Scope py_scope.

(** The signals of [Worker] besides [progress]; [progress] is the log
    sink of the installer. *)
Inductive signal : Type :=
| finished (message : string)
| dependency_found (package : string).

(** [Installer(self.file_path, log_callback=self.progress.emit,
    db_manager=db_manager)]: a new object on the same machine, the same
    log sink and the same store. *)
Definition new_installer (path : string) (s : state) : state :=
  {| file_path := path; temp_dir := None; extracted_path := None;
     db_manager := db_manager s; log := log s; tmp_count := tmp_count s;
     tmp_dirs := tmp_dirs s; spawned := spawned s |}.

(** The signal for the pair [run_installation] returned. *)
Definition signal_of (success : bool) (result : payload) : signal :=
  if success then finished "Installation completed successfully!"
  else match result with
       | DependencyInfo package => dependency_found package
       | Message text => finished ("Installation failed: " ++ text)
       end.

(** [Worker.run]; the result lists the [finished] and
    [dependency_found] signals emitted, in order.  The store is the
    connection of the module, used here as in the thread that made it:
    the check of [sqlite3] that refuses a connection in another thread
    is not represented. *)
Definition run (w : World) (path : string) : M (list signal) :=
  fun s =>
    (extracted <- extract_package w ;;
     if match extracted with
        | Some p => Str.truthy p
        | None => false
        end
     then
       r <- run_installation w ;;
       cleanup ;;
       _log "Cleanup complete." ;;
       ret [signal_of (fst r) (snd r)]
     else ret [finished "Failed to extract package."])
      (new_installer path s).

End Worker.

(* ================================================================== *)
(** ** Sample inputs *)

Module Samples.

Import Installer.

(** An archive made with the files at its top level, no wrapping
    directory: [tar czf flat.tar.gz Makefile main.c]. *)
Definition flat_members : list tarinfo :=
  [{| name := "Makefile"; isdir := false; size := 42 |};
   {| name := "main.c"; isdir := false; size := 50 |}].

(** The archive of the self-test of [installer.py]:
    [tar.add('dummy_package_ok-1.0')]. *)
Definition wrapped_members : list tarinfo :=
  [{| name := "dummy_package_ok-1.0"; isdir := true; size := 0 |};
   {| name := "dummy_package_ok-1.0/Makefile"; isdir := false; size := 120 |}].

(** What [make install] of that self-test writes below [DESTDIR]. *)
Definition dummy_destdir : list (string * node) :=
  [("usr", Dir [("local", Dir [("bin", Dir [("dummy_app", File)])])])].

Definition ends_with_any (p : string) (names : list string) : bool :=
  existsb (fun n => Str.endswith p ("/" ++ n)) names.

(** A machine where every tool is installed and every command
    succeeds; the extracted tree holds the files [present]. *)
Definition healthy (members : list tarinfo) (present : list string) : World :=
  {| gettempdir := "/tmp";
     mkdtemp_random := fun n => Str.of_nat n;
     getcwd := "/home/user";
     tar_open := fun _ => TarFile members None;
     path_isdir := fun p => negb (ends_with_any p ["Makefile"; "main.c"]);
     path_exists := fun p => ends_with_any p present;
     which := fun _ => true;
     run := fun _ destdir =>
       {| output := "ok" ++ Str.nl;
          returncode := 0;
          destdir_entries :=
            match destdir with Some _ => dummy_destdir | None => [] end |} |}.

(** The same machine without [missing] on the [PATH] and where the
    commands listed in [failing] exit with status 2 after printing
    [failure_text]. *)
Definition broken (base : World) (missing : list string)
           (failing : list (list string)) (failure_text : string) : World :=
  {| gettempdir := gettempdir base;
     mkdtemp_random := mkdtemp_random base;
     getcwd := getcwd base;
     tar_open := tar_open base;
     path_isdir := path_isdir base;
     path_exists := path_exists base;
     which := fun exe => negb (mem exe missing);
     run := fun cmd destdir =>
       if existsb (fun f => String.eqb (Str.join " " f) (Str.join " " cmd)) failing
       then {| output := failure_text; returncode := 2; destdir_entries := [] |}
       else run base cmd destdir |}.

(** An installer whose archive has been extracted to [root]. *)
Definition extracted (path root : string) (db : option DBManager.connection)
  : state :=
  {| file_path := path; temp_dir := Some "/tmp/library_0";
     extracted_path := Some root; db_manager := db; log := [];
     tmp_count := 1; tmp_dirs := ["/tmp/library_0"]; spawned := [] |}.

End Samples.

(* ================================================================== *)
(** ** Vocabulary of the specification *)

Module Spec.

Import Installer.
Local Open Scope string_scope.

(** The temporary directory the next [mkdtemp(prefix)] creates. *)
Definition next_mkdtemp (w : World) (prefix : string) (s : state) : string :=
  OsPath.join2 (gettempdir w) (prefix ++ mkdtemp_random w (tmp_count s)).

Definition next_temp_dir (w : World) (s : state) : string :=
  next_mkdtemp w "library_" s.

(** The kinds of build system of the specification. *)
Inductive BuildSystemKind : Type :=
| KindAutotools | KindCMake | KindPythonSetuptools | KindMake | KindNone.

(** The priority order of the specification, over the four existence
    checks. *)
Definition detect_by_priority (configure cmakelists setup_py makefile : bool)
  : BuildSystemKind :=
  if configure then KindAutotools
  else if cmakelists then KindCMake
  else if setup_py then KindPythonSetuptools
  else if makefile then KindMake
  else KindNone.

Definition kind_of (detected : option build_system) : BuildSystemKind :=
  match detected with
  | Some autotools => KindAutotools
  | Some cmake => KindCMake
  | Some python => KindPythonSetuptools
  | Some make => KindMake
  | None => KindNone
  end.

(** [diagnose] of the specification: the hint for a failed build
    output, header pattern first. *)
Definition diagnose (text : string) : option string :=
  match Re.search header_re text with
  | Some m => Some ("package containing " ++ header_group m)
  | None =>
      match Re.search lib_re text with
      | Some m => Some ("lib" ++ lib_group m ++ "-dev")
      | None => None
      end
  end.

(** The state [s] after [lines] more were logged and the processes
    [started] were started. *)
Definition after (s : state) (lines : list string)
           (started : list (list string * option string)) : state :=
  set_spawned (spawned s ++ started) (set_log (log s ++ lines) s).

(** A build command runs without [DESTDIR]. *)
Definition as_build (cmd : list string) : list string * option string :=
  (cmd, None).

(** What [run_installation] answers when the build [command] fails
    after printing [text]. *)
Definition build_failure (command : list string) (text : string) : payload :=
  match diagnose text with
  | Some hint => DependencyInfo hint
  | None => Message ("Command failed: " ++ Str.join " " command)
  end.

(** The rows [executemany] adds for [paths], the last row id given out
    before being [last_id]. *)
Fixpoint file_rows (package_id last_id : Z) (paths : list string)
  : list DBManager.file_row :=
  match paths with
  | [] => []
  | path :: paths' =>
      {| DBManager.file_id := last_id + 1;
         DBManager.file_package_id := package_id;
         DBManager.file_path := path |}
      :: file_rows package_id (last_id + 1) paths'
  end.

(** No file row refers to a package id that was not given out yet:
    what holds of a database only ever written by [add_package]. *)
Definition references_known_packages (t : DBManager.tables) : Prop :=
  forall r, In r (DBManager.installed_files t) ->
            (DBManager.file_package_id r <= DBManager.seq_packages t)%Z.

(** The connections [add_package] can produce from a new database. *)
Inductive reachable : DBManager.connection -> Prop :=
| reachable_connect : reachable DBManager.connect
| reachable_add (c : DBManager.connection) (name version : pyval)
                (files : list pyval) :
    reachable c ->
    reachable (snd (DBManager.add_package name version files c)).

(** Stripping a suffix: the text before the place where what remains
    is exactly [suf]; the text itself when it does not end in [suf]. *)
Fixpoint removesuffix (s suf : string) : string :=
  if String.eqb s suf then ""
  else match s with
       | EmptyString => ""
       | String c s' => String c (removesuffix s' suf)
       end.

(** The package name as the specification words it: strip [.tar.gz],
    split on [-], drop the components that start with a digit, join
    with [-], with a default for the empty result. *)
Definition name_by_spec (file_name : string) : string :=
  let stem := removesuffix file_name ".tar.gz" in
  let kept :=
    filter (fun part => match part with
                        | String c _ => negb (Re.isdigit c)
                        | EmptyString => true
                        end)
           (Str.split "-" stem) in
  match Str.join "-" kept with
  | EmptyString => "unknown_package"
  | joined => joined
  end.

(** [sub] occurs in [s] at the very end or not at all. *)
Fixpoint only_as_suffix (s sub : string) : bool :=
  match s with
  | EmptyString => true
  | String _ s' =>
      (negb (Str.startswith s sub) || String.eqb s sub)
      && only_as_suffix s' sub
  end.

(** A numeral is a longest run of digits.  [version_at s] is the
    version pattern that starts [s]: numeral, dot, numeral, and a
    third numeral when a dot and a digit follow. *)
Definition version_at (s : string) : option string :=
  let x := Re.span Re.isdigit s in
  let s1 := Re.drop x s in
  let y := Re.span Re.isdigit (Re.drop 1 s1) in
  let s2 := Re.drop y (Re.drop 1 s1) in
  let z := Re.span Re.isdigit (Re.drop 1 s2) in
  if (0 <? x)%nat && Str.startswith s1 "." && (0 <? y)%nat
  then
    if Str.startswith s2 "." && (0 <? z)%nat
    then Some (Re.take x s ++ "." ++ Re.take y (Re.drop 1 s1) ++ "." ++
               Re.take z (Re.drop 1 s2))
    else Some (Re.take x s ++ "." ++ Re.take y (Re.drop 1 s1))
  else None.

(** The first version pattern found in [s], from the left. *)
Fixpoint first_version (s : string) : option string :=
  match s with
  | EmptyString => None
  | String _ s' =>
      match version_at s with
      | Some v => Some v
      | None => first_version s'
      end
  end.

Definition version_by_spec (file_name : string) : string :=
  match first_version file_name with
  | Some v => v
  | None => "unknown"
  end.

(** A name a directory entry can have. *)
Definition valid_name (n : string) : bool :=
  Str.truthy n && negb (Str.contains n "/")
  && negb (String.eqb n ".") && negb (String.eqb n "..").

(** The absolute path made of the components [comps]. *)
Definition absolute (comps : list string) : string :=
  "/" ++ Str.join "/" comps.

(** [file_at n p]: following the names [p] from the directory [n]
    leads to an entry that is not a directory. *)
Inductive file_at : node -> list string -> Prop :=
| file_here (name : string) (entries : list (string * node)) :
    In (name, File) entries -> file_at (Dir entries) [name]
| file_deeper (name : string) (child : node)
              (entries : list (string * node)) (p : list string) :
    In (name, child) entries -> file_at child p ->
    file_at (Dir entries) (name :: p).

(** In every directory the names are valid and distinct. *)
#[warnings="-register-all"]
Inductive well_formed : node -> Prop :=
| wf_file : well_formed File
| wf_dir (entries : list (string * node)) :
    NoDup (map fst entries) ->
    Forall (fun e => valid_name (fst e) = true) entries ->
    Forall (fun e => well_formed (snd e)) entries ->
    well_formed (Dir entries).

(** The files below a directory, by their names from it, in the order
    [os.walk] meets them. *)
Fixpoint files_below (n : node) : list (list string) :=
  match n with
  | File => []
  | Dir entries =>
      (map (fun file => [file]) (filenames entries) ++
       (fix below (es : list (string * node)) : list (list string) :=
          match es with
          | [] => []
          | (dirname, child) :: es' =>
              map (cons dirname) (files_below child) ++ below es'
          end) entries)%list
  end.

(** Induction on trees, with the hypothesis for every entry of a
    directory. *)
Fixpoint node_induction (P : node -> Prop) (HFile : P File)
         (HDir : forall entries,
             Forall (fun e => P (snd e)) entries -> P (Dir entries))
         (n : node) : P n :=
  match n with
  | File => HFile
  | Dir entries =>
      HDir entries
        ((fix all (es : list (string * node))
            : Forall (fun e => P (snd e)) es :=
            match es with
            | [] => Forall_nil _
            | (name, child) :: es' =>
                Forall_cons (name, child)
                            (node_induction P HFile HDir child) (all es')
            end) entries)
  end.

(** Every character of [s] is in the class [cls]. *)
Fixpoint all_chars (cls : ascii -> bool) (s : string) : bool :=
  match s with
  | EmptyString => true
  | String c s' => cls c && all_chars cls s'
  end.

(** The text an atom can match. *)
Inductive piece_of : Re.atom -> string -> Prop :=
| piece_lit (text : string) : piece_of (Re.Lit text) text
| piece_plus (cls : ascii -> bool) (s : string) :
    s <> "" -> all_chars cls s = true -> piece_of (Re.Plus cls) s.

(** The pieces of a match put together. *)
Definition matched (pieces : list string) : string :=
  fold_right String.append "" pieces.

(** Package ids lie between 1 and the last id given out, no two
    packages share an id, and every file row belongs to a package that
    is there. *)
Definition store_consistent (t : DBManager.tables) : Prop :=
  (forall p, In p (DBManager.packages t) ->
             (1 <= DBManager.pkg_id p <= DBManager.seq_packages t)%Z) /\
  (0 <= DBManager.seq_packages t)%Z /\
  NoDup (map DBManager.pkg_id (DBManager.packages t)) /\
  (forall r, In r (DBManager.installed_files t) ->
             In (DBManager.file_package_id r)
                (map DBManager.pkg_id (DBManager.packages t))).

(** The root [extract_package] computes from the members of the
    archive and the temporary directory. *)
Definition root_of (tmp : string) (members : list tarinfo) : string :=
  match members with
  | first :: _ => OsPath.join tmp [hd "" (Str.split "/" (name first))]
  | [] => tmp
  end.

(** The installer [s] once [extract_package] has created its temporary
    directory, [dirs] being the directories that exist and [root] the
    extracted path. *)
Definition unpacked (w : World) (s : state) (root : option string)
           (dirs : list string) : state :=
  set_extracted_path root
    (set_temp_dir (Some (next_temp_dir w s))
       (set_tmp (S (tmp_count s)) dirs s)).

(** The directories left when [d] is removed. *)
Definition without (d : string) (dirs : list string) : list string :=
  filter (fun x => negb (String.eqb d x)) dirs.

(** The commands of a build system by role, and the staging directory
    [run_installation] creates from the state [s]. *)
Definition builds_of (b : build_system) : list (list string) :=
  build_commands_of (commands b).

Definition install_of (b : build_system) : list string :=
  hd [] (install_commands_only_of (commands b)).

Definition staging_of (w : World) (s : state) : string :=
  next_mkdtemp w "library_staging_" s.

(** Every command of [cmds] can be started and exits with status 0. *)
Definition all_succeed (w : World) (cmds : list (list string)) : Prop :=
  forall c, In c cmds ->
            which w (hd "" c) = true /\ returncode (run w c None) = 0%Z.

(** The install command as [run_installation] runs it. *)
Definition install_process (w : World) (s : state) (b : build_system) : process :=
  run w (install_of b) (Some (staging_of w s)).

(** The manifest [run_installation] tracks after the install command. *)
Definition manifest_of (w : World) (s : state) (b : build_system) : list string :=
  track_installed_files w (staging_of w s)
                        (destdir_entries (install_process w s b)).

(** The store after a successful installation: the package is added
    when there is a store and the manifest is not empty. *)
Definition store_after_install (w : World) (s : state) (b : build_system)
  : option DBManager.connection :=
  match db_manager s with
  | Some c =>
      if nonempty (manifest_of w s b)
      then Some (snd (DBManager.add_package
                        (PyStr (package_name_of (file_path s)))
                        (PyStr (package_version_of (file_path s)))
                        (map PyStr (manifest_of w s b)) c))
      else Some c
  | None => None
  end.

(** The state [s] once the staging directory has been created, [dirs]
    being the directories that exist and [db] the store. *)
Definition staged (s : state) (dirs : list string)
           (db : option DBManager.connection) : state :=
  set_db_manager db (set_tmp (S (tmp_count s)) dirs s).

(** The outcomes of [run_installation] once a build system [b] was
    detected. *)
Inductive outcome_with (w : World) (s : state) (b : build_system)
  : outcome (bool * payload) * state -> Prop :=
| build_stopped (lines : list string) (started : list (list string))
                (result : payload) :
    ~ all_succeed w (builds_of b) ->
    outcome_with w s b
      (Return (false, result), after s lines (map as_build started))
| install_missing (lines : list string) :
    all_succeed w (builds_of b) ->
    which w (hd "" (install_of b)) = false ->
    outcome_with w s b
      (Raise (FileNotFoundError (hd "" (install_of b))),
       after (staged s (tmp_dirs s ++ [staging_of w s]) (db_manager s))
             lines (map as_build (builds_of b)))
| install_failed (lines : list string) :
    all_succeed w (builds_of b) ->
    which w (hd "" (install_of b)) = true ->
    returncode (install_process w s b) <> 0%Z ->
    outcome_with w s b
      (Return (false, Message "Installation command failed"),
       after (staged s (without (staging_of w s) (tmp_dirs s ++ [staging_of w s]))
                     (db_manager s))
             lines
             (map as_build (builds_of b) ++
              [(install_of b, Some (staging_of w s))]))
| install_succeeded (lines : list string) :
    all_succeed w (builds_of b) ->
    which w (hd "" (install_of b)) = true ->
    returncode (install_process w s b) = 0%Z ->
    outcome_with w s b
      (Return (true, Message "Success"),
       after (staged s (without (staging_of w s) (tmp_dirs s ++ [staging_of w s]))
                     (store_after_install w s b))
             lines
             (map as_build (builds_of b) ++
              [(install_of b, Some (staging_of w s))])).

(** A numeral: a non-empty run of digits. *)
Definition numeral (x : string) : Prop :=
  x <> "" /\ all_chars Re.isdigit x = true.

End Spec.

(* ================================================================== *)
(** ** Facts about strings *)

Module StrFacts.

Lemma append_nil_r (s : string) : (s ++ "")%string = s.
Proof. induction s as [|c s IH]; simpl; [reflexivity | now rewrite IH]. Qed.

Lemma append_assoc (a b c : string) :
  ((a ++ b) ++ c)%string = (a ++ b ++ c)%string.
Proof. induction a as [|x a IH]; simpl; [reflexivity | now rewrite IH]. Qed.

Lemma length_append (a b : string) :
  String.length (a ++ b) = String.length a + String.length b.
Proof. induction a as [|x a IH]; simpl; [reflexivity | now rewrite IH]. Qed.

(** Appending a text that is not empty changes a string. *)
Lemma append_neq (a b : string) : b <> "" -> (a ++ b)%string <> a.
Proof.
  intros Hb Heq.
  assert (Hlen : String.length (a ++ b) = String.length a) by now rewrite Heq.
  rewrite length_append in Hlen.
  destruct b as [|c b]; [now apply Hb | simpl in Hlen; lia].
Qed.

Lemma truthy_true (s : string) : Str.truthy s = true <-> s <> "".
Proof. destruct s; simpl; split; congruence. Qed.

Lemma startswith_append (p s : string) : Str.startswith (p ++ s) p = true.
Proof.
  induction p as [|c p IH]; simpl; [now destruct s|].
  now rewrite Ascii.eqb_refl, IH.
Qed.

Lemma startswith_empty (s : string) : Str.startswith s "" = true.
Proof. now destruct s. Qed.

(** Looking for a single character. *)
Lemma contains_char_cons (c d : ascii) (s : string) :
  Str.contains (String c s) (String d "") =
    Ascii.eqb d c || Str.contains s (String d "").
Proof.
  simpl. rewrite startswith_empty, Bool.andb_true_r. reflexivity.
Qed.

Lemma contains_char_nil (d : ascii) : Str.contains "" (String d "") = false.
Proof. reflexivity. Qed.

(** A text without the separator is not split. *)
Lemma split_no_sep (sep : ascii) (s : string) :
  Str.contains s (String sep "") = false -> Str.split sep s = [s].
Proof.
  induction s as [|c s IH]; intros H; [reflexivity|].
  rewrite contains_char_cons in H. apply Bool.orb_false_iff in H.
  destruct H as [Hc Hs]. simpl.
  rewrite Ascii.eqb_sym, Hc. now rewrite (IH Hs).
Qed.

Lemma startswith_char_no_sep (sep : ascii) (s : string) :
  Str.contains s (String sep "") = false ->
  Str.startswith s (String sep "") = false.
Proof.
  destruct s as [|c s]; intros H; [reflexivity|].
  rewrite contains_char_cons in H. apply Bool.orb_false_iff in H.
  simpl. now rewrite (proj1 H).
Qed.

End StrFacts.

(* ================================================================== *)
(** ** Archive extraction *)

Module ExtractFacts.

Import Installer Spec.
Local Open Scope string_scope.

(** What [extract_package] returns for an archive that opens and
    extracts without error and has a first member. *)
Lemma extract_package_first_member (w : World) (s : state)
      (first : tarinfo) (rest : list tarinfo) :
  Str.endswith (file_path s) ".tar.gz" = true ->
  tar_open w (file_path s) = TarFile (first :: rest) None ->
  fst (extract_package w s) =
    Return (Some (OsPath.join (next_temp_dir w s)
                              [hd "" (Str.split "/" (name first))])).
Proof.
  intros Hsuf Hopen.
  unfold extract_package, bind, get. rewrite Hsuf. cbn.
  rewrite Hopen. reflexivity.
Qed.

(** C10.  A path that does not end in [.tar.gz] makes [extract_package]
    raise [ValueError("Invalid file type. Only .tar.gz is supported.")]
    and leaves the whole state as it was: no temporary directory is
    created, nothing is logged, no attribute is set. *)
Theorem extract_package_rejects_other_suffix (w : World) (s : state) :
  Str.endswith (file_path s) ".tar.gz" = false ->
  extract_package w s =
    (Raise (ValueError "Invalid file type. Only .tar.gz is supported."), s).
Proof.
  intros Hsuf.
  unfold extract_package, bind, get, raise. now rewrite Hsuf.
Qed.

Lemma extract_package_rejects_other_suffix_witness :
  Str.endswith (file_path (init "notes.tar.bz2" None)) ".tar.gz" = false /\
  extract_package (Samples.healthy Samples.wrapped_members ["Makefile"])
                  (init "notes.tar.bz2" None) =
    (Raise (ValueError "Invalid file type. Only .tar.gz is supported."),
     init "notes.tar.bz2" None).
Proof.
  split; [reflexivity|].
  apply (extract_package_rejects_other_suffix
           (Samples.healthy Samples.wrapped_members ["Makefile"])
           (init "notes.tar.bz2" None)).
  reflexivity.
Defined.

(** C1.  An archive whose first member is a file at the top level,
    named [n]: [extract_package] returns [<tempDir>/n], the path of
    that file, and not [tempDir]. *)
Theorem extract_package_flat_archive (w : World) (s : state)
        (n : string) (sz : nat) (rest : list tarinfo) :
  Str.endswith (file_path s) ".tar.gz" = true ->
  tar_open w (file_path s) =
    TarFile ({| name := n; isdir := false; size := sz |} :: rest) None ->
  n <> "" ->
  Str.contains n "/" = false ->
  exists root,
    fst (extract_package w s) = Return (Some root) /\
    root = OsPath.join (next_temp_dir w s) [n] /\
    root <> next_temp_dir w s.
Proof.
  intros Hsuf Hopen Hn Hslash.
  exists (OsPath.join (next_temp_dir w s) [n]).
  assert (Hsplit : hd "" (Str.split "/" n) = n)
    by now rewrite (StrFacts.split_no_sep "/" n Hslash).
  split; [|split; [reflexivity|]].
  - rewrite (extract_package_first_member w s _ rest Hsuf Hopen). simpl.
    now rewrite Hsplit.
  - unfold OsPath.join. simpl. unfold OsPath.join2.
    rewrite (StrFacts.startswith_char_no_sep "/" n Hslash).
    destruct (negb (Str.truthy (next_temp_dir w s))
              || Str.endswith (next_temp_dir w s) "/").
    + now apply StrFacts.append_neq.
    + apply StrFacts.append_neq. discriminate.
Qed.

Lemma extract_package_flat_archive_witness :
  exists root,
    fst (extract_package (Samples.healthy Samples.flat_members ["Makefile"])
                         (init "flat.tar.gz" None)) = Return (Some root) /\
    root = "/tmp/library_0/Makefile" /\
    root <> "/tmp/library_0".
Proof.
  apply (extract_package_flat_archive
           (Samples.healthy Samples.flat_members ["Makefile"])
           (init "flat.tar.gz" None) "Makefile" 42
           [{| name := "main.c"; isdir := false; size := 50 |}]).
  - reflexivity.
  - reflexivity.
  - discriminate.
  - reflexivity.
Defined.

End ExtractFacts.

(* ================================================================== *)
(** ** Build system detection *)

Module DetectFacts.

Import Installer Spec.
Local Open Scope string_scope.

(** C5.  On an extracted root that is a directory, [detect_build_system]
    classifies by the fixed priority configure, CMakeLists.txt,
    setup.py, Makefile, else none, and changes nothing; a root with
    both configure and Makefile is autotools. *)
Theorem detect_build_system_priority (w : World) (s : state) (root : string) :
  extracted_path s = Some root ->
  root <> "" ->
  path_isdir w root = true ->
  let present file := path_exists w (OsPath.join root [file]) in
  exists detected,
    detect_build_system w s = (Return detected, s) /\
    kind_of detected =
      detect_by_priority (present "configure") (present "CMakeLists.txt")
                         (present "setup.py") (present "Makefile") /\
    (present "configure" = true -> present "Makefile" = true ->
     detected = Some autotools).
Proof.
  intros Hpath Hroot Hdir present.
  unfold detect_build_system, bind, get. rewrite Hpath.
  apply StrFacts.truthy_true in Hroot. rewrite Hroot, Hdir.
  change (negb true || negb true) with false. cbv iota.
  subst present. cbv beta.
  destruct (path_exists w (OsPath.join root ["configure"])) eqn:H1;
    [|destruct (path_exists w (OsPath.join root ["CMakeLists.txt"])) eqn:H2;
      [|destruct (path_exists w (OsPath.join root ["setup.py"])) eqn:H3;
        [|destruct (path_exists w (OsPath.join root ["Makefile"])) eqn:H4]]];
    (eexists; split; [reflexivity|]; split; [reflexivity|];
     intros; first [reflexivity | discriminate]).
Qed.

Lemma detect_build_system_priority_witness :
  exists detected,
    detect_build_system
      (Samples.healthy Samples.wrapped_members ["configure"; "Makefile"])
      (Samples.extracted "pkg-1.0.tar.gz" "/tmp/library_0/pkg-1.0" None)
    = (Return detected,
       Samples.extracted "pkg-1.0.tar.gz" "/tmp/library_0/pkg-1.0" None) /\
    kind_of detected = KindAutotools /\
    detected = Some autotools.
Proof.
  destruct (detect_build_system_priority
              (Samples.healthy Samples.wrapped_members ["configure"; "Makefile"])
              (Samples.extracted "pkg-1.0.tar.gz" "/tmp/library_0/pkg-1.0" None)
              "/tmp/library_0/pkg-1.0" eq_refl
              ltac:(discriminate) eq_refl)
    as [detected [Hrun [Hkind Hboth]]].
  exists detected. split; [exact Hrun|]. split; [exact Hkind|].
  apply Hboth; reflexivity.
Defined.

End DetectFacts.

(* ================================================================== *)
(** ** Dependency diagnosis *)

Module DiagnoseFacts.

Import Installer Spec.
Local Open Scope string_scope.

(** The hint [_parse_error_for_dependencies] returns, whatever it logs. *)
Lemma parse_result (text : string) (s : state) :
  fst (_parse_error_for_dependencies text s) = Return (diagnose text).
Proof.
  unfold _parse_error_for_dependencies, diagnose.
  destruct (Re.search header_re text); [reflexivity|].
  destruct (Re.search lib_re text); reflexivity.
Qed.

(** The parser only writes to the log. *)
Lemma parse_state (text : string) (s : state) :
  exists lines, snd (_parse_error_for_dependencies text s) = set_log (log s ++ lines) s.
Proof.
  unfold _parse_error_for_dependencies.
  destruct (Re.search header_re text).
  - eexists [_]. reflexivity.
  - destruct (Re.search lib_re text).
    + eexists [_]. reflexivity.
    + exists []. cbn. rewrite app_nil_r. now destruct s.
Qed.

(** A hint is never the empty string. *)
Lemma parse_hint_truthy (text : string) (s : state) (hint : string) :
  fst (_parse_error_for_dependencies text s) = Return (Some hint) ->
  Str.truthy hint = true.
Proof.
  rewrite parse_result. unfold diagnose. intros H.
  destruct (Re.search header_re text).
  - injection H as <-. reflexivity.
  - destruct (Re.search lib_re text); [|discriminate].
    injection H as <-. reflexivity.
Qed.

(** C7.  The header pattern is tried first, then the library pattern,
    else there is no hint; the three texts of the specification give a
    hint naming [bar.h], the hint [libfoo-dev], and no hint. *)
Theorem parse_error_for_dependencies_order (s : state) :
  (forall text m,
      Re.search header_re text = Some m ->
      fst (_parse_error_for_dependencies text s) =
        Return (Some ("package containing " ++ header_group m))) /\
  (forall text m,
      Re.search header_re text = None ->
      Re.search lib_re text = Some m ->
      fst (_parse_error_for_dependencies text s) =
        Return (Some ("lib" ++ lib_group m ++ "-dev"))) /\
  (forall text,
      Re.search header_re text = None ->
      Re.search lib_re text = None ->
      fst (_parse_error_for_dependencies text s) = Return None) /\
  fst (_parse_error_for_dependencies
         "fatal error: foo/bar.h: No such file or directory" s) =
    Return (Some "package containing foo/bar.h") /\
  Str.contains "package containing foo/bar.h" "bar.h" = true /\
  fst (_parse_error_for_dependencies "/usr/bin/ld: cannot find -lfoo" s) =
    Return (Some "libfoo-dev") /\
  fst (_parse_error_for_dependencies "unrelated text" s) = Return None /\
  fst (_parse_error_for_dependencies
         "ld: cannot find -lfoo; main.c:1:10: fatal error: bar.h: No such file"
         s) =
    Return (Some "package containing bar.h").
Proof.
  split; [intros text m H; rewrite parse_result; unfold diagnose; now rewrite H|].
  split; [intros text m H1 H2; rewrite parse_result; unfold diagnose;
          now rewrite H1, H2|].
  split; [intros text H1 H2; rewrite parse_result; unfold diagnose;
          now rewrite H1, H2|].
  repeat split.
Qed.

Lemma parse_error_for_dependencies_order_witness :
  Re.search header_re "x.c:3:10: fatal error: X11/Xlib.h: No such file" =
    Some ["fatal error: "; "X11/Xlib"; ".h:"] /\
  fst (_parse_error_for_dependencies
         "x.c:3:10: fatal error: X11/Xlib.h: No such file"
         (init "x.tar.gz" None)) =
    Return (Some "package containing X11/Xlib.h").
Proof.
  split; [reflexivity|].
  apply (proj1 (parse_error_for_dependencies_order (init "x.tar.gz" None))
               "x.c:3:10: fatal error: X11/Xlib.h: No such file"
               ["fatal error: "; "X11/Xlib"; ".h:"]).
  reflexivity.
Defined.

End DiagnoseFacts.

(* ================================================================== *)
(** ** The install executor *)

Module RunFacts.

Import Installer Spec.
Local Open Scope string_scope.

Lemma after_nil (s : state) : after s [] [] = s.
Proof. unfold after. rewrite !app_nil_r. now destruct s. Qed.

Lemma after_after (s : state) (l1 l2 : list string)
      (p1 p2 : list (list string * option string)) :
  after (after s l1 p1) l2 p2 = after s (l1 ++ l2) (p1 ++ p2).
Proof. unfold after. cbn. now rewrite !app_assoc. Qed.

Lemma log_after (m : string) (s : state) (l : list string)
      (p : list (list string * option string)) :
  _log m (after s l p) = (Return tt, after s (l ++ [m]) p).
Proof. unfold _log, modify, after. cbn. now rewrite app_assoc. Qed.

Lemma log_start (m : string) (s : state) :
  _log m s = (Return tt, after s [m] []).
Proof. rewrite <- (after_nil s) at 1. apply log_after. Qed.

(** The lines of a text, put together again, are the text. *)
Lemma readlines_concat (text : string) :
  fold_right String.append "" (readlines text) = text.
Proof.
  induction text as [|c text IH]; [reflexivity|].
  simpl. destruct (Ascii.eqb c (ascii_of_nat 10)).
  - simpl. now rewrite IH.
  - destruct (readlines text) as [|line lines]; simpl in *.
    + now rewrite <- IH.
    + now rewrite <- IH.
Qed.

(** The reading loop logs every line and accumulates all of them. *)
Lemma read_output_spec (lines : list string) (acc : string) (s : state)
      (l : list string) (p : list (list string * option string)) :
  read_output lines acc (after s l p) =
    (Return (acc ++ fold_right String.append "" lines),
     after s (l ++ map Str.strip lines) p).
Proof.
  revert acc l. induction lines as [|line lines IH]; intros acc l.
  - cbn. now rewrite StrFacts.append_nil_r, app_nil_r.
  - cbn [read_output]. unfold bind at 1. rewrite log_after.
    rewrite IH. cbn [map fold_right].
    now rewrite StrFacts.append_assoc, <- app_assoc.
Qed.

(** Reading the whole output of a process. *)
Lemma read_output_all (text : string) (s : state)
      (l : list string) (p : list (list string * option string)) :
  read_output (readlines text) "" (after s l p) =
    (Return text, after s (l ++ map Str.strip (readlines text)) p).
Proof. rewrite read_output_spec, readlines_concat. reflexivity. Qed.

Lemma log_each_spec (prefix : string) (items : list string) (s : state)
      (l : list string) (p : list (list string * option string)) :
  log_each prefix items (after s l p) =
    (Return tt, after s (l ++ map (String.append prefix) items) p).
Proof.
  revert l. induction items as [|item items IH]; intros l.
  - cbn. now rewrite app_nil_r.
  - cbn [log_each]. unfold bind at 1. rewrite log_after, IH. cbn [map].
    now rewrite <- app_assoc.
Qed.

Lemma popen_found (w : World) (command : list string)
      (destdir : option string) (s : state) (l : list string)
      (p : list (list string * option string)) :
  which w (hd "" command) = true ->
  popen w command destdir (after s l p) =
    (Return (run w command destdir), after s l (p ++ [(command, destdir)])).
Proof.
  intros H. unfold popen. rewrite H. unfold after. cbn.
  now rewrite app_assoc.
Qed.

Lemma popen_missing (w : World) (command : list string)
      (destdir : option string) (s : state) :
  which w (hd "" command) = false ->
  popen w command destdir s = (Raise (FileNotFoundError (hd "" command)), s).
Proof. intros H. unfold popen. now rewrite H. Qed.

(** The parser on a state of the form [after]. *)
Lemma parse_after (text : string) (s : state) (l : list string)
      (p : list (list string * option string)) :
  exists lines,
    _parse_error_for_dependencies text (after s l p) =
      (Return (diagnose text), after s (l ++ lines) p).
Proof.
  unfold _parse_error_for_dependencies, diagnose.
  destruct (Re.search header_re text).
  - eexists. unfold bind. rewrite log_after. reflexivity.
  - destruct (Re.search lib_re text).
    + eexists. unfold bind. rewrite log_after. reflexivity.
    + exists []. now rewrite app_nil_r.
Qed.

(** A build command that starts and exits with status 0. *)
Lemma run_build_command_ok (w : World) (command : list string) (s : state)
      (l : list string) (p : list (list string * option string)) :
  which w (hd "" command) = true ->
  returncode (run w command None) = 0%Z ->
  exists lines,
    run_build_command w command (after s l p) =
      (Return None, after s (l ++ lines) (p ++ [as_build command])).
Proof.
  intros Hwhich Hcode.
  unfold run_build_command, bind at 1. rewrite log_after.
  unfold try_except, bind at 1. rewrite (popen_found _ _ _ _ _ _ Hwhich).
  unfold bind at 1. rewrite read_output_all. rewrite Hcode.
  change (negb (0 =? 0)%Z) with false. cbv iota. unfold ret.
  rewrite <- !app_assoc. eexists. reflexivity.
Qed.

(** A build command that starts and exits with another status. *)
Lemma run_build_command_failed (w : World) (command : list string) (s : state)
      (l : list string) (p : list (list string * option string)) :
  which w (hd "" command) = true ->
  returncode (run w command None) <> 0%Z ->
  exists lines,
    run_build_command w command (after s l p) =
      (Return (Some (false,
                     build_failure command (output (run w command None)))),
       after s (l ++ lines) (p ++ [as_build command])) /\
    In ("Error executing command: " ++ Str.join " " command) lines.
Proof.
  intros Hwhich Hcode.
  unfold run_build_command, bind at 1. rewrite log_after.
  unfold try_except, bind at 1. rewrite (popen_found _ _ _ _ _ _ Hwhich).
  unfold bind at 1. rewrite read_output_all.
  apply Z.eqb_neq in Hcode. rewrite Hcode.
  change (negb false) with true. cbv iota.
  unfold bind at 1. rewrite log_after.
  unfold bind at 1.
  match goal with
  | |- context [_parse_error_for_dependencies ?t (after ?s0 ?l0 ?p0)] =>
      destruct (parse_after t s0 l0 p0) as [plines Hparse]; rewrite Hparse
  end.
  assert (Hpayload :
    (match diagnose (output (run w command None)) with
     | Some package =>
         if Str.truthy package
         then ret (Some (false, DependencyInfo package))
         else ret (Some (false,
                Message ("Command failed: " ++ Str.join " " command)))
     | None =>
         ret (Some (false,
                Message ("Command failed: " ++ Str.join " " command)))
     end) =
    ret (Some (false, build_failure command (output (run w command None))))).
  { unfold build_failure.
    pose proof (DiagnoseFacts.parse_hint_truthy
                  (output (run w command None)) s) as Htruthy.
    rewrite DiagnoseFacts.parse_result in Htruthy.
    destruct (diagnose (output (run w command None))) as [hint|];
      [|reflexivity].
    now rewrite (Htruthy hint eq_refl). }
  rewrite Hpayload. unfold ret.
  rewrite <- !app_assoc. eexists. split; [reflexivity|].
  apply in_cons, in_or_app. right. apply in_or_app. left. now left.
Qed.

(** A build command whose executable is not found. *)
Lemma run_build_command_missing (w : World) (command : list string)
      (s : state) (l : list string) (p : list (list string * option string)) :
  which w (hd "" command) = false ->
  exists lines,
    run_build_command w command (after s l p) =
      (Return (Some (false, Message ("Command not found: " ++ hd "" command))),
       after s (l ++ lines) p).
Proof.
  intros Hwhich.
  unfold run_build_command, bind at 1. rewrite log_after.
  unfold try_except, bind at 1. rewrite (popen_missing _ _ _ _ Hwhich).
  change (is_FileNotFoundError (FileNotFoundError (hd "" command))) with true.
  cbv iota. unfold bind at 1. rewrite log_after. unfold ret.
  rewrite <- !app_assoc. eexists. reflexivity.
Qed.

(** The commands before the first failure all run; the loop then
    returns and starts nothing more. *)
Lemma run_build_commands_stop (w : World) (pre post : list (list string))
      (command : list string) (s : state)
      (l : list string) (p : list (list string * option string)) :
  (forall c, In c pre ->
     which w (hd "" c) = true /\ returncode (run w c None) = 0%Z) ->
  which w (hd "" command) = true ->
  returncode (run w command None) <> 0%Z ->
  exists lines,
    run_build_commands w (pre ++ command :: post) (after s l p) =
      (Return (Some (false,
                     build_failure command (output (run w command None)))),
       after s (l ++ lines) (p ++ map as_build (pre ++ [command]))) /\
    In ("Error executing command: " ++ Str.join " " command) lines.
Proof.
  intros Hpre Hwhich Hcode. revert l p.
  induction pre as [|c pre IH]; intros l p.
  - destruct (run_build_command_failed w command s l p Hwhich Hcode)
      as [lines [Hrun Hin]].
    exists lines. split; [|exact Hin].
    cbn [app run_build_commands map]. unfold bind. rewrite Hrun. reflexivity.
  - destruct (Hpre c (or_introl eq_refl)) as [Hc1 Hc2].
    destruct (run_build_command_ok w c s l p Hc1 Hc2) as [lines1 Hrun1].
    destruct (IH (fun c' H => Hpre c' (or_intror H))
                 (l ++ lines1)%list (p ++ [as_build c])%list)
      as [lines2 [Hrun2 Hin]].
    exists (lines1 ++ lines2)%list. split; [|apply in_or_app; now right].
    cbn [app run_build_commands]. unfold bind at 1. rewrite Hrun1.
    rewrite Hrun2. cbn [map app]. now rewrite <- !app_assoc.
Qed.

(** All build commands succeed. *)
Lemma run_build_commands_ok (w : World) (cmds : list (list string))
      (s : state) (l : list string) (p : list (list string * option string)) :
  (forall c, In c cmds ->
     which w (hd "" c) = true /\ returncode (run w c None) = 0%Z) ->
  exists lines,
    run_build_commands w cmds (after s l p) =
      (Return None, after s (l ++ lines) (p ++ map as_build cmds)).
Proof.
  intros Hall. revert l p.
  induction cmds as [|c cmds IH]; intros l p.
  - exists []. cbn. now rewrite !app_nil_r.
  - destruct (Hall c (or_introl eq_refl)) as [Hc1 Hc2].
    destruct (run_build_command_ok w c s l p Hc1 Hc2) as [lines1 Hrun1].
    destruct (IH (fun c' H => Hall c' (or_intror H))
                 (l ++ lines1)%list (p ++ [as_build c])%list) as [lines2 Hrun2].
    exists (lines1 ++ lines2)%list.
    cbn [run_build_commands]. unfold bind at 1. rewrite Hrun1.
    rewrite Hrun2. cbn [map]. now rewrite <- !app_assoc.
Qed.

(** Detection only reads the state, except for the log line of a
    missing extracted path. *)
Lemma detect_some_state (w : World) (s : state) (b : build_system) :
  fst (detect_build_system w s) = Return (Some b) ->
  detect_build_system w s = (Return (Some b), s).
Proof.
  unfold detect_build_system, bind, get.
  destruct (extracted_path s) as [path|]; [|discriminate].
  destruct (negb (Str.truthy path) || negb (path_isdir w path));
    [discriminate|].
  repeat match goal with
         | |- context [if ?c then _ else _] => destruct c
         end; cbn; intros H; inversion H; reflexivity.
Qed.

Lemma mkdtemp_after (w : World) (prefix : string) (s : state)
      (l : list string) (p : list (list string * option string)) :
  mkdtemp w prefix (after s l p) =
    (Return (next_mkdtemp w prefix s),
     after (set_tmp (S (tmp_count s))
                    (tmp_dirs s ++ [next_mkdtemp w prefix s]) s) l p).
Proof. reflexivity. Qed.

Lemma mem_last (x : string) (l : list string) : mem x (l ++ [x]) = true.
Proof.
  unfold mem. rewrite existsb_app. cbn. rewrite String.eqb_refl.
  now rewrite Bool.orb_true_r.
Qed.

Lemma rmtree_after (w : World) (path : string) (s : state)
      (l : list string) (p : list (list string * option string)) :
  mem path (tmp_dirs s) = true ->
  rmtree path (after s l p) =
    (Return tt,
     after (set_tmp (tmp_count s)
                    (filter (fun d => negb (String.eqb path d)) (tmp_dirs s)) s)
           l p).
Proof.
  intros H. unfold rmtree.
  change (tmp_dirs (after s l p)) with (tmp_dirs s). now rewrite H.
Qed.

Lemma not_in_filter_neq (x : string) (l : list string) :
  ~ In x (filter (fun d => negb (String.eqb x d)) l).
Proof.
  intros H. apply filter_In in H. destruct H as [_ H].
  now rewrite String.eqb_refl in H.
Qed.

(** C3.  When a build command exits with a status other than 0 (the
    ones before it having succeeded), [run_installation] returns
    [False] with the hint the dependency parser finds in the whole
    output of that command, or else with the failure message naming the
    command; the only processes started are the build commands up to
    that one, none of them with [DESTDIR], and no temporary directory
    is created. *)
Theorem build_failure_stops_pipeline (w : World) (s : state)
        (b : build_system) (pre post : list (list string))
        (command : list string) :
  fst (detect_build_system w s) = Return (Some b) ->
  build_commands_of (commands b) = (pre ++ command :: post)%list ->
  (forall c, In c pre ->
     which w (hd "" c) = true /\ returncode (run w c None) = 0%Z) ->
  which w (hd "" command) = true ->
  returncode (run w command None) <> 0%Z ->
  exists s',
    run_installation w s =
      (Return (false, build_failure command (output (run w command None))),
       s') /\
    fst (_parse_error_for_dependencies (output (run w command None)) s) =
      Return (diagnose (output (run w command None))) /\
    spawned s' = (spawned s ++ map as_build (pre ++ [command]))%list /\
    In ("Error executing command: " ++ Str.join " " command) (log s') /\
    tmp_count s' = tmp_count s /\
    tmp_dirs s' = tmp_dirs s /\
    db_manager s' = db_manager s.
Proof.
  intros Hdetect Hbuild Hpre Hwhich Hcode.
  unfold run_installation, bind at 1.
  rewrite (detect_some_state w s b Hdetect).
  unfold bind at 1. rewrite log_start.
  cbv zeta. rewrite Hbuild. unfold bind at 1.
  destruct (run_build_commands_stop w pre post command s
              ["Detected build system: " ++ build_system_name b] []
              Hpre Hwhich Hcode) as [lines [Hrun Hin]].
  rewrite Hrun. unfold ret.
  eexists. split; [reflexivity|].
  split; [apply DiagnoseFacts.parse_result|].
  split; [reflexivity|].
  split; [|repeat split].
  cbn. apply in_or_app. right. now right.
Qed.

Lemma build_failure_stops_pipeline_witness :
  let w := Samples.broken (Samples.healthy Samples.wrapped_members ["Makefile"])
                          [] [["make"]]
                          "main.c:1:10: fatal error: nonexistent.h: No such file" in
  let s := Samples.extracted "dummy_fail.tar.gz" "/tmp/library_0/dummy_package_fail"
                             None in
  exists s',
    run_installation w s =
      (Return (false, DependencyInfo "package containing nonexistent.h"), s') /\
    spawned s' = [(["make"], None)] /\
    tmp_count s' = 1 /\
    tmp_dirs s' = ["/tmp/library_0"].
Proof.
  intros w s.
  destruct (build_failure_stops_pipeline w s make [] [] ["make"])
    as [s' [Hrun [_ [Hsp [_ [Hc [Hd _]]]]]]].
  - reflexivity.
  - reflexivity.
  - intros c [].
  - reflexivity.
  - discriminate.
  - exists s'. repeat split; assumption.
Defined.

(** The install command starts and exits with a status other than 0:
    the staging directory is removed and the result is the failure
    message. *)
Lemma install_failure_removes_staging (w : World) (s : state)
      (b : build_system) (install : list string) (rest : list (list string)) :
  fst (detect_build_system w s) = Return (Some b) ->
  (forall c, In c (build_commands_of (commands b)) ->
     which w (hd "" c) = true /\ returncode (run w c None) = 0%Z) ->
  install_commands_only_of (commands b) = install :: rest ->
  which w (hd "" install) = true ->
  returncode (run w install (Some (next_mkdtemp w "library_staging_" s)))
    <> 0%Z ->
  exists s',
    run_installation w s =
      (Return (false, Message "Installation command failed"), s') /\
    ~ In (next_mkdtemp w "library_staging_" s) (tmp_dirs s') /\
    spawned s' =
      (spawned s ++ map as_build (build_commands_of (commands b)) ++
       [(install, Some (next_mkdtemp w "library_staging_" s))])%list.
Proof.
  intros Hdetect Hbuild Hinstall Hwhich Hcode.
  unfold run_installation, bind at 1.
  rewrite (detect_some_state w s b Hdetect).
  unfold bind at 1. rewrite log_start. cbv zeta.
  destruct (run_build_commands_ok w (build_commands_of (commands b)) s
              ["Detected build system: " ++ build_system_name b] [] Hbuild)
    as [lines Hrun].
  unfold bind at 1. rewrite Hrun, Hinstall.
  unfold bind at 1. rewrite log_after.
  unfold bind at 1. rewrite mkdtemp_after.
  unfold bind at 1. rewrite log_after.
  unfold bind at 1. rewrite log_after.
  unfold bind at 1. rewrite popen_found by exact Hwhich.
  unfold bind at 1. rewrite log_each_spec.
  apply Z.eqb_neq in Hcode. rewrite Hcode.
  change (negb false) with true. cbv iota.
  unfold bind at 1. rewrite log_after.
  unfold bind at 1. rewrite (rmtree_after w) by apply mem_last.
  unfold ret. eexists. split; [reflexivity|]. split.
  - apply not_in_filter_neq.
  - reflexivity.
Qed.

(** C2.  With the [python] build system the only command is the
    install command; when [python3] cannot be started, the
    [FileNotFoundError] of [Popen] leaves [run_installation] uncaught
    and the staging directory just created stays on disk. *)
Theorem install_command_not_found_escapes (w : World) (s : state) :
  fst (detect_build_system w s) = Return (Some python) ->
  which w "python3" = false ->
  exists s',
    run_installation w s = (Raise (FileNotFoundError "python3"), s') /\
    tmp_dirs s' =
      (tmp_dirs s ++ [next_mkdtemp w "library_staging_" s])%list /\
    In (next_mkdtemp w "library_staging_" s) (tmp_dirs s') /\
    spawned s' = spawned s.
Proof.
  intros Hdetect Hwhich.
  unfold run_installation, bind at 1.
  rewrite (detect_some_state w s python Hdetect).
  unfold bind at 1. rewrite log_start.
  cbv zeta.
  change (build_commands_of (commands python)) with (@nil (list string)).
  change (install_commands_only_of (commands python))
    with [["python3"; "setup.py"; "install"]].
  cbn [run_build_commands]. unfold bind at 1. unfold ret at 1.
  unfold bind at 1. rewrite log_after.
  unfold bind at 1. rewrite mkdtemp_after.
  unfold bind at 1. rewrite log_after.
  unfold bind at 1. rewrite log_after.
  unfold bind at 1. rewrite popen_missing by exact Hwhich.
  eexists. split; [reflexivity|].
  split; [reflexivity|]. split.
  - cbn. apply in_or_app. right. now left.
  - cbn. now rewrite app_nil_r.
Qed.

Lemma install_command_not_found_escapes_witness :
  let w := Samples.broken (Samples.healthy Samples.wrapped_members ["setup.py"])
                          ["python3"] [] "" in
  let s := Samples.extracted "tool-1.0.tar.gz" "/tmp/library_0/tool-1.0" None in
  exists s',
    run_installation w s = (Raise (FileNotFoundError "python3"), s') /\
    tmp_dirs s' = ["/tmp/library_0"; "/tmp/library_staging_1"].
Proof.
  intros w s.
  destruct (install_command_not_found_escapes w s eq_refl eq_refl)
    as [s' [Hrun [Hdirs _]]].
  exists s'. split; assumption.
Defined.

(** The self-test of [installer.py]: a Makefile whose [install] target
    writes [$(DESTDIR)/usr/local/bin/dummy_app]. *)
Lemma run_installation_dummy_package :
  let w := Samples.healthy Samples.wrapped_members ["Makefile"] in
  let s := Samples.extracted "dummy_ok-1.0.tar.gz"
             "/tmp/library_0/dummy_package_ok-1.0" (Some DBManager.connect) in
  fst (run_installation w s) = Return (true, Message "Success") /\
  spawned (snd (run_installation w s)) =
    [(["make"], None); (["make"; "install"], Some "/tmp/library_staging_1")] /\
  tmp_dirs (snd (run_installation w s)) = ["/tmp/library_0"] /\
  option_map (DBManager.get_files_for_package 1)
             (db_manager (snd (run_installation w s))) =
    Some ["/usr/local/bin/dummy_app"] /\
  In "Tracked 1 installed files:" (log (snd (run_installation w s))) /\
  In "Saving package 'dummy_ok-1.0' to database."
     (log (snd (run_installation w s))).
Proof.
  vm_compute. repeat split; auto 20.
Qed.

End RunFacts.

(* ================================================================== *)
(** ** The package store *)

Module DBFacts.

Import DBManager Spec.
Local Open Scope Z_scope.

Lemma executemany_strings (package_id : Z) (paths : list string) (t : tables) :
  executemany (map (fun f => (package_id, f)) (map PyStr paths)) t =
    (true,
     {| packages := packages t;
        installed_files :=
          installed_files t ++ file_rows package_id (seq_installed_files t) paths;
        seq_packages := seq_packages t;
        seq_installed_files :=
          seq_installed_files t + Z.of_nat (List.length paths) |}).
Proof.
  revert t. induction paths as [|path paths IH]; intros t.
  - cbn. rewrite app_nil_r, Z.add_0_r. now destruct t.
  - cbn [map executemany insert_file]. rewrite IH. cbn [packages
      installed_files seq_packages seq_installed_files file_rows].
    rewrite <- app_assoc. cbn [app]. f_equal. f_equal.
    cbn [List.length]. lia.
Qed.

(** Whatever the records, [executemany] only adds file rows, all for
    the package ids of the records. *)
Lemma executemany_adds (records : list (Z * pyval)) (t : tables) :
  exists rows,
    packages (snd (executemany records t)) = packages t /\
    seq_packages (snd (executemany records t)) = seq_packages t /\
    installed_files (snd (executemany records t)) = installed_files t ++ rows /\
    (forall r, In r rows -> In (file_package_id r) (map fst records)) /\
    (fst (executemany records t) = false -> In PyNone (map snd records)) /\
    (fst (executemany records t) = true ->
     map (fun r => PyStr (file_path r)) rows = map snd records).
Proof.
  revert t. induction records as [|[package_id path] records IH]; intros t.
  - exists []. cbn. rewrite app_nil_r.
    repeat split; intros; try tauto; try discriminate.
  - destruct path as [|p].
    + exists []. cbn. rewrite app_nil_r.
      repeat split; intros; try tauto; try discriminate.
    + cbn [executemany insert_file].
      destruct (IH {| packages := packages t;
                      installed_files := installed_files t ++
                        [{| file_id := seq_installed_files t + 1;
                            file_package_id := package_id;
                            file_path := p |}];
                      seq_packages := seq_packages t;
                      seq_installed_files := seq_installed_files t + 1 |})
        as [rows [Hp [Hs [Hf [Hids [Hfail Hok]]]]]].
      exists ({| file_id := seq_installed_files t + 1;
                 file_package_id := package_id; file_path := p |} :: rows).
      cbn [packages seq_packages installed_files] in *.
      split; [exact Hp|]. split; [exact Hs|].
      split; [rewrite Hf, <- app_assoc; reflexivity|].
      split; [|split].
      * intros r [<-|Hr]; [now left|]. right. now apply Hids.
      * intros H. right. now apply Hfail.
      * intros H. cbn [map snd]. now rewrite (Hok H).
Qed.

Lemma file_rows_paths (package_id last_id : Z) (paths : list string) :
  map file_path (file_rows package_id last_id paths) = paths.
Proof.
  revert last_id. induction paths as [|p paths IH]; intros last_id;
    [reflexivity|]. cbn. now rewrite IH.
Qed.

Lemma filter_file_rows (package_id last_id : Z) (paths : list string) :
  filter (fun r => file_package_id r =? package_id)
         (file_rows package_id last_id paths) =
    file_rows package_id last_id paths.
Proof.
  revert last_id. induction paths as [|p paths IH]; intros last_id;
    [reflexivity|]. cbn. now rewrite Z.eqb_refl, IH.
Qed.

Lemma filter_older_rows (package_id : Z) (rows : list file_row) :
  (forall r, In r rows -> file_package_id r < package_id) ->
  filter (fun r => file_package_id r =? package_id) rows = [].
Proof.
  induction rows as [|r rows IH]; intros H; [reflexivity|].
  cbn. destruct (Z.eqb_spec (file_package_id r) package_id) as [Heq|_].
  - specialize (H r (or_introl eq_refl)). lia.
  - apply IH. intros r' Hr'. apply H. now right.
Qed.

(** [add_package] keeps the file rows pointing at known packages,
    whether it returns or raises. *)
Lemma add_package_references (name version : pyval) (files : list pyval)
      (c : connection) :
  references_known_packages (view c) ->
  references_known_packages (view (snd (add_package name version files c))).
Proof.
  intros Hwf. unfold add_package.
  destruct name as [|n]; [exact Hwf|]. cbn [insert_package].
  set (t1 := {| packages := _; installed_files := installed_files (view c);
                seq_packages := _; seq_installed_files := _ |}).
  set (records := map (fun f => (seq_packages (view c) + 1, f)) files).
  destruct (executemany_adds records t1) as [rows [_ [Hs [Hf [Hids _]]]]].
  assert (Hview : references_known_packages (snd (executemany records t1))).
  { intros r Hr. rewrite Hs. rewrite Hf in Hr. cbn.
    apply in_app_or in Hr. destruct Hr as [Hr|Hr].
    - specialize (Hwf r Hr). lia.
    - specialize (Hids r Hr). subst records. rewrite map_map in Hids.
      cbn in Hids. apply in_map_iff in Hids. destruct Hids as [_ [<- _]]. lia. }
  destruct (executemany records t1) as [[|] t2]; exact Hview.
Qed.

Lemma connect_references : references_known_packages (view connect).
Proof. intros r []. Qed.

Lemma reachable_references (c : connection) :
  reachable c -> references_known_packages (view c).
Proof.
  induction 1 as [|c name version files _ IH].
  - apply connect_references.
  - now apply add_package_references.
Qed.

(** Adding a package whose name and paths are strings succeeds. *)
Lemma add_package_strings (name : string) (version : pyval)
      (paths : list string) (c : connection) :
  add_package (PyStr name) version (map PyStr paths) c =
    (Return (seq_packages (view c) + 1),
     {| committed :=
          {| packages := packages (view c) ++
               [{| pkg_id := seq_packages (view c) + 1; pkg_name := name;
                   pkg_version := version |}];
             installed_files := installed_files (view c) ++
               file_rows (seq_packages (view c) + 1)
                         (seq_installed_files (view c)) paths;
             seq_packages := seq_packages (view c) + 1;
             seq_installed_files :=
               seq_installed_files (view c) + Z.of_nat (List.length paths) |};
        pending := None |}).
Proof.
  unfold add_package. cbn [insert_package].
  rewrite executemany_strings. reflexivity.
Qed.

(** C8.  On a store only ever written by [add_package],
    [add_package(name, version, files)] returns an id for which
    [get_files_for_package] gives back the paths of [files]; giving
    the files in another order gives the same set of paths. *)
Theorem add_package_then_get_files (c : connection) (name : string)
        (version : pyval) (files : list string) :
  reachable c ->
  exists id c',
    add_package (PyStr name) version (map PyStr files) c = (Return id, c') /\
    get_files_for_package id c' = files /\
    (forall p, In p (get_files_for_package id c') <-> In p files) /\
    forall files', Permutation files files' ->
      exists c'',
        add_package (PyStr name) version (map PyStr files') c =
          (Return id, c'') /\
        forall p, In p (get_files_for_package id c'') <->
                  In p (get_files_for_package id c').
Proof.
  intros Hreach. apply reachable_references in Hreach.
  assert (Hget : forall paths,
    get_files_for_package (seq_packages (view c) + 1)
      (snd (add_package (PyStr name) version (map PyStr paths) c)) = paths).
  { intros paths. rewrite add_package_strings.
    unfold get_files_for_package. cbn [snd view pending committed
      installed_files].
    rewrite filter_app, filter_older_rows, filter_file_rows.
    - apply file_rows_paths.
    - intros r Hr. specialize (Hreach r Hr). lia. }
  eexists. eexists. split; [apply add_package_strings|].
  pose proof (Hget files) as Hfiles. rewrite add_package_strings in Hfiles.
  cbn [snd] in Hfiles.
  split; [exact Hfiles|]. split; [now rewrite Hfiles|].
  intros files' Hperm. eexists. split; [apply add_package_strings|].
  pose proof (Hget files') as Hfiles'. rewrite add_package_strings in Hfiles'.
  cbn [snd] in Hfiles'. rewrite Hfiles, Hfiles'.
  intros p. split; intros Hp.
  - apply Permutation_in with (l := files'); [now apply Permutation_sym|exact Hp].
  - apply Permutation_in with (l := files); assumption.
Qed.

Lemma add_package_then_get_files_witness :
  exists id c',
    add_package (PyStr "test-package") (PyStr "1.0")
      (map PyStr ["/usr/local/bin/test-app"; "/usr/local/lib/libtest.so"])
      connect = (Return id, c') /\
    get_files_for_package id c' =
      ["/usr/local/bin/test-app"; "/usr/local/lib/libtest.so"].
Proof.
  destruct (add_package_then_get_files connect "test-package" (PyStr "1.0")
              ["/usr/local/bin/test-app"; "/usr/local/lib/libtest.so"]
              reachable_connect) as [id [c' [Hadd [Hget _]]]].
  exists id, c'. split; assumption.
Defined.

(** A list of bound values is a list of strings, or strings up to a
    first [None]. *)
Lemma strings_or_first_none (files : list pyval) :
  (exists paths, files = map PyStr paths) \/
  (exists done rest, files = map PyStr done ++ PyNone :: rest).
Proof.
  induction files as [|[|p] files IH].
  - left. now exists [].
  - right. now exists [], files.
  - destruct IH as [[paths ->]|[done [rest ->]]].
    + left. now exists (p :: paths).
    + right. now exists (p :: done), rest.
Qed.

(** [executemany] stops at the first [None]: the rows of the strings
    before it have been inserted. *)
Lemma executemany_stops (package_id : Z) (done : list string)
      (rest : list pyval) (t : tables) :
  executemany (map (fun f => (package_id, f)) (map PyStr done ++ PyNone :: rest))
              t =
    (false,
     {| packages := packages t;
        installed_files :=
          installed_files t ++ file_rows package_id (seq_installed_files t) done;
        seq_packages := seq_packages t;
        seq_installed_files :=
          seq_installed_files t + Z.of_nat (List.length done) |}).
Proof.
  revert t. induction done as [|path done IH]; intros t.
  - cbn. rewrite app_nil_r, Z.add_0_r. now destruct t.
  - cbn [map app executemany insert_file]. rewrite IH. cbn [packages
      installed_files seq_packages seq_installed_files file_rows].
    rewrite <- app_assoc. cbn [app]. f_equal. f_equal.
    cbn [List.length]. lia.
Qed.

(** The files of a package once [rows] were added for it. *)
Lemma get_files_with_new_rows (package_id last_id : Z) (paths : list string)
      (c c' : connection) :
  installed_files (view c') =
    installed_files (view c) ++ file_rows package_id last_id paths ->
  get_files_for_package package_id c' =
    (get_files_for_package package_id c ++ paths)%list.
Proof.
  intros H. unfold get_files_for_package.
  now rewrite H, filter_app, map_app, filter_file_rows, file_rows_paths.
Qed.

(** C4, as the code has it.  [add_package] commits once, after the last
    insert: when it returns, the package row and every file row of the
    call are persisted together, with the new id as result.  When an
    insert fails it raises without committing, so the persisted tables
    are the ones from before the call, and it does not roll back: if
    the failing insert is the one of a file, the package row and the
    rows of the files before it stay in the open transaction,
    [get_files_for_package] on this connection returns those files, and
    the commit of the next call that succeeds persists them. *)
Theorem add_package_commits_once (name version : pyval) (files : list pyval)
        (c : connection) :
  match add_package name version files c with
  | (Return id, c') =>
      pending c' = None /\
      id = seq_packages (view c) + 1 /\
      exists n paths,
        name = PyStr n /\ files = map PyStr paths /\
        packages (committed c') =
          packages (view c) ++
            [{| pkg_id := id; pkg_name := n; pkg_version := version |}] /\
        installed_files (committed c') =
          installed_files (view c) ++
            file_rows id (seq_installed_files (view c)) paths
  | (Raise _, c') =>
      committed c' = committed c /\
      (name = PyNone \/ In PyNone files) /\
      exists t,
        pending c' = Some t /\
        ((name = PyNone /\ t = view c) \/
         exists n done rest,
           let id := seq_packages (view c) + 1 in
           name = PyStr n /\ files = map PyStr done ++ PyNone :: rest /\
           packages t =
             packages (view c) ++
               [{| pkg_id := id; pkg_name := n; pkg_version := version |}] /\
           installed_files t =
             installed_files (view c) ++
               file_rows id (seq_installed_files (view c)) done /\
           get_files_for_package id c' =
             (get_files_for_package id c ++ done)%list /\
           forall (name' : string) (version' : pyval) (paths' : list string),
             exists c'',
               add_package (PyStr name') version' (map PyStr paths') c' =
                 (Return (id + 1), c'') /\
               pending c'' = None /\
               packages (committed c'') =
                 packages t ++
                   [{| pkg_id := id + 1; pkg_name := name';
                       pkg_version := version' |}] /\
               installed_files (committed c'') =
                 installed_files t ++
                   file_rows (id + 1) (seq_installed_files t) paths')
  end.
Proof.
  destruct name as [|n].
  - cbn. split; [reflexivity|]. split; [now left|].
    exists (view c). split; [reflexivity|now left].
  - destruct (strings_or_first_none files) as [[paths ->]|[done [rest ->]]].
    + rewrite add_package_strings.
      split; [reflexivity|]. split; [reflexivity|].
      exists n, paths. now repeat split.
    + unfold add_package. cbn [insert_package]. rewrite executemany_stops.
      cbn [packages installed_files seq_packages seq_installed_files].
      split; [reflexivity|]. split.
      { right. apply in_or_app. right. now left. }
      eexists. split; [reflexivity|]. right. exists n, done, rest.
      cbv zeta. cbn [packages installed_files].
      split; [reflexivity|]. split; [reflexivity|].
      split; [reflexivity|]. split; [reflexivity|]. split.
      * now apply (get_files_with_new_rows _ (seq_installed_files (view c))).
      * intros name' version' paths'. eexists.
        split; [apply add_package_strings|].
        cbn [pending committed view packages installed_files seq_packages
             seq_installed_files].
        now repeat split.
Qed.

(** C4, as the specification states it, fails: after a call whose second
    file insert fails, the package row and the first file row are seen
    through the connection, and the commit of the next successful call
    persists them. *)
Lemma add_package_partial_rows_persist :
  let failed :=
    add_package (PyStr "p") (PyStr "1") [PyStr "/a"; PyNone] connect in
  let next :=
    add_package (PyStr "q") (PyStr "2") [PyStr "/b"] (snd failed) in
  fst failed =
    Raise (IntegrityError "NOT NULL constraint failed: installed_files.path") /\
  get_files_for_package 1 (snd failed) = ["/a"]%string /\
  fst next = Return 2 /\
  pending (snd next) = None /\
  map pkg_name (packages (committed (snd next))) = ["p"; "q"]%string /\
  map (fun r => (file_package_id r, file_path r))
      (installed_files (committed (snd next))) =
    [(1, "/a"%string); (2, "/b"%string)].
Proof. repeat split. Qed.

End DBFacts.

(* ================================================================== *)
(** ** Regular expressions: a run of class characters followed by a
     character outside the class never backtracks *)

Module ReFacts.

Import Re.

Lemma drop_inside_span (cls : ascii -> bool) (s : string) (j : nat) :
  j < span cls s ->
  exists c s', drop j s = String c s' /\ cls c = true.
Proof.
  revert j. induction s as [|c s IH]; intros j Hj; [cbn in Hj; lia|].
  cbn [span] in Hj. destruct (cls c) eqn:Hc; [|lia].
  destruct j as [|j].
  - exists c, s. split; [reflexivity|exact Hc].
  - cbn [drop]. apply IH. lia.
Qed.

Lemma backtrack_none (rest : string -> option (list string)) (s : string)
      (k : nat) :
  (forall j, 1 <= j <= k -> rest (drop j s) = None) ->
  backtrack k rest s = None.
Proof.
  induction k as [|k IH]; intros H; [reflexivity|].
  cbn [backtrack]. rewrite (H (S k)) by lia. apply IH.
  intros j Hj. apply H. lia.
Qed.

Lemma backtrack_longest (rest : string -> option (list string)) (s : string)
      (k : nat) :
  (forall j, 1 <= j < k -> rest (drop j s) = None) ->
  backtrack k rest s =
    match k with
    | 0 => None
    | S _ => option_map (cons (take k s)) (rest (drop k s))
    end.
Proof.
  intros H. destruct k as [|k]; [reflexivity|].
  cbn [backtrack]. destruct (rest (drop (S k) s)); [reflexivity|].
  cbn [option_map]. apply backtrack_none. intros j Hj. apply H. lia.
Qed.

Lemma literal_fails_inside_span (cls : ascii -> bool) (c0 : ascii)
      (text : string) (p : pattern) (s : string) (j : nat) :
  cls c0 = false ->
  j < span cls s ->
  match_here (Lit (String c0 text) :: p) (drop j s) = None.
Proof.
  intros Hc0 Hj.
  destruct (drop_inside_span cls s j Hj) as [c [s' [-> Hc]]].
  cbn [match_here Str.startswith].
  destruct (Ascii.eqb_spec c0 c) as [->|_]; [congruence|reflexivity].
Qed.

(** [[cls]+] before a literal that starts outside [cls] takes the
    whole run. *)
Lemma match_plus_then_literal (cls : ascii -> bool) (c0 : ascii)
      (text : string) (p : pattern) (s : string) :
  cls c0 = false ->
  match_here (Plus cls :: Lit (String c0 text) :: p) s =
    match span cls s with
    | 0 => None
    | S _ =>
        option_map (cons (take (span cls s) s))
                   (match_here (Lit (String c0 text) :: p)
                               (drop (span cls s) s))
    end.
Proof.
  intros Hc0. change (match_here (Plus cls :: Lit (String c0 text) :: p) s)
    with (backtrack (span cls s) (match_here (Lit (String c0 text) :: p)) s).
  apply backtrack_longest. intros j Hj.
  apply literal_fails_inside_span with (cls := cls); [exact Hc0|lia].
Qed.

(** [[cls]+] at the end of a pattern takes the whole run. *)
Lemma match_plus_last (cls : ascii -> bool) (s : string) :
  match_here [Plus cls] s =
    match span cls s with
    | 0 => None
    | S _ => Some [take (span cls s) s]
    end.
Proof. cbn [match_here]. now destruct (span cls s). Qed.

Lemma match_literal (text : string) (p : pattern) (s : string) :
  match_here (Lit text :: p) s =
    if Str.startswith s text
    then option_map (cons text) (match_here p (drop (String.length text) s))
    else None.
Proof. reflexivity. Qed.

(** The first element of [findall] is the leftmost match. *)
Lemma findall_head (alts : list pattern) (s : string) :
  hd_error (findall alts s) =
    (fix first (s : string) : option string :=
       match s with
       | EmptyString => None
       | String _ s' =>
           match match_alt alts s with
           | Some pieces => Some (String.concat "" pieces)
           | None => first s'
           end
       end) s.
Proof.
  unfold findall. induction s as [|c s IH]; [reflexivity|].
  cbn [findall_from]. destruct (match_alt alts (String c s)); [reflexivity|].
  exact IH.
Qed.

End ReFacts.

(* ================================================================== *)
(** ** Package name and version from the file name *)

Module NameFacts.

Import Installer Spec.
Local Open Scope string_scope.

(** The version expression at one position is the version pattern of
    the specification. *)
Lemma version_re_at (s : string) :
  option_map (String.concat "") (Re.match_alt version_re s) = version_at s.
Proof.
  unfold version_re, version_at. cbn [Re.match_alt].
  rewrite !ReFacts.match_plus_then_literal by reflexivity.
  rewrite !ReFacts.match_literal.
  rewrite !ReFacts.match_plus_then_literal by reflexivity.
  rewrite !ReFacts.match_literal.
  rewrite !ReFacts.match_plus_last.
  change (String.length ".") with 1.
  destruct (Re.span Re.isdigit s) as [|x] eqn:Hx; [reflexivity|].
  change (0 <? S x)%nat with true. cbn [andb].
  destruct (Str.startswith (Re.drop (S x) s) "."); [|reflexivity].
  cbn [andb].
  destruct (Re.span Re.isdigit (Re.drop 1 (Re.drop (S x) s))) as [|y] eqn:Hy;
    [reflexivity|].
  change (0 <? S y)%nat with true. cbv iota.
  destruct (Str.startswith
              (Re.drop (S y) (Re.drop 1 (Re.drop (S x) s))) ".");
    [|reflexivity].
  cbn [andb].
  destruct (Re.span Re.isdigit
              (Re.drop 1 (Re.drop (S y) (Re.drop 1 (Re.drop (S x) s)))))
    as [|z] eqn:Hz; reflexivity.
Qed.

Lemma findall_first_version (s : string) :
  hd_error (Re.findall version_re s) = first_version s.
Proof.
  rewrite ReFacts.findall_head.
  induction s as [|c s IH]; [reflexivity|].
  cbn [first_version]. rewrite <- version_re_at.
  destruct (Re.match_alt version_re (String c s)); [reflexivity|exact IH].
Qed.

(** The version the code derives is the first version pattern. *)
Lemma package_version_by_spec (path : string) :
  package_version_of path = version_by_spec (OsPath.basename path).
Proof.
  unfold package_version_of, version_by_spec.
  rewrite <- findall_first_version.
  now destruct (Re.findall version_re (OsPath.basename path)).
Qed.

Lemma replace_from_short (old new : string) (k : nat) (s : string) :
  String.length s <= k -> Str.replace_from old new k s = "".
Proof.
  revert k. induction s as [|c s IH]; intros k Hk; [reflexivity|].
  cbn [String.length] in Hk. destruct k as [|k]; [lia|].
  cbn [Str.replace_from]. apply IH. lia.
Qed.

Lemma startswith_refl (s : string) : Str.startswith s s = true.
Proof.
  induction s as [|c s IH]; [reflexivity|].
  cbn. now rewrite Ascii.eqb_refl.
Qed.

(** Where [old] occurs only at the end, replacing it by nothing strips
    the suffix. *)
Lemma replace_strips_suffix (old s : string) :
  old <> "" ->
  only_as_suffix s old = true ->
  Str.replace s old "" = removesuffix s old.
Proof.
  intros Hold. unfold Str.replace.
  induction s as [|c s IH]; intros Honly.
  - now destruct old.
  - cbn [only_as_suffix] in Honly. apply Bool.andb_true_iff in Honly.
    destruct Honly as [Hhere Hrest].
    cbn [Str.replace_from removesuffix].
    destruct (Str.startswith (String c s) old) eqn:Hstart.
    + cbn [negb orb] in Hhere. rewrite Hhere.
      apply String.eqb_eq in Hhere. subst old.
      cbn [String.append]. apply replace_from_short.
      cbn [String.length]. lia.
    + destruct (String.eqb_spec (String c s) old) as [Heq|_].
      * subst old. now rewrite startswith_refl in Hstart.
      * now rewrite (IH Hrest).
Qed.

(** The name the code derives is the name of the specification when
    [.tar.gz] occurs in the file name only as its suffix. *)
Lemma package_name_by_spec (path : string) :
  only_as_suffix (OsPath.basename path) ".tar.gz" = true ->
  package_name_of path = name_by_spec (OsPath.basename path).
Proof.
  intros Honly. unfold package_name_of, name_by_spec.
  rewrite (replace_strips_suffix ".tar.gz" _ ltac:(discriminate) Honly).
  rewrite (filter_ext (fun p => negb (Re.match_leading_digit p))
             (fun part => match part with
                          | String c _ => negb (Re.isdigit c)
                          | EmptyString => true
                          end)) by (now intros [|c p]).
  now destruct (Str.join "-" _).
Qed.

(** C9, as the code has it.  For a file name in which [.tar.gz] occurs
    only as the suffix, the name is the one the specification
    describes; for every file name the version is the first X.Y.Z or
    X.Y pattern, else [unknown]; the two file names of the
    specification give [mytool], [2.3.1] and [unknown]. *)
Theorem package_name_and_version (path : string) :
  (only_as_suffix (OsPath.basename path) ".tar.gz" = true ->
   package_name_of path = name_by_spec (OsPath.basename path)) /\
  package_version_of path = version_by_spec (OsPath.basename path) /\
  (forall s, fst (_get_package_name s) =
             Return (package_name_of (file_path s))) /\
  (forall s, fst (_get_package_version s) =
             Return (package_version_of (file_path s))) /\
  package_name_of "mytool-2.3.1.tar.gz" = "mytool" /\
  package_version_of "mytool-2.3.1.tar.gz" = "2.3.1" /\
  package_version_of "dummy_inspect.tar.gz" = "unknown".
Proof.
  split; [apply package_name_by_spec|].
  split; [apply package_version_by_spec|].
  repeat split.
Qed.

Lemma package_name_and_version_witness :
  only_as_suffix (OsPath.basename "/home/user/mytool-2.3.1.tar.gz") ".tar.gz"
    = true /\
  package_name_of "/home/user/mytool-2.3.1.tar.gz" =
    name_by_spec "mytool-2.3.1.tar.gz" /\
  package_version_of "/home/user/mytool-2.3.1.tar.gz" =
    version_by_spec "mytool-2.3.1.tar.gz".
Proof.
  split; [reflexivity|].
  destruct (package_name_and_version "/home/user/mytool-2.3.1.tar.gz")
    as [Hname [Hversion _]].
  split; [apply Hname; reflexivity|exact Hversion].
Defined.

(** C9, as the specification states it, fails: the code removes every
    [.tar.gz], not only the suffix. *)
Lemma package_name_differs_from_spec :
  package_name_of "pkg.tar.gz.tar.gz" = "pkg" /\
  name_by_spec (OsPath.basename "pkg.tar.gz.tar.gz") = "pkg.tar.gz" /\
  package_name_of "pkg.tar.gz.tar.gz" <>
    name_by_spec (OsPath.basename "pkg.tar.gz.tar.gz").
Proof. repeat split. discriminate. Qed.

End NameFacts.

(* ================================================================== *)
(** ** Paths made of valid names *)

Module PathFacts.

Import Spec.
Local Open Scope string_scope.

Lemma valid_name_parts (n : string) :
  valid_name n = true ->
  n <> "" /\ Str.contains n "/" = false /\ n <> "." /\ n <> "..".
Proof.
  unfold valid_name. intros H.
  repeat (apply Bool.andb_true_iff in H; destruct H as [H ?]).
  repeat split.
  - now apply StrFacts.truthy_true.
  - now apply Bool.negb_true_iff.
  - apply Bool.negb_true_iff in H1. now apply String.eqb_neq.
  - apply Bool.negb_true_iff in H0. now apply String.eqb_neq.
Qed.

(** Splitting at the first separator. *)
Lemma split_append_sep (sep : ascii) (x rest : string) :
  Str.contains x (String sep "") = false ->
  Str.split sep (x ++ String sep rest) = x :: Str.split sep rest.
Proof.
  induction x as [|c x IH]; intros H.
  - cbn. now rewrite Ascii.eqb_refl.
  - rewrite StrFacts.contains_char_cons in H.
    apply Bool.orb_false_iff in H. destruct H as [Hc Hx].
    cbn [String.append Str.split]. rewrite Ascii.eqb_sym, Hc.
    now rewrite (IH Hx).
Qed.

(** [split] undoes [join] on names without the separator. *)
Lemma split_join (comps : list string) :
  comps <> [] ->
  Forall (fun n => valid_name n = true) comps ->
  Str.split "/" (Str.join "/" comps) = comps.
Proof.
  induction comps as [|x comps IH]; intros Hne Hall; [congruence|].
  inversion Hall as [|? ? Hx Hrest]; subst.
  destruct (valid_name_parts x Hx) as [_ [Hslash _]].
  destruct comps as [|y comps].
  - cbn. now apply StrFacts.split_no_sep.
  - change (Str.join "/" (x :: y :: comps))
      with (x ++ String "/" (Str.join "/" (y :: comps))).
    rewrite (split_append_sep "/" x _ Hslash).
    now rewrite IH.
Qed.

Lemma split_absolute (comps : list string) :
  comps <> [] ->
  Forall (fun n => valid_name n = true) comps ->
  Str.split "/" (absolute comps) = "" :: comps.
Proof.
  intros Hne Hall. unfold absolute.
  change ("/" ++ Str.join "/" comps) with ("" ++ String "/" (Str.join "/" comps)).
  rewrite split_append_sep by reflexivity. now rewrite split_join.
Qed.

(** Two lists of valid names with the same joined text are equal. *)
Lemma join_injective (p q : list string) :
  p <> [] -> q <> [] ->
  Forall (fun n => valid_name n = true) p ->
  Forall (fun n => valid_name n = true) q ->
  Str.join "/" p = Str.join "/" q -> p = q.
Proof.
  intros Hp Hq Hvp Hvq Heq.
  rewrite <- (split_join p Hp Hvp), <- (split_join q Hq Hvq).
  now rewrite Heq.
Qed.

Lemma join_snoc (comps : list string) (f : string) :
  comps <> [] ->
  Str.join "/" (comps ++ [f]) = Str.join "/" comps ++ "/" ++ f.
Proof.
  induction comps as [|x comps IH]; intros Hne; [congruence|].
  destruct comps as [|y comps]; [reflexivity|].
  change (Str.join "/" ((x :: y :: comps) ++ [f]))
    with (x ++ "/" ++ Str.join "/" ((y :: comps) ++ [f])).
  rewrite IH by discriminate.
  change (Str.join "/" (x :: y :: comps))
    with (x ++ "/" ++ Str.join "/" (y :: comps)).
  now rewrite !StrFacts.append_assoc.
Qed.

(** [endswith] looks at the end only. *)
Lemma endswith_append_char (a b : string) (c : ascii) :
  b <> "" ->
  Str.endswith (a ++ b) (String c "") = Str.endswith b (String c "").
Proof.
  intros Hb. induction a as [|x a IH]; [reflexivity|].
  cbn [String.append Str.endswith]. rewrite IH.
  assert (Hne : String.eqb (String x (a ++ b)) (String c "") = false).
  { apply String.eqb_neq. intros Heq. injection Heq as _ Heq.
    destruct a; [now apply Hb|discriminate]. }
  now rewrite Hne.
Qed.

Lemma endswith_char_contains (s : string) (c : ascii) :
  Str.contains s (String c "") = false ->
  Str.endswith s (String c "") = false.
Proof.
  induction s as [|x s IH]; intros H; [reflexivity|].
  rewrite StrFacts.contains_char_cons in H.
  apply Bool.orb_false_iff in H. destruct H as [Hx Hs].
  cbn [Str.endswith]. rewrite (IH Hs), Bool.orb_false_r.
  apply String.eqb_neq. intros Heq. injection Heq as -> _.
  now rewrite Ascii.eqb_refl in Hx.
Qed.

Lemma join_nonempty (comps : list string) :
  comps <> [] ->
  Forall (fun n => valid_name n = true) comps ->
  Str.join "/" comps <> "".
Proof.
  intros Hne Hall Heq.
  pose proof (split_join comps Hne Hall) as Hsplit. rewrite Heq in Hsplit.
  cbn in Hsplit. destruct comps as [|x [|y comps]]; try discriminate.
  injection Hsplit as <-. inversion Hall as [|? ? Hx _]; subst.
  discriminate Hx.
Qed.

(** The joined text of valid names does not end with a separator. *)
Lemma join_no_trailing_slash (pfx : string) (comps : list string) :
  comps <> [] ->
  Forall (fun n => valid_name n = true) comps ->
  Str.endswith (pfx ++ Str.join "/" comps) "/" = false.
Proof.
  intros Hne Hall.
  destruct (exists_last Hne) as [front [lastc ->]].
  apply Forall_app in Hall. destruct Hall as [Hfront Hlast].
  inversion Hlast as [|? ? Hl _]; subst.
  destruct (valid_name_parts lastc Hl) as [Hl1 [Hl2 _]].
  destruct front as [|x front].
  - cbn [app Str.join]. rewrite endswith_append_char by exact Hl1.
    now apply endswith_char_contains.
  - rewrite join_snoc by discriminate.
    rewrite <- !StrFacts.append_assoc.
    rewrite endswith_append_char by exact Hl1.
    now apply endswith_char_contains.
Qed.

(** [os.path.join] of a path of valid names with one more valid name. *)
Lemma join2_valid (pfx : string) (comps : list string) (f : string) :
  comps <> [] ->
  Forall (fun n => valid_name n = true) comps ->
  valid_name f = true ->
  OsPath.join2 (pfx ++ Str.join "/" comps) f =
    pfx ++ Str.join "/" (comps ++ [f]).
Proof.
  intros Hne Hall Hf.
  destruct (valid_name_parts f Hf) as [_ [Hslash _]].
  unfold OsPath.join2.
  rewrite (StrFacts.startswith_char_no_sep "/" f Hslash).
  rewrite (join_no_trailing_slash pfx comps Hne Hall).
  assert (Htruthy : Str.truthy (pfx ++ Str.join "/" comps) = true).
  { apply StrFacts.truthy_true. intros Heq.
    apply (join_nonempty comps Hne Hall).
    destruct pfx; [exact Heq|discriminate]. }
  rewrite Htruthy. cbn [negb orb].
  rewrite join_snoc by exact Hne. now rewrite StrFacts.append_assoc.
Qed.

Lemma join_valid (first : string) (rest : list string) :
  Forall (fun n => valid_name n = true) (first :: rest) ->
  OsPath.join first rest = Str.join "/" (first :: rest).
Proof.
  intros Hall. unfold OsPath.join.
  assert (Hgen : forall acc,
    acc <> [] -> Forall (fun n => valid_name n = true) (acc ++ rest) ->
    fold_left OsPath.join2 rest (Str.join "/" acc) =
      Str.join "/" (acc ++ rest)).
  { clear. induction rest as [|f rest IH]; intros acc Hne Hall.
    - now rewrite app_nil_r.
    - cbn [fold_left].
      apply Forall_app in Hall as Hall'. destruct Hall' as [Hacc Hrest].
      inversion Hrest as [|? ? Hf Hrest']; subst.
      pose proof (join2_valid "" acc f Hne Hacc Hf) as Hj.
      cbn [String.append] in Hj. rewrite Hj.
      replace (acc ++ f :: rest)%list with ((acc ++ [f]) ++ rest)%list
        by (now rewrite <- app_assoc).
      apply IH.
      + now destruct acc.
      + now rewrite <- app_assoc. }
  apply (Hgen [first]); [discriminate|exact Hall].
Qed.

(** [normpath] keeps the components that are valid names. *)
Lemma normpath_steps_valid (k : nat) (comps acc : list string) :
  Forall (fun n => valid_name n = true) comps ->
  fold_left (OsPath.normpath_step k) comps acc = (acc ++ comps)%list.
Proof.
  revert acc. induction comps as [|x comps IH]; intros acc Hall.
  - now rewrite app_nil_r.
  - inversion Hall as [|? ? Hx Hrest]; subst.
    destruct (valid_name_parts x Hx) as [H1 [_ [H2 H3]]].
    cbn [fold_left]. unfold OsPath.normpath_step at 2.
    apply String.eqb_neq in H1, H2, H3. rewrite H1, H2, H3.
    cbn [orb negb]. rewrite IH by exact Hrest.
    now rewrite <- app_assoc.
Qed.

Lemma absolute_not_double_slash (comps : list string) :
  comps <> [] ->
  Forall (fun n => valid_name n = true) comps ->
  Str.startswith (absolute comps) "//" = false.
Proof.
  intros Hne Hall. destruct comps as [|x comps]; [congruence|].
  inversion Hall as [|? ? Hx _]; subst.
  destruct (valid_name_parts x Hx) as [H1 [H2 _]].
  unfold absolute. destruct x as [|c x]; [congruence|].
  rewrite StrFacts.contains_char_cons in H2.
  apply Bool.orb_false_iff in H2. destruct H2 as [Hc _].
  assert (Hcons : forall a b p s0,
    Str.startswith (String b s0) (String a p) =
      Ascii.eqb a b && Str.startswith s0 p) by reflexivity.
  destruct comps as [|y comps].
  - change (Str.startswith (String "/" (String c x)) (String "/" (String "/" ""))
            = false).
    rewrite !Hcons, Hc. reflexivity.
  - change (Str.startswith
              (String "/" (String c (x ++ "/" ++ Str.join "/" (y :: comps))))
              (String "/" (String "/" "")) = false).
    rewrite !Hcons, Hc. reflexivity.
Qed.

Lemma absolute_startswith (comps : list string) :
  Str.startswith (absolute comps) "/" = true.
Proof. apply StrFacts.startswith_append. Qed.

Lemma normpath_absolute (comps : list string) :
  comps <> [] ->
  Forall (fun n => valid_name n = true) comps ->
  OsPath.normpath (absolute comps) = absolute comps.
Proof.
  intros Hne Hall. unfold OsPath.normpath.
  change (Str.truthy (absolute comps)) with true. cbn [negb].
  rewrite absolute_startswith. cbv iota.
  rewrite (absolute_not_double_slash comps Hne Hall). cbn [andb].
  rewrite (split_absolute comps Hne Hall).
  cbn [fold_left].
  change (OsPath.normpath_step 1 [] "") with (@nil string).
  rewrite !normpath_steps_valid by exact Hall. reflexivity.
Qed.

Lemma components_absolute (cwd : string) (comps : list string) :
  comps <> [] ->
  Forall (fun n => valid_name n = true) comps ->
  OsPath.components (OsPath.abspath cwd (absolute comps)) = comps.
Proof.
  intros Hne Hall. unfold OsPath.abspath, OsPath.components.
  rewrite absolute_startswith. cbv iota.
  rewrite (normpath_absolute comps Hne Hall).
  rewrite (split_absolute comps Hne Hall). cbn [filter Str.truthy].
  apply forallb_filter_id. apply forallb_forall.
  intros x Hx. rewrite Forall_forall in Hall.
  destruct (valid_name_parts x (Hall x Hx)) as [H1 _].
  now apply StrFacts.truthy_true.
Qed.

Lemma commonprefix_length_app (l rest : list string) :
  OsPath.commonprefix_length l (l ++ rest) = List.length l.
Proof.
  induction l as [|x l IH]; [reflexivity|].
  cbn. now rewrite String.eqb_refl, IH.
Qed.

Lemma skipn_length_app (l rest : list string) :
  skipn (List.length l) (l ++ rest) = rest.
Proof. induction l as [|x l IH]; [reflexivity|exact IH]. Qed.

(** The relative path of a path below [start], all names valid. *)
Lemma relpath_below (cwd : string) (start rel : list string) :
  start <> [] -> rel <> [] ->
  Forall (fun n => valid_name n = true) start ->
  Forall (fun n => valid_name n = true) rel ->
  OsPath.relpath cwd (absolute (start ++ rel)) (absolute start) =
    Str.join "/" rel.
Proof.
  intros Hs Hr Hvs Hvr. unfold OsPath.relpath.
  rewrite (components_absolute cwd start Hs Hvs).
  rewrite (components_absolute cwd (start ++ rel)).
  - rewrite commonprefix_length_app, Nat.sub_diag, skipn_length_app.
    cbn [repeat app]. destruct rel as [|first rest]; [congruence|].
    now apply join_valid.
  - now destruct start.
  - now apply Forall_app.
Qed.

End PathFacts.

(* ================================================================== *)
(** ** The install tracker *)

Module TrackFacts.

Import Installer Spec.
Local Open Scope string_scope.

(** [os.walk] on a directory: its own triple, then the walks of its
    entries. *)
Lemma walk_dir (top : string) (entries : list (string * node)) :
  walk top (Dir entries) =
    (top, dirnames entries, filenames entries)
    :: flat_map (fun e => walk (OsPath.join top [fst e]) (snd e)) entries.
Proof.
  cbn [walk]. f_equal.
  induction entries as [|[name child] entries IH]; [reflexivity|].
  cbn [flat_map fst snd]. now rewrite IH.
Qed.

Lemma files_below_dir (entries : list (string * node)) :
  files_below (Dir entries) =
    (map (fun file => [file]) (filenames entries) ++
     flat_map (fun e => map (cons (fst e)) (files_below (snd e))) entries)%list.
Proof.
  cbn [files_below]. f_equal.
  induction entries as [|[name child] entries IH]; [reflexivity|].
  cbn [flat_map fst snd]. now rewrite IH.
Qed.

Lemma in_filenames (name : string) (entries : list (string * node)) :
  In name (filenames entries) <-> In (name, File) entries.
Proof.
  unfold filenames. rewrite in_map_iff. split.
  - intros [[n child] [Hn Hin]]. cbn in Hn. subst n.
    apply filter_In in Hin. destruct Hin as [Hin Hdir].
    destruct child; [exact Hin|discriminate].
  - intros Hin. exists (name, File). split; [reflexivity|].
    apply filter_In. now split.
Qed.

(** [files_below] lists the files and nothing else. *)
Lemma files_below_file_at (n : node) (p : list string) :
  In p (files_below n) <-> file_at n p.
Proof.
  split.
  - revert p. induction n as [|entries IH] using node_induction;
      intros p Hin; [contradiction|].
    rewrite files_below_dir in Hin. apply in_app_or in Hin.
    destruct Hin as [Hin|Hin].
    + apply in_map_iff in Hin. destruct Hin as [name [<- Hname]].
      apply file_here. now apply in_filenames.
    + apply in_flat_map in Hin. destruct Hin as [[name child] [He Hin]].
      cbn [fst snd] in Hin. apply in_map_iff in Hin.
      destruct Hin as [p' [<- Hp']].
      rewrite Forall_forall in IH.
      apply file_deeper with (child := child); [exact He|].
      now apply (IH (name, child) He).
  - induction 1 as [name entries Hin|name child entries p Hin _ IH];
      rewrite files_below_dir; apply in_or_app.
    + left. apply (in_map (fun file => [file])). now apply in_filenames.
    + right. apply in_flat_map. exists (name, child).
      split; [exact Hin|]. cbn [fst snd]. now apply (in_map (cons name)).
Qed.

(** The names on the way to a file are valid. *)
Lemma file_at_valid (n : node) (p : list string) :
  well_formed n -> file_at n p ->
  p <> [] /\ Forall (fun x => valid_name x = true) p.
Proof.
  intros Hwf Hfile. induction Hfile
    as [name entries Hin|name child entries p Hin Hfile IH].
  - inversion Hwf as [|? _ Hvalid _]; subst.
    rewrite Forall_forall in Hvalid.
    split; [discriminate|]. constructor; [|constructor].
    exact (Hvalid (name, File) Hin).
  - inversion Hwf as [|? _ Hvalid Hchildren]; subst.
    rewrite Forall_forall in Hvalid, Hchildren.
    split; [discriminate|]. constructor.
    + exact (Hvalid (name, child) Hin).
    + exact (proj2 (IH (Hchildren (name, child) Hin))).
Qed.

Lemma NoDup_map_fst_filter (g : string * node -> bool)
      (entries : list (string * node)) :
  NoDup (map fst entries) -> NoDup (map fst (filter g entries)).
Proof.
  induction entries as [|e entries IH]; intros H; [constructor|].
  inversion H as [|? ? Hnotin Hrest]; subst. cbn [filter].
  destruct (g e); [|now apply IH].
  cbn [map]. constructor; [|now apply IH].
  intros Hin. apply Hnotin. apply in_map_iff in Hin.
  destruct Hin as [e' [Heq Hin]]. apply filter_In in Hin.
  apply in_map_iff. exists e'. tauto.
Qed.

(** A well-formed tree has every file once in [files_below]. *)
Lemma files_below_NoDup (n : node) :
  well_formed n -> NoDup (files_below n).
Proof.
  induction n as [|entries IH] using node_induction; intros Hwf;
    [constructor|].
  inversion Hwf as [|? Hnames _ Hchildren]; subst.
  rewrite files_below_dir. apply NoDup_app.
  - apply NoDup_map_NoDup_ForallPairs.
    + intros a b _ _ Heq. now injection Heq.
    + now apply NoDup_map_fst_filter.
  - clear Hwf. induction entries as [|[name child] entries IHe];
      [constructor|].
    inversion IH as [|? ? IHchild IHrest]; subst.
    inversion Hchildren as [|? ? Hchild Hrest]; subst.
    inversion Hnames as [|? ? Hnotin Hnames']; subst.
    cbn [flat_map fst snd]. apply NoDup_app.
    + apply NoDup_map_NoDup_ForallPairs.
      * intros a b _ _ Heq. now injection Heq.
      * now apply IHchild.
    + now apply IHe.
    + intros p Hp Hp'. apply in_map_iff in Hp. destruct Hp as [p1 [<- _]].
      apply in_flat_map in Hp'. destruct Hp' as [[name' child'] [He' Hp']].
      cbn [fst snd] in Hp'. apply in_map_iff in Hp'.
      destruct Hp' as [p2 [Heq _]]. injection Heq as -> _.
      apply Hnotin. apply in_map_iff. now exists (name, child').
  - intros p Hp Hp'. apply in_map_iff in Hp. destruct Hp as [file [<- _]].
    apply in_flat_map in Hp'. destruct Hp' as [[name child] [_ Hp']].
    cbn [fst snd] in Hp'. apply in_map_iff in Hp'.
    destruct Hp' as [p2 [Heq Hp2]]. injection Heq as _ ->.
    apply files_below_file_at in Hp2. inversion Hp2.
Qed.

Lemma flat_map_flat_map {A B C : Type} (f : B -> list C) (g : A -> list B)
      (l : list A) :
  flat_map f (flat_map g l) = flat_map (fun a => flat_map f (g a)) l.
Proof.
  induction l as [|a l IH]; [reflexivity|].
  cbn [flat_map]. now rewrite flat_map_app, IH.
Qed.

(** What the tracking loop makes of the walk of the directory at the
    names [q] below the staging directory [start]. *)
Lemma track_below (w : World) (start q : list string) (n : node) :
  start <> [] ->
  Forall (fun x => valid_name x = true) start ->
  Forall (fun x => valid_name x = true) q ->
  well_formed n ->
  flat_map
    (fun '(root, _, files) =>
       map (fun file =>
              "/" ++ OsPath.relpath (getcwd w) (OsPath.join root [file])
                                    (absolute start))
           files)
    (walk (absolute (start ++ q)) n) =
  map (fun p => "/" ++ Str.join "/" (q ++ p)) (files_below n).
Proof.
  intros Hstart Hvstart. revert q.
  induction n as [|entries IH] using node_induction; intros q Hvq Hwf;
    [reflexivity|].
  inversion Hwf as [|? Hnames Hvalid Hchildren]; subst.
  assert (Hhere : (start ++ q)%list <> []) by (now destruct start).
  assert (Hvhere : Forall (fun x => valid_name x = true) (start ++ q)%list)
    by (now apply Forall_app).
  assert (Hjoin : forall name, valid_name name = true ->
    OsPath.join (absolute (start ++ q)) [name] =
      absolute (start ++ q ++ [name])).
  { intros name Hname. unfold OsPath.join, absolute. cbn [fold_left].
    rewrite (PathFacts.join2_valid "/" (start ++ q)%list name
               Hhere Hvhere Hname).
    now rewrite <- app_assoc. }
  rewrite walk_dir, files_below_dir. cbn [flat_map]. rewrite map_app.
  f_equal.
  - rewrite map_map. apply map_ext_in. intros file Hfile.
    assert (Hvfile : valid_name file = true).
    { apply in_filenames in Hfile. rewrite Forall_forall in Hvalid.
      exact (Hvalid (file, File) Hfile). }
    rewrite (Hjoin file Hvfile).
    rewrite PathFacts.relpath_below; trivial.
    + now destruct q.
    + apply Forall_app. split; [exact Hvq|]. now constructor.
  - rewrite flat_map_flat_map. clear Hwf Hnames.
    induction entries as [|[name child] entries IHe]; [reflexivity|].
    inversion IH as [|? ? IHchild IHrest]; subst.
    inversion Hchildren as [|? ? Hchild Hrest]; subst.
    inversion Hvalid as [|? ? Hname Hvalid']; subst.
    cbn [fst snd] in *.
    cbn [flat_map fst snd]. rewrite map_app.
    rewrite (IHe IHrest Hvalid' Hrest). f_equal.
    rewrite (Hjoin name Hname).
    rewrite (IHchild (q ++ [name])%list).
    + rewrite map_map. apply map_ext. intros p.
      now rewrite <- app_assoc.
    + apply Forall_app. split; [exact Hvq|]. now constructor.
    + exact Hchild.
Qed.

(** C6.  For a staging directory given by an absolute path of valid
    names and a well-formed tree below it, the manifest has one entry
    for every file below the staging directory and no other entry;
    the entry is the path of the file from the staging directory, with
    a leading [/]; no entry occurs twice. *)
Theorem manifest_lists_every_file_once (w : World) (start : list string)
        (entries : list (string * node)) :
  start <> [] ->
  Forall (fun x => valid_name x = true) start ->
  well_formed (Dir entries) ->
  let manifest := track_installed_files w (absolute start) entries in
  exists paths,
    manifest = map (fun p => "/" ++ Str.join "/" p) paths /\
    (forall p, In p paths <-> file_at (Dir entries) p) /\
    NoDup paths /\
    NoDup manifest /\
    (forall entry, In entry manifest -> Str.startswith entry "/" = true).
Proof.
  intros Hstart Hvstart Hwf manifest.
  assert (Hmanifest :
    manifest = map (fun p => "/" ++ Str.join "/" p) (files_below (Dir entries))).
  { subst manifest. unfold track_installed_files.
    pose proof (track_below w start [] (Dir entries) Hstart Hvstart
                            (Forall_nil _) Hwf) as H.
    rewrite app_nil_r in H. exact H. }
  exists (files_below (Dir entries)).
  split; [exact Hmanifest|].
  split; [intros p; apply files_below_file_at|].
  split; [now apply files_below_NoDup|].
  split.
  - rewrite Hmanifest. apply NoDup_map_NoDup_ForallPairs.
    + intros p p' Hp Hp' Heq. injection Heq as Heq.
      apply files_below_file_at in Hp, Hp'.
      destruct (file_at_valid _ _ Hwf Hp) as [Hne Hv].
      destruct (file_at_valid _ _ Hwf Hp') as [Hne' Hv'].
      now apply PathFacts.join_injective.
    + now apply files_below_NoDup.
  - intros entry Hentry. rewrite Hmanifest in Hentry.
    apply in_map_iff in Hentry. destruct Hentry as [p [<- _]].
    apply StrFacts.startswith_append.
Qed.

Lemma dummy_destdir_well_formed : well_formed (Dir Samples.dummy_destdir).
Proof.
  repeat first
    [ apply wf_file
    | apply wf_dir
    | apply Forall_cons
    | apply Forall_nil
    | apply NoDup_cons
    | apply NoDup_nil
    | reflexivity
    | (intros H; exact H) ].
Qed.

Lemma manifest_lists_every_file_once_witness :
  exists paths,
    track_installed_files
      (Samples.healthy Samples.wrapped_members ["Makefile"])
      "/tmp/library_staging_1" Samples.dummy_destdir =
      map (fun p => "/" ++ Str.join "/" p) paths /\
    (forall p, In p paths <-> file_at (Dir Samples.dummy_destdir) p) /\
    track_installed_files
      (Samples.healthy Samples.wrapped_members ["Makefile"])
      "/tmp/library_staging_1" Samples.dummy_destdir =
      ["/usr/local/bin/dummy_app"].
Proof.
  destruct (manifest_lists_every_file_once
              (Samples.healthy Samples.wrapped_members ["Makefile"])
              ["tmp"; "library_staging_1"] Samples.dummy_destdir)
    as [paths [Hmanifest [Hfiles _]]].
  - discriminate.
  - repeat constructor.
  - exact dummy_destdir_well_formed.
  - exists paths. split; [exact Hmanifest|]. split; [exact Hfiles|].
    reflexivity.
Defined.

End TrackFacts.

(* ================================================================== *)
(** ** Regular expressions: a match is a part of the text *)

Module ReSound.

Import Re Spec.
Local Open Scope string_scope.

Lemma take_drop (k : nat) (s : string) : take k s ++ drop k s = s.
Proof.
  revert s. induction k as [|k IH]; intros s; [now destruct s|].
  destruct s as [|c s]; [reflexivity|]. cbn. now rewrite IH.
Qed.

Lemma take_inside_span (cls : ascii -> bool) (s : string) (k : nat) :
  1 <= k <= span cls s ->
  take k s <> "" /\ all_chars cls (take k s) = true.
Proof.
  revert s. induction k as [|k IH]; intros s Hk; [lia|].
  destruct s as [|c s]; [cbn in Hk; lia|].
  cbn [span] in Hk. destruct (cls c) eqn:Hc; [|lia].
  split; [discriminate|]. cbn [take all_chars]. rewrite Hc.
  destruct k as [|k]; [now destruct s|].
  apply IH. lia.
Qed.

(** A successful [[cls]+] took between one character and the whole run. *)
Lemma backtrack_some (rest : string -> option (list string)) (s : string)
      (k : nat) (pieces : list string) :
  backtrack k rest s = Some pieces ->
  exists j tail,
    1 <= j <= k /\ pieces = take j s :: tail /\ rest (drop j s) = Some tail.
Proof.
  induction k as [|k IH]; intros H; [discriminate|].
  cbn [backtrack] in H. destruct (rest (drop (S k) s)) as [tail|] eqn:Hrest.
  - injection H as <-. exists (S k), tail. repeat split; try lia. exact Hrest.
  - destruct (IH H) as [j [tail [Hj [Hp Hr]]]].
    exists j, tail. repeat split; try lia; assumption.
Qed.

Lemma startswith_prefix (s p : string) :
  Str.startswith s p = true -> s = p ++ drop (String.length p) s.
Proof.
  revert s. induction p as [|a p IH]; intros s H; [now destruct s|].
  destruct s as [|b s]; [discriminate|]. cbn in H.
  apply Bool.andb_true_iff in H. destruct H as [Hab Hs].
  apply Ascii.eqb_eq in Hab. subst b. cbn. now rewrite <- IH.
Qed.

(** What [match_here] returns is made of one piece per atom, and the
    pieces together start the text. *)
Lemma match_here_sound (p : pattern) (s : string) (pieces : list string) :
  match_here p s = Some pieces ->
  Forall2 piece_of p pieces /\ exists rest, s = matched pieces ++ rest.
Proof.
  revert s pieces. induction p as [|a p IH]; intros s pieces H.
  - injection H as <-. split; [constructor|]. now exists s.
  - destruct a as [text|cls].
    + cbn [match_here] in H.
      destruct (Str.startswith s text) eqn:Hstart; [|discriminate].
      destruct (match_here p (drop (String.length text) s)) as [tail|] eqn:Htail;
        [|discriminate].
      injection H as <-. destruct (IH _ _ Htail) as [Hpieces [rest Hrest]].
      split; [constructor; [constructor|exact Hpieces]|].
      exists rest. cbn [matched fold_right].
      rewrite StrFacts.append_assoc. fold (matched tail). rewrite <- Hrest.
      now apply startswith_prefix.
    + cbn [match_here] in H. apply backtrack_some in H.
      destruct H as [j [tail [Hj [-> Htail]]]].
      destruct (IH _ _ Htail) as [Hpieces [rest Hrest]].
      destruct (take_inside_span cls s j Hj) as [Hne Hall].
      split; [constructor; [now constructor|exact Hpieces]|].
      exists rest. cbn [matched fold_right].
      rewrite StrFacts.append_assoc. fold (matched tail). rewrite <- Hrest.
      now rewrite take_drop.
Qed.

Lemma match_alt_sound (alts : list pattern) (s : string)
      (pieces : list string) :
  match_alt alts s = Some pieces ->
  exists p, In p alts /\ Forall2 piece_of p pieces /\
            exists rest, s = matched pieces ++ rest.
Proof.
  induction alts as [|p alts IH]; intros H; [discriminate|].
  cbn [match_alt] in H. destruct (match_here p s) as [ps|] eqn:Hp.
  - injection H as <-. exists p. split; [now left|].
    now apply match_here_sound.
  - destruct (IH H) as [q [Hq Hrest]]. exists q. split; [now right|exact Hrest].
Qed.

(** What [search] returns is a part of the text. *)
Lemma search_sound (alts : list pattern) (s : string) (pieces : list string) :
  search alts s = Some pieces ->
  exists p pre rest,
    In p alts /\ Forall2 piece_of p pieces /\
    s = pre ++ matched pieces ++ rest.
Proof.
  induction s as [|c s IH]; intros H.
  - cbn [search] in H. destruct (match_alt alts "") as [ps|] eqn:Hm;
      [|discriminate].
    injection H as <-. destruct (match_alt_sound _ _ _ Hm) as [p [Hp [Hf [rest Hr]]]].
    exists p, "", rest. repeat split; assumption.
  - cbn [search] in H. destruct (match_alt alts (String c s)) as [ps|] eqn:Hm.
    + injection H as <-.
      destruct (match_alt_sound _ _ _ Hm) as [p [Hp [Hf [rest Hr]]]].
      exists p, "", rest. repeat split; assumption.
    + destruct (IH H) as [p [pre [rest [Hp [Hf Hr]]]]].
      exists p, (String c pre), rest. repeat split; try assumption.
      cbn. now rewrite <- Hr.
Qed.

(** A pattern that starts with a literal matches nowhere in a text that
    does not contain the literal. *)
Lemma search_without_literal (text : string) (p : pattern) (s : string) :
  Str.contains s text = false -> search [Lit text :: p] s = None.
Proof.
  induction s as [|c s IH]; intros H.
  - cbn in H. apply Bool.orb_false_iff in H. destruct H as [H _].
    cbn. now rewrite H.
  - cbn [Str.contains] in H. apply Bool.orb_false_iff in H.
    destruct H as [Hhere Hrest].
    cbn [search match_alt match_here]. rewrite Hhere. now apply IH.
Qed.

(** A match somewhere in the text makes [search] succeed. *)
Lemma search_finds (alts : list pattern) (pre s : string) :
  match_alt alts s <> None -> search alts (pre ++ s) <> None.
Proof.
  intros H. induction pre as [|c pre IH].
  - cbn [String.append]. destruct s; cbn [search];
      destruct (match_alt alts _); congruence.
  - cbn [String.append search].
    destruct (match_alt alts (String c (pre ++ s))); [discriminate|exact IH].
Qed.

End ReSound.

(* ================================================================== *)
(** ** Dependency diagnosis: what a hint says about the text *)

Module DiagnoseMore.

Import Installer Spec.
Local Open Scope string_scope.

Lemma three_pieces (a b c : Re.atom) (pieces : list string) :
  Forall2 piece_of [a; b; c] pieces ->
  exists x y z, pieces = [x; y; z] /\
                piece_of a x /\ piece_of b y /\ piece_of c z.
Proof.
  intros H. inversion H as [|? x ? l1 Ha H1]; subst.
  inversion H1 as [|? y ? l2 Hb H2]; subst.
  inversion H2 as [|? z ? l3 Hc H3]; subst.
  inversion H3; subst. now exists x, y, z.
Qed.

Lemma two_pieces (a b : Re.atom) (pieces : list string) :
  Forall2 piece_of [a; b] pieces ->
  exists x y, pieces = [x; y] /\ piece_of a x /\ piece_of b y.
Proof.
  intros H. inversion H as [|? x ? l1 Ha H1]; subst.
  inversion H1 as [|? y ? l2 Hb H2]; subst.
  inversion H2; subst. now exists x, y.
Qed.

Lemma piece_of_lit (text x : string) : piece_of (Re.Lit text) x -> x = text.
Proof. now inversion 1. Qed.

Lemma piece_of_plus (cls : ascii -> bool) (x : string) :
  piece_of (Re.Plus cls) x -> x <> "" /\ all_chars cls x = true.
Proof. now inversion 1. Qed.

(** X1.  A hint is always backed by the output: a header hint names a
    run [h.h] of header characters that follows [fatal error: ] and is
    followed by a colon; a library hint [lib<name>-dev] names a run of
    word characters that follows [cannot find -l], and is only given
    when the header pattern occurs nowhere. *)
Theorem parse_hint_backed_by_text (text : string) (s : state) (hint : string) :
  fst (_parse_error_for_dependencies text s) = Return (Some hint) ->
  (exists pre h rest,
      text = pre ++ "fatal error: " ++ h ++ ".h:" ++ rest /\
      h <> "" /\ all_chars header_class h = true /\
      hint = "package containing " ++ h ++ ".h")
  \/
  (exists pre name rest,
      text = pre ++ "cannot find -l" ++ name ++ rest /\
      name <> "" /\ all_chars Re.isword name = true /\
      hint = "lib" ++ name ++ "-dev" /\
      Re.search header_re text = None).
Proof.
  rewrite DiagnoseFacts.parse_result. unfold diagnose. intros H.
  destruct (Re.search header_re text) as [m|] eqn:Hheader.
  - left. injection H as <-.
    destruct (ReSound.search_sound _ _ _ Hheader)
      as [p [pre [rest [Hp [Hpieces Htext]]]]].
    destruct Hp as [<-|[]].
    destruct (three_pieces _ _ _ _ Hpieces) as [x [y [z [-> [Hx [Hy Hz]]]]]].
    apply piece_of_lit in Hx, Hz. apply piece_of_plus in Hy.
    subst x z. destruct Hy as [Hne Hall].
    exists pre, y, rest. split; [|now repeat split].
    rewrite Htext. cbn [matched fold_right].
    now rewrite !StrFacts.append_assoc.
  - destruct (Re.search lib_re text) as [m|] eqn:Hlib; [|discriminate].
    right. injection H as <-.
    destruct (ReSound.search_sound _ _ _ Hlib)
      as [p [pre [rest [Hp [Hpieces Htext]]]]].
    destruct Hp as [<-|[]].
    destruct (two_pieces _ _ _ Hpieces) as [x [y [-> [Hx Hy]]]].
    apply piece_of_lit in Hx. apply piece_of_plus in Hy.
    subst x. destruct Hy as [Hne Hall].
    exists pre, y, rest. split; [|now repeat split].
    rewrite Htext. cbn [matched fold_right].
    now rewrite StrFacts.append_nil_r, !StrFacts.append_assoc.
Qed.

Lemma parse_hint_backed_by_text_witness :
  (exists pre h rest,
      "gcc: fatal error: zlib.h: No such file" =
        pre ++ "fatal error: " ++ h ++ ".h:" ++ rest /\
      h <> "" /\ all_chars header_class h = true /\
      "package containing zlib.h" = "package containing " ++ h ++ ".h")
  \/
  (exists pre name rest,
      "gcc: fatal error: zlib.h: No such file" =
        pre ++ "cannot find -l" ++ name ++ rest /\
      name <> "" /\ all_chars Re.isword name = true /\
      "package containing zlib.h" = "lib" ++ name ++ "-dev" /\
      Re.search header_re "gcc: fatal error: zlib.h: No such file" = None).
Proof.
  apply (parse_hint_backed_by_text "gcc: fatal error: zlib.h: No such file"
           (init "x.tar.gz" None) "package containing zlib.h").
  reflexivity.
Defined.

(** X2.  An output that contains neither [fatal error: ] nor
    [cannot find -l] gives no hint, and the parser logs nothing. *)
Theorem parse_without_keywords (text : string) (s : state) :
  Str.contains text "fatal error: " = false ->
  Str.contains text "cannot find -l" = false ->
  _parse_error_for_dependencies text s = (Return None, s).
Proof.
  intros Hheader Hlib. unfold _parse_error_for_dependencies, header_re, lib_re.
  rewrite (ReSound.search_without_literal _ _ _ Hheader).
  rewrite (ReSound.search_without_literal _ _ _ Hlib).
  reflexivity.
Qed.

Lemma parse_without_keywords_witness :
  _parse_error_for_dependencies "make: *** [all] Error 1" (init "x.tar.gz" None)
  = (Return None, init "x.tar.gz" None).
Proof.
  apply (parse_without_keywords "make: *** [all] Error 1" (init "x.tar.gz" None));
    reflexivity.
Defined.

Lemma drop_prefix (p s : string) : Re.drop (String.length p) (p ++ s) = s.
Proof. induction p as [|c p IH]; [now destruct s|exact IH]. Qed.

Lemma span_at_least (cls : ascii -> bool) (h s : string) :
  all_chars cls h = true -> String.length h <= Re.span cls (h ++ s).
Proof.
  induction h as [|c h IH]; intros H; [cbn; lia|].
  cbn [all_chars] in H. apply Bool.andb_true_iff in H. destruct H as [Hc Hh].
  cbn [String.append Re.span String.length]. rewrite Hc.
  specialize (IH Hh). lia.
Qed.

(** [[cls]+] succeeds as soon as the rest matches after some number
    of characters of the run. *)
Lemma backtrack_finds (rest : string -> option (list string)) (s : string)
      (k j : nat) :
  1 <= j <= k -> rest (Re.drop j s) <> None -> Re.backtrack k rest s <> None.
Proof.
  induction k as [|k IH]; intros Hj Hrest; [lia|].
  cbn [Re.backtrack].
  destruct (rest (Re.drop (S k) s)) eqn:Htop; [discriminate|].
  apply IH; [|exact Hrest].
  destruct (Nat.eq_dec j (S k)) as [->|Hne]; [congruence|lia].
Qed.

(** X3.  A compiler error naming a missing header always gives a header
    hint, also when the linker pattern occurs in the output. *)
Theorem parse_header_error_found (pre h rest : string) (s : state) :
  h <> "" ->
  all_chars header_class h = true ->
  exists hint,
    fst (_parse_error_for_dependencies
           (pre ++ "fatal error: " ++ h ++ ".h:" ++ rest) s) =
      Return (Some ("package containing " ++ hint ++ ".h")).
Proof.
  intros Hne Hall.
  rewrite DiagnoseFacts.parse_result. unfold diagnose.
  destruct (Re.search header_re
              (pre ++ "fatal error: " ++ h ++ ".h:" ++ rest)) as [m|] eqn:Hm.
  - exists (nth 1 m ""). reflexivity.
  - exfalso. revert Hm. apply ReSound.search_finds.
    unfold header_re. cbn [Re.match_alt Re.match_here].
    rewrite StrFacts.startswith_append, drop_prefix.
    assert (Hfound :
      Re.backtrack (Re.span header_class (h ++ ".h:" ++ rest))
        (Re.match_here [Re.Lit ".h:"]) (h ++ ".h:" ++ rest) <> None).
    { apply backtrack_finds with (j := String.length h).
      - split; [destruct h; [congruence|cbn; lia]|].
        now apply span_at_least.
      - rewrite drop_prefix. cbn [Re.match_here].
        now rewrite StrFacts.startswith_append. }
    destruct (Re.backtrack _ _ _); [discriminate|congruence].
Qed.

Lemma parse_header_error_found_witness :
  exists hint,
    fst (_parse_error_for_dependencies
           ("ld: cannot find -lz; " ++ "fatal error: " ++ "zlib" ++ ".h:" ++ " none")
           (init "x.tar.gz" None)) =
      Return (Some ("package containing " ++ hint ++ ".h")).
Proof.
  apply (parse_header_error_found "ld: cannot find -lz; " "zlib" " none"
           (init "x.tar.gz" None)).
  - discriminate.
  - reflexivity.
Defined.

(** X4.  Without the header pattern's [fatal error: ], a linker error
    [cannot find -l] followed by a word character always gives a
    library hint. *)
Theorem parse_linker_error_found (pre rest : string) (c : ascii) (s : state) :
  Str.contains (pre ++ "cannot find -l" ++ String c rest) "fatal error: "
    = false ->
  Re.isword c = true ->
  exists name,
    fst (_parse_error_for_dependencies
           (pre ++ "cannot find -l" ++ String c rest) s) =
      Return (Some ("lib" ++ name ++ "-dev")).
Proof.
  intros Hheader Hc.
  rewrite DiagnoseFacts.parse_result. unfold diagnose.
  unfold header_re. rewrite (ReSound.search_without_literal _ _ _ Hheader).
  destruct (Re.search lib_re (pre ++ "cannot find -l" ++ String c rest))
    as [m|] eqn:Hm.
  - exists (lib_group m). reflexivity.
  - exfalso. revert Hm. apply ReSound.search_finds.
    unfold lib_re. cbn [Re.match_alt Re.match_here].
    rewrite StrFacts.startswith_append, drop_prefix.
    cbn [Re.span]. rewrite Hc. cbn [Re.backtrack]. discriminate.
Qed.

Lemma parse_linker_error_found_witness :
  exists name,
    fst (_parse_error_for_dependencies
           ("/usr/bin/ld: " ++ "cannot find -l" ++ String "s" "sl: No such file")
           (init "x.tar.gz" None)) =
      Return (Some ("lib" ++ name ++ "-dev")).
Proof.
  apply (parse_linker_error_found "/usr/bin/ld: " "sl: No such file" "s"
           (init "x.tar.gz" None)); reflexivity.
Defined.

End DiagnoseMore.

(* ================================================================== *)
(** ** The package store: identities and integrity *)

Module DBMore.

Import DBManager Spec.
Local Open Scope Z_scope.

Lemma insert_package_consistent (n : string) (version : pyval) (t : tables) :
  store_consistent t ->
  store_consistent
    {| packages := packages t ++
         [{| pkg_id := seq_packages t + 1; pkg_name := n;
             pkg_version := version |}];
       installed_files := installed_files t;
       seq_packages := seq_packages t + 1;
       seq_installed_files := seq_installed_files t |}.
Proof.
  intros [Hids [Hseq [Hnodup Hrefs]]]. unfold store_consistent.
  cbn [packages installed_files seq_packages].
  split; [|split; [lia|split]].
  - intros p Hp. apply in_app_or in Hp. destruct Hp as [Hp|[<-|[]]].
    + specialize (Hids p Hp). lia.
    + cbn. lia.
  - rewrite map_app. cbn [map pkg_id]. apply NoDup_app.
    + exact Hnodup.
    + constructor; [intros []|constructor].
    + intros id Hid [<-|[]]. apply in_map_iff in Hid.
      destruct Hid as [p [Heq Hp]]. specialize (Hids p Hp). lia.
  - intros r Hr. rewrite map_app. apply in_or_app. left. now apply Hrefs.
Qed.

Lemma executemany_consistent (package_id : Z) (files : list pyval)
      (t : tables) :
  store_consistent t ->
  In package_id (map pkg_id (packages t)) ->
  store_consistent
    (snd (executemany (map (fun f => (package_id, f)) files) t)).
Proof.
  intros [Hids [Hseq [Hnodup Hrefs]]] Hin.
  destruct (DBFacts.executemany_adds (map (fun f => (package_id, f)) files) t)
    as [rows [Hp [Hs [Hf [Hrows _]]]]].
  unfold store_consistent. rewrite Hp, Hs, Hf.
  split; [exact Hids|]. split; [exact Hseq|]. split; [exact Hnodup|].
  intros r Hr. apply in_app_or in Hr. destruct Hr as [Hr|Hr].
  - now apply Hrefs.
  - specialize (Hrows r Hr). rewrite map_map in Hrows. cbn in Hrows.
    apply in_map_iff in Hrows. destruct Hrows as [_ [<- _]]. exact Hin.
Qed.

(** What the connection sees after [add_package], returned or raised. *)
Lemma add_package_view (name version : pyval) (files : list pyval)
      (c : connection) :
  view (snd (add_package name version files c)) =
    match name with
    | PyNone => view c
    | PyStr n =>
        snd (executemany
               (map (fun f => (seq_packages (view c) + 1, f)) files)
               {| packages := packages (view c) ++
                    [{| pkg_id := seq_packages (view c) + 1; pkg_name := n;
                        pkg_version := version |}];
                  installed_files := installed_files (view c);
                  seq_packages := seq_packages (view c) + 1;
                  seq_installed_files := seq_installed_files (view c) |})
    end.
Proof.
  unfold add_package. destruct name as [|n]; [reflexivity|].
  cbn [insert_package]. now destruct (executemany _ _) as [[|] t2].
Qed.

(** What is persisted after [add_package]: the view when it returned,
    what was persisted before when it raised. *)
Lemma add_package_committed (name version : pyval) (files : list pyval)
      (c : connection) :
  committed (snd (add_package name version files c)) =
    match fst (add_package name version files c) with
    | Return _ => view (snd (add_package name version files c))
    | Raise _ => committed c
    end.
Proof.
  unfold add_package. destruct name as [|n]; [reflexivity|].
  cbn [insert_package]. now destruct (executemany _ _) as [[|] t2].
Qed.

Lemma add_package_view_consistent (name version : pyval) (files : list pyval)
      (c : connection) :
  store_consistent (view c) ->
  store_consistent (view (snd (add_package name version files c))).
Proof.
  intros H. rewrite add_package_view. destruct name as [|n]; [exact H|].
  apply executemany_consistent.
  - now apply insert_package_consistent.
  - cbn [packages]. rewrite map_app. apply in_or_app. right. now left.
Qed.

Lemma reachable_consistent (c : connection) :
  reachable c -> store_consistent (view c) /\ store_consistent (committed c).
Proof.
  induction 1 as [|c name version files _ [IHview IHcommitted]].
  - assert (H : store_consistent empty_tables).
    { unfold store_consistent. cbn. repeat split; try tauto; try lia.
      constructor. }
    split; exact H.
  - split; [now apply add_package_view_consistent|].
    rewrite add_package_committed.
    destruct (fst (add_package name version files c));
      [now apply add_package_view_consistent|exact IHcommitted].
Qed.

(** X5.  In every store produced by [add_package] calls, successful or
    failed, the package ids are distinct and every file row belongs to
    a package that is there; this holds of what the connection sees and
    of what is persisted. *)
Theorem reachable_store_integrity (c : connection) :
  reachable c ->
  NoDup (map pkg_id (packages (view c))) /\
  (forall r, In r (installed_files (view c)) ->
             exists p, In p (packages (view c)) /\
                       pkg_id p = file_package_id r) /\
  NoDup (map pkg_id (packages (committed c))) /\
  (forall r, In r (installed_files (committed c)) ->
             exists p, In p (packages (committed c)) /\
                       pkg_id p = file_package_id r).
Proof.
  intros Hreach.
  destruct (reachable_consistent c Hreach)
    as [[_ [_ [Hn1 Hr1]]] [_ [_ [Hn2 Hr2]]]].
  repeat split; try assumption.
  - intros r Hr. specialize (Hr1 r Hr). apply in_map_iff in Hr1.
    destruct Hr1 as [p [Heq Hp]]. now exists p.
  - intros r Hr. specialize (Hr2 r Hr). apply in_map_iff in Hr2.
    destruct Hr2 as [p [Heq Hp]]. now exists p.
Qed.

Lemma reachable_store_integrity_witness :
  let c := snd (add_package (PyStr "q") (PyStr "2") [PyStr "/b"]
             (snd (add_package (PyStr "p") (PyStr "1") [PyStr "/a"; PyNone]
                     connect))) in
  NoDup (map pkg_id (packages (committed c))) /\
  (forall r, In r (installed_files (committed c)) ->
             exists p, In p (packages (committed c)) /\
                       pkg_id p = file_package_id r).
Proof.
  intros c.
  destruct (reachable_store_integrity c) as [_ [_ [Hn Hr]]].
  - subst c. apply reachable_add. apply reachable_add. apply reachable_connect.
  - split; assumption.
Defined.

Lemma add_package_returns (name version : pyval) (files : list pyval)
      (c : connection) (id : Z) :
  fst (add_package name version files c) = Return id ->
  id = seq_packages (view c) + 1 /\ exists n, name = PyStr n.
Proof.
  unfold add_package. destruct name as [|n]; [discriminate|].
  cbn [insert_package]. destruct (executemany _ _) as [[|] t2];
    [|discriminate].
  cbn [fst]. intros H. injection H as <-. split; [reflexivity|now exists n].
Qed.

(** X6.  The id [add_package] returns is new: no package the connection
    saw before has it, and the package added has it. *)
Theorem add_package_id_is_fresh (name version : pyval) (files : list pyval)
        (c : connection) (id : Z) :
  reachable c ->
  fst (add_package name version files c) = Return id ->
  ~ In id (map pkg_id (packages (view c))) /\
  exists n, name = PyStr n /\
    In {| pkg_id := id; pkg_name := n; pkg_version := version |}
       (packages (view (snd (add_package name version files c)))).
Proof.
  intros Hreach Hret.
  destruct (reachable_consistent c Hreach) as [[Hids _] _].
  destruct (add_package_returns name version files c id Hret) as [-> [n ->]].
  split.
  - intros Hin. apply in_map_iff in Hin. destruct Hin as [p [Heq Hp]].
    specialize (Hids p Hp). lia.
  - exists n. split; [reflexivity|]. rewrite add_package_view.
    match goal with
    | |- context [executemany ?records ?t1] =>
        destruct (DBFacts.executemany_adds records t1) as [rows [Hp _]]
    end.
    rewrite Hp. cbn [packages]. apply in_or_app. right. now left.
Qed.

Lemma add_package_id_is_fresh_witness :
  ~ In 1 (map pkg_id (packages (view connect))) /\
  exists n, PyStr "test-package" = PyStr n /\
    In {| pkg_id := 1; pkg_name := n; pkg_version := PyStr "1.0" |}
       (packages (view (snd (add_package (PyStr "test-package") (PyStr "1.0")
                                         [PyStr "/usr/bin/t"] connect)))).
Proof.
  apply (add_package_id_is_fresh (PyStr "test-package") (PyStr "1.0")
           [PyStr "/usr/bin/t"] connect 1).
  - apply reachable_connect.
  - reflexivity.
Defined.

Lemma filter_rows_of_others (id : Z) (rows : list file_row) :
  (forall r, In r rows -> file_package_id r <> id) ->
  filter (fun r => file_package_id r =? id) rows = [].
Proof.
  induction rows as [|r rows IH]; intros H; [reflexivity|].
  cbn [filter]. destruct (Z.eqb_spec (file_package_id r) id) as [Heq|_].
  - now specialize (H r (or_introl eq_refl)).
  - apply IH. intros r' Hr'. apply H. now right.
Qed.

(** X7.  [add_package], returned or raised, leaves the files of every
    package that was there before as they were. *)
Theorem add_package_keeps_other_packages (name version : pyval)
        (files : list pyval) (c : connection) (other : Z) :
  reachable c ->
  In other (map pkg_id (packages (view c))) ->
  get_files_for_package other (snd (add_package name version files c)) =
    get_files_for_package other c.
Proof.
  intros Hreach Hother.
  destruct (reachable_consistent c Hreach) as [[Hids _] _].
  assert (Hle : other <= seq_packages (view c)).
  { apply in_map_iff in Hother. destruct Hother as [p [<- Hp]].
    specialize (Hids p Hp). lia. }
  unfold get_files_for_package. rewrite add_package_view.
  destruct name as [|n]; [reflexivity|].
  match goal with
  | |- context [executemany ?records ?t1] =>
      destruct (DBFacts.executemany_adds records t1)
        as [rows [_ [_ [Hf [Hrows _]]]]]
  end.
  rewrite Hf. cbn [installed_files]. rewrite filter_app.
  rewrite (filter_rows_of_others other rows), app_nil_r; [reflexivity|].
  intros r Hr. specialize (Hrows r Hr). rewrite map_map in Hrows.
  cbn in Hrows. apply in_map_iff in Hrows. destruct Hrows as [_ [<- _]]. lia.
Qed.

Lemma add_package_keeps_other_packages_witness :
  let c := snd (add_package (PyStr "p") (PyStr "1") [PyStr "/a"] connect) in
  get_files_for_package 1
    (snd (add_package (PyStr "q") PyNone [PyStr "/b"; PyNone] c)) =
  get_files_for_package 1 c.
Proof.
  intros c.
  apply (add_package_keeps_other_packages (PyStr "q") PyNone
           [PyStr "/b"; PyNone] c 1).
  - subst c. apply reachable_add. apply reachable_connect.
  - now left.
Defined.

(** X8.  Asking for the files of an id no package has gives the empty
    list. *)
Theorem get_files_of_unknown_package (c : connection) (id : Z) :
  reachable c ->
  ~ In id (map pkg_id (packages (view c))) ->
  get_files_for_package id c = [].
Proof.
  intros Hreach Hid.
  destruct (reachable_consistent c Hreach) as [[_ [_ [_ Hrefs]]] _].
  unfold get_files_for_package.
  assert (Hnone : filter (fun r => file_package_id r =? id)
                         (installed_files (view c)) = []).
  { induction (installed_files (view c)) as [|r rows IH]; [reflexivity|].
    cbn [filter]. destruct (Z.eqb_spec (file_package_id r) id) as [Heq|_].
    - exfalso. apply Hid. rewrite <- Heq. apply Hrefs. now left.
    - apply IH. intros r' Hr'. apply Hrefs. now right. }
  now rewrite Hnone.
Qed.

Lemma get_files_of_unknown_package_witness :
  get_files_for_package 7
    (snd (add_package (PyStr "p") (PyStr "1") [PyStr "/a"] connect)) = [].
Proof.
  apply (get_files_of_unknown_package
           (snd (add_package (PyStr "p") (PyStr "1") [PyStr "/a"] connect)) 7).
  - apply reachable_add. apply reachable_connect.
  - cbn. intros [H|[]]. discriminate.
Defined.

End DBMore.

(* ================================================================== *)
(** ** Extraction and cleanup: the temporary directory *)

Module ExtractMore.

Import Installer Spec.
Local Open Scope string_scope.

Lemma mem_In (x : string) (l : list string) : mem x l = true <-> In x l.
Proof.
  unfold mem. rewrite existsb_exists. split.
  - intros [y [Hy Heq]]. apply String.eqb_eq in Heq. now subst y.
  - intros H. exists x. split; [exact H|apply String.eqb_refl].
Qed.

Lemma mem_removed (x : string) (l : list string) :
  mem x (filter (fun d => negb (String.eqb x d)) l) = false.
Proof.
  destruct (mem x (filter _ l)) eqn:H; [|reflexivity].
  apply mem_In in H. now apply RunFacts.not_in_filter_neq in H.
Qed.

Lemma join2_nonempty (a b : string) : b <> "" -> OsPath.join2 a b <> "".
Proof.
  intros Hb. unfold OsPath.join2.
  destruct (Str.startswith b "/"); [exact Hb|].
  destruct (negb (Str.truthy a) || Str.endswith a "/").
  - destruct a; [exact Hb|discriminate].
  - destruct a; discriminate.
Qed.

Lemma next_mkdtemp_truthy (w : World) (prefix : string) (s : state) :
  prefix <> "" -> Str.truthy (next_mkdtemp w prefix s) = true.
Proof.
  intros Hp. apply StrFacts.truthy_true. apply join2_nonempty.
  destruct prefix; [congruence|discriminate].
Qed.

(** What [cleanup] does to a state. *)
Lemma cleanup_cases (s : state) :
  (exists d, temp_dir s = Some d /\ d <> "" /\ In d (tmp_dirs s) /\
     cleanup s =
       (Return tt,
        after (set_tmp (tmp_count s)
                 (filter (fun x => negb (String.eqb d x)) (tmp_dirs s)) s)
              ["Cleaned up temporary directory: " ++ d] []))
  \/
  ((forall d, temp_dir s = Some d -> d <> "" -> ~ In d (tmp_dirs s)) /\
   cleanup s = (Return tt, s)).
Proof.
  unfold cleanup, bind, get.
  destruct (temp_dir s) as [d|] eqn:Htemp; [|right; split; [discriminate|reflexivity]].
  destruct (Str.truthy d) eqn:Htruthy; cbn [andb].
  - destruct (mem d (tmp_dirs s)) eqn:Hmem.
    + left. exists d. apply StrFacts.truthy_true in Htruthy.
      apply mem_In in Hmem as Hin. repeat split; try assumption.
      unfold rmtree. rewrite Hmem. now rewrite RunFacts.log_start.
    + right. split; [|reflexivity].
      intros d' Hd' _ Hin. injection Hd' as <-.
      apply mem_In in Hin. congruence.
  - right. split; [|reflexivity].
    intros d' Hd' Hne. injection Hd' as <-. now destruct d.
Qed.

(** X9.  When [cleanup] returns, the temporary directory of the
    installer does not exist, every other directory that existed still
    does and none is new, [temp_dir] keeps its value, and a second
    [cleanup] returns with nothing changed. *)
Theorem cleanup_removes_temp_dir_once (s s' : state) :
  cleanup s = (Return tt, s') ->
  temp_dir s' = temp_dir s /\
  (forall d, temp_dir s = Some d -> d <> "" -> ~ In d (tmp_dirs s')) /\
  (forall x, In x (tmp_dirs s') <->
             In x (tmp_dirs s) /\ (x <> "" -> temp_dir s <> Some x)) /\
  cleanup s' = (Return tt, s').
Proof.
  intros Hreturned.
  destruct (cleanup_cases s) as [[d [Htemp [Hne [Hin Hrun]]]]|[Hgone Hrun]];
    rewrite Hrun in Hreturned; injection Hreturned as <-.
  - cbn [temp_dir after set_spawned set_log set_tmp tmp_dirs].
    split; [reflexivity|]. split; [|split].
    + intros d' Hd' _. rewrite Htemp in Hd'. injection Hd' as <-.
      apply RunFacts.not_in_filter_neq.
    + intros x. rewrite filter_In, Bool.negb_true_iff, String.eqb_neq.
      rewrite Htemp. split.
      * intros [Hx Hdx]. split; [exact Hx|]. intros _ Heq.
        injection Heq as ->. now apply Hdx.
      * intros [Hx Hdx]. split; [exact Hx|]. intros ->. now apply Hdx.
    + unfold cleanup, bind, get. cbn [temp_dir after set_spawned set_log
        set_tmp tmp_dirs]. rewrite Htemp, mem_removed.
      now rewrite Bool.andb_false_r.
  - split; [reflexivity|].
    split; [exact Hgone|]. split; [|exact Hrun].
    intros x. split; [|tauto]. intros Hx. split; [exact Hx|].
    intros Hne Htemp. exact (Hgone x Htemp Hne Hx).
Qed.

Lemma cleanup_removes_temp_dir_once_witness :
  let s := Samples.extracted "dummy_ok-1.0.tar.gz"
             "/tmp/library_0/dummy_package_ok-1.0" None in
  temp_dir (snd (cleanup s)) = Some "/tmp/library_0" /\
  ~ In "/tmp/library_0" (tmp_dirs (snd (cleanup s))) /\
  cleanup (snd (cleanup s)) = (Return tt, snd (cleanup s)).
Proof.
  intros s.
  destruct (cleanup_removes_temp_dir_once s (snd (cleanup s)) eq_refl)
    as [Htemp [Hgone [_ Hagain]]].
  split; [exact Htemp|]. split; [|exact Hagain].
  apply (Hgone "/tmp/library_0"); [reflexivity|discriminate].
Defined.

(** [extract_package] when the archive cannot be read. *)
Lemma extract_failed_state (e : string) (s : state) (d : string) :
  temp_dir s = Some d -> d <> "" -> In d (tmp_dirs s) ->
  extract_failed e s =
    (Return None,
     after (set_tmp (tmp_count s)
              (filter (fun x => negb (String.eqb d x)) (tmp_dirs s)) s)
           ["Error extracting tar file: " ++ e;
            "Cleaned up temporary directory: " ++ d] []).
Proof.
  intros Htemp Hne Hin. unfold extract_failed, bind at 1.
  rewrite RunFacts.log_start. unfold bind at 1.
  unfold cleanup, bind at 1, get.
  change (temp_dir (after s ["Error extracting tar file: " ++ e] []))
    with (temp_dir s).
  change (tmp_dirs (after s ["Error extracting tar file: " ++ e] []))
    with (tmp_dirs s).
  rewrite Htemp. apply StrFacts.truthy_true in Hne. rewrite Hne.
  apply mem_In in Hin. rewrite Hin. cbn [andb].
  unfold bind at 1. unfold rmtree.
  change (tmp_dirs (after s ["Error extracting tar file: " ++ e] []))
    with (tmp_dirs s).
  rewrite Hin. unfold _log, modify, ret, after. cbn.
  now rewrite <- app_assoc.
Qed.

Lemma next_temp_dir_nonempty (w : World) (s : state) : next_temp_dir w s <> "".
Proof.
  apply StrFacts.truthy_true. apply next_mkdtemp_truthy. discriminate.
Qed.

(** Every way [extract_package] can end for a path in [.tar.gz]. *)
Lemma extract_package_cases (w : World) (s : state) :
  Str.endswith (file_path s) ".tar.gz" = true ->
  let tmp := next_temp_dir w s in
  match tar_open w (file_path s) with
  | TarError e =>
      extract_package w s =
        (Return None,
         after (unpacked w s (extracted_path s)
                         (without tmp (tmp_dirs s ++ [tmp])))
               ["Extracting " ++ file_path s ++ " to " ++ tmp;
                "Error extracting tar file: " ++ e;
                "Cleaned up temporary directory: " ++ tmp] [])
  | TarFile members (Some e) =>
      extract_package w s =
        (Return None,
         after (unpacked w s (Some (root_of tmp members))
                         (without tmp (tmp_dirs s ++ [tmp])))
               ["Extracting " ++ file_path s ++ " to " ++ tmp;
                "Error extracting tar file: " ++ e;
                "Cleaned up temporary directory: " ++ tmp] [])
  | TarFile members None =>
      extract_package w s =
        (Return (Some (root_of tmp members)),
         after (unpacked w s (Some (root_of tmp members)) (tmp_dirs s ++ [tmp]))
               ["Extracting " ++ file_path s ++ " to " ++ tmp;
                "Extraction successful to " ++ root_of tmp members] [])
  end.
Proof.
  intros Hsuf tmp.
  assert (Hfail : forall e root,
    extract_failed e
      (after (unpacked w s root (tmp_dirs s ++ [tmp]))
             ["Extracting " ++ file_path s ++ " to " ++ tmp] []) =
    (Return None,
     after (unpacked w s root (without tmp (tmp_dirs s ++ [tmp])))
           ["Extracting " ++ file_path s ++ " to " ++ tmp;
            "Error extracting tar file: " ++ e;
            "Cleaned up temporary directory: " ++ tmp] [])).
  { intros e root.
    rewrite (extract_failed_state e _ tmp).
    - unfold after, unpacked, without. cbn. now rewrite <- !app_assoc.
    - reflexivity.
    - apply next_temp_dir_nonempty.
    - cbn. apply in_or_app. right. now left. }
  unfold extract_package, bind, get, mkdtemp, modify, raise.
  rewrite Hsuf. cbn [negb]. rewrite RunFacts.log_start.
  destruct (tar_open w (file_path s)) as [e|members [e|]].
  - match goal with
    | |- context [extract_failed e ?X] =>
        change X with
          (after (unpacked w s (extracted_path s) (tmp_dirs s ++ [tmp]))
                 ["Extracting " ++ file_path s ++ " to " ++ tmp] [])
    end.
    now rewrite Hfail.
  - match goal with
    | |- context [extract_failed e ?X] =>
        change X with
          (after (unpacked w s (Some (root_of tmp members)) (tmp_dirs s ++ [tmp]))
                 ["Extracting " ++ file_path s ++ " to " ++ tmp] [])
    end.
    now rewrite Hfail.
  - match goal with
    | |- context [_log ?m ?X] =>
        change X with
          (after (unpacked w s (Some (root_of tmp members)) (tmp_dirs s ++ [tmp]))
                 ["Extracting " ++ file_path s ++ " to " ++ tmp] [])
    end.
    rewrite RunFacts.log_after. reflexivity.
Qed.

Lemma in_without (d x : string) (dirs : list string) :
  In x (without d dirs) <-> In x dirs /\ x <> d.
Proof.
  unfold without. rewrite filter_In, Bool.negb_true_iff, String.eqb_neq.
  split; intros [H1 H2]; split; congruence.
Qed.

(** X10.  When the archive cannot be opened, listed or extracted,
    [extract_package] returns [None] and the temporary directory it
    created is gone again: no directory exists afterwards that did not
    exist before; no process is started and the store is not touched. *)
Theorem extract_package_error_leaves_nothing (w : World) (s : state) :
  Str.endswith (file_path s) ".tar.gz" = true ->
  (forall members, tar_open w (file_path s) <> TarFile members None) ->
  exists s',
    extract_package w s = (Return None, s') /\
    temp_dir s' = Some (next_temp_dir w s) /\
    ~ In (next_temp_dir w s) (tmp_dirs s') /\
    (forall d, In d (tmp_dirs s') -> In d (tmp_dirs s)) /\
    spawned s' = spawned s /\
    db_manager s' = db_manager s.
Proof.
  intros Hsuf Hbad. pose proof (extract_package_cases w s Hsuf) as Hcases.
  cbv zeta in Hcases.
  assert (Hdirs : forall d,
    In d (without (next_temp_dir w s) (tmp_dirs s ++ [next_temp_dir w s])) ->
    In d (tmp_dirs s)).
  { intros d Hd. apply in_without in Hd. destruct Hd as [Hd Hne].
    apply in_app_or in Hd. destruct Hd as [Hd|[Hd|[]]]; congruence. }
  destruct (tar_open w (file_path s)) as [e|members [e|]].
  - eexists. split; [exact Hcases|]. cbn. rewrite app_nil_r.
    repeat split; try assumption. apply RunFacts.not_in_filter_neq.
  - eexists. split; [exact Hcases|]. cbn. rewrite app_nil_r.
    repeat split; try assumption. apply RunFacts.not_in_filter_neq.
  - now specialize (Hbad members).
Qed.

Lemma extract_package_error_leaves_nothing_witness :
  let w := Samples.broken (Samples.healthy Samples.wrapped_members ["Makefile"])
                          [] [] "" in
  let bad := {| gettempdir := gettempdir w; mkdtemp_random := mkdtemp_random w;
                getcwd := getcwd w;
                tar_open := fun _ => TarError "not a gzip file";
                path_isdir := path_isdir w; path_exists := path_exists w;
                which := which w; run := run w |} in
  exists s',
    extract_package bad (init "broken.tar.gz" None) = (Return None, s') /\
    tmp_dirs s' = [].
Proof.
  intros w bad.
  destruct (extract_package_error_leaves_nothing bad (init "broken.tar.gz" None))
    as [s' [Hrun [_ [_ [Hdirs _]]]]].
  - reflexivity.
  - intros members. discriminate.
  - exists s'. split; [exact Hrun|].
    destruct (tmp_dirs s') as [|d dirs]; [reflexivity|].
    destruct (Hdirs d (or_introl eq_refl)).
Defined.

(** X11.  For an archive that extracts without error and whose first
    member is [D] or lies below [D], [extract_package] returns the path
    of [D] in the new temporary directory, records it as extracted
    path, and the temporary directory exists. *)
Theorem extract_package_wrapped_archive (w : World) (s : state)
        (first : tarinfo) (rest : list tarinfo) (D tail : string) :
  Str.endswith (file_path s) ".tar.gz" = true ->
  tar_open w (file_path s) = TarFile (first :: rest) None ->
  name first = D \/ name first = D ++ "/" ++ tail ->
  Str.contains D "/" = false ->
  exists s',
    extract_package w s =
      (Return (Some (OsPath.join2 (next_temp_dir w s) D)), s') /\
    extracted_path s' = Some (OsPath.join2 (next_temp_dir w s) D) /\
    temp_dir s' = Some (next_temp_dir w s) /\
    tmp_dirs s' = (tmp_dirs s ++ [next_temp_dir w s])%list /\
    spawned s' = spawned s.
Proof.
  intros Hsuf Hopen Hname Hslash.
  pose proof (extract_package_cases w s Hsuf) as Hcases.
  cbv zeta in Hcases. rewrite Hopen in Hcases.
  assert (Hroot : root_of (next_temp_dir w s) (first :: rest) =
                  OsPath.join2 (next_temp_dir w s) D).
  { unfold root_of, OsPath.join. cbn [fold_left]. f_equal.
    destruct Hname as [->| ->].
    - now rewrite (StrFacts.split_no_sep "/" D Hslash).
    - change (D ++ "/" ++ tail) with (D ++ String "/" tail).
      now rewrite (PathFacts.split_append_sep "/" D tail Hslash). }
  rewrite Hroot in Hcases.
  eexists. split; [exact Hcases|]. cbn. rewrite app_nil_r. repeat split.
Qed.

Lemma extract_package_wrapped_archive_witness :
  exists s',
    extract_package (Samples.healthy Samples.wrapped_members ["Makefile"])
                    (init "dummy_ok-1.0.tar.gz" None) =
      (Return (Some "/tmp/library_0/dummy_package_ok-1.0"), s') /\
    tmp_dirs s' = ["/tmp/library_0"].
Proof.
  destruct (extract_package_wrapped_archive
              (Samples.healthy Samples.wrapped_members ["Makefile"])
              (init "dummy_ok-1.0.tar.gz" None)
              {| name := "dummy_package_ok-1.0"; isdir := true; size := 0 |}
              [{| name := "dummy_package_ok-1.0/Makefile"; isdir := false;
                  size := 120 |}]
              "dummy_package_ok-1.0" "")
    as [s' [Hrun [_ [_ [Hdirs _]]]]].
  - reflexivity.
  - reflexivity.
  - now left.
  - reflexivity.
  - exists s'. split; [exact Hrun|exact Hdirs].
Defined.

End ExtractMore.

(* ================================================================== *)
(** ** Every way [run_installation] can end *)

Module RunMore.

Import Installer Spec.
Local Open Scope string_scope.

(** Every build system has one install command. *)
Lemma one_install_command (b : build_system) :
  install_commands_only_of (commands b) = [install_of b].
Proof. now destruct b. Qed.

(** Every way [detect_build_system] can end. *)
Lemma detect_cases (w : World) (s : state) :
  (extracted_path s = None /\
   detect_build_system w s = (Raise (AttributeError "extracted_path"), s))
  \/ (exists b, detect_build_system w s = (Return (Some b), s))
  \/ (extracted_path s <> None /\
      exists lines, detect_build_system w s = (Return None, after s lines [])).
Proof.
  unfold detect_build_system, bind, get.
  destruct (extracted_path s) as [path|]; [|left; now split].
  right.
  destruct (negb (Str.truthy path) || negb (path_isdir w path)).
  - right. split; [discriminate|]. eexists. now rewrite RunFacts.log_start.
  - repeat match goal with
           | |- context [if ?c then _ else _] => destruct c
           end;
      try (left; eexists; reflexivity).
    right. split; [discriminate|]. exists []. unfold ret.
    now rewrite RunFacts.after_nil.
Qed.

(** The build loop never raises: either every command succeeded, or it
    stopped with a failure result. *)
Lemma run_build_commands_cases (w : World) (cmds : list (list string))
      (s : state) (l : list string) (p : list (list string * option string)) :
  (all_succeed w cmds /\
   exists lines,
     run_build_commands w cmds (after s l p) =
       (Return None, after s (l ++ lines) (p ++ map as_build cmds)))
  \/
  (~ all_succeed w cmds /\
   exists lines started payload,
     run_build_commands w cmds (after s l p) =
       (Return (Some (false, payload)),
        after s (l ++ lines) (p ++ map as_build started))).
Proof.
  revert l p. induction cmds as [|c cmds IH]; intros l p.
  - left. split; [intros c []|]. exists []. cbn. now rewrite !app_nil_r.
  - destruct (which w (hd "" c)) eqn:Hwhich.
    + destruct (Z.eq_dec (returncode (run w c None)) 0) as [Hcode|Hcode].
      * destruct (RunFacts.run_build_command_ok w c s l p Hwhich Hcode)
          as [lines1 Hrun1].
        destruct (IH (l ++ lines1)%list (p ++ [as_build c])%list)
          as [[Hall [lines2 Hrun2]]|[Hnot [lines2 [started [payload Hrun2]]]]].
        -- left. split.
           ++ intros c' [<-|Hc']; [now split|now apply Hall].
           ++ exists (lines1 ++ lines2)%list. cbn [run_build_commands].
              unfold bind at 1. rewrite Hrun1, Hrun2. cbn [map].
              now rewrite <- !app_assoc.
        -- right. split.
           ++ intros Hall. apply Hnot. intros c' Hc'. apply Hall. now right.
           ++ exists (lines1 ++ lines2)%list, (c :: started), payload.
              cbn [run_build_commands]. unfold bind at 1.
              rewrite Hrun1, Hrun2. cbn [map]. now rewrite <- !app_assoc.
      * destruct (RunFacts.run_build_command_failed w c s l p Hwhich Hcode)
          as [lines [Hrun _]].
        right. split.
        -- intros Hall. destruct (Hall c (or_introl eq_refl)) as [_ H0].
           contradiction.
        -- exists lines, [c], (build_failure c (output (run w c None))).
           cbn [run_build_commands]. unfold bind at 1. now rewrite Hrun.
    + destruct (RunFacts.run_build_command_missing w c s l p Hwhich)
        as [lines Hrun].
      right. split.
      * intros Hall. destruct (Hall c (or_introl eq_refl)) as [H0 _].
        congruence.
      * exists lines, [], (Message ("Command not found: " ++ hd "" c)).
        cbn [run_build_commands]. unfold bind at 1. rewrite Hrun.
        cbn [map]. now rewrite app_nil_r.
Qed.

Lemma db_add_package_after (name version : string) (files : list string)
      (c : DBManager.connection) (s : state)
      (l : list string) (p : list (list string * option string)) :
  db_manager s = Some c ->
  db_add_package name version files (after s l p) =
    (Return (DBManager.seq_packages (DBManager.view c) + 1)%Z,
     after (set_db_manager
              (Some (snd (DBManager.add_package (PyStr name) (PyStr version)
                            (map PyStr files) c))) s) l p).
Proof.
  intros Hdb. unfold db_add_package.
  change (db_manager (after s l p)) with (db_manager s). rewrite Hdb.
  now rewrite DBFacts.add_package_strings.
Qed.

(** The steps of [run_installation] up to the build loop. *)
Ltac enter_run Hdetect b :=
  unfold run_installation, bind at 1;
  rewrite (RunFacts.detect_some_state _ _ b Hdetect);
  unfold bind at 1; rewrite RunFacts.log_start; cbv zeta;
  fold (builds_of b); rewrite (one_install_command b).

(** The steps from the end of the build loop to the start of the
    install command. *)
Ltac enter_install :=
  unfold bind at 1; rewrite RunFacts.log_after;
  unfold bind at 1; rewrite RunFacts.mkdtemp_after;
  unfold bind at 1; rewrite RunFacts.log_after;
  unfold bind at 1; rewrite RunFacts.log_after.

(** The build loop stopped: its result is the result. *)
Lemma run_installation_build_stopped (w : World) (s : state) (b : build_system) :
  fst (detect_build_system w s) = Return (Some b) ->
  ~ all_succeed w (builds_of b) ->
  exists lines started payload,
    run_installation w s =
      (Return (false, payload), after s lines (map as_build started)).
Proof.
  intros Hdetect Hnot. enter_run Hdetect b.
  destruct (run_build_commands_cases w (builds_of b) s
              ["Detected build system: " ++ build_system_name b] [])
    as [[Hall _]|[_ [lines [started [payload Hrun]]]]]; [contradiction|].
  unfold bind at 1. rewrite Hrun. unfold ret.
  eexists. exists started, payload. reflexivity.
Qed.

(** The install command cannot be started. *)
Lemma run_installation_install_missing (w : World) (s : state)
      (b : build_system) :
  fst (detect_build_system w s) = Return (Some b) ->
  all_succeed w (builds_of b) ->
  which w (hd "" (install_of b)) = false ->
  exists lines,
    run_installation w s =
      (Raise (FileNotFoundError (hd "" (install_of b))),
       after (staged s (tmp_dirs s ++ [staging_of w s]) (db_manager s))
             lines (map as_build (builds_of b))).
Proof.
  intros Hdetect Hall Hwhich. enter_run Hdetect b.
  destruct (RunFacts.run_build_commands_ok w (builds_of b) s
              ["Detected build system: " ++ build_system_name b] [] Hall)
    as [lines Hrun].
  unfold bind at 1. rewrite Hrun. enter_install.
  unfold bind at 1. rewrite RunFacts.popen_missing by exact Hwhich.
  eexists. reflexivity.
Qed.

(** The install command exits with a status other than 0. *)
Lemma run_installation_install_failed (w : World) (s : state)
      (b : build_system) :
  fst (detect_build_system w s) = Return (Some b) ->
  all_succeed w (builds_of b) ->
  which w (hd "" (install_of b)) = true ->
  returncode (install_process w s b) <> 0%Z ->
  exists lines,
    run_installation w s =
      (Return (false, Message "Installation command failed"),
       after (staged s (without (staging_of w s) (tmp_dirs s ++ [staging_of w s]))
                     (db_manager s))
             lines
             (map as_build (builds_of b) ++
              [(install_of b, Some (staging_of w s))])).
Proof.
  intros Hdetect Hall Hwhich Hcode. enter_run Hdetect b.
  destruct (RunFacts.run_build_commands_ok w (builds_of b) s
              ["Detected build system: " ++ build_system_name b] [] Hall)
    as [lines Hrun].
  unfold bind at 1. rewrite Hrun. enter_install.
  unfold bind at 1. rewrite RunFacts.popen_found by exact Hwhich.
  unfold bind at 1. rewrite RunFacts.log_each_spec.
  unfold install_process, staging_of in Hcode.
  apply Z.eqb_neq in Hcode. rewrite Hcode.
  change (negb false) with true. cbv iota.
  unfold bind at 1. rewrite RunFacts.log_after.
  unfold bind at 1. rewrite (RunFacts.rmtree_after w) by apply RunFacts.mem_last.
  unfold ret. eexists. reflexivity.
Qed.

(** A line that was logged, among lines and runs of lines. *)
Ltac find_line :=
  rewrite <- ?app_assoc; cbn [app];
  repeat first [ left; reflexivity | apply in_or_app; right | right ].

(** Every command succeeds. *)
Lemma run_installation_succeeds (w : World) (s : state) (b : build_system) :
  fst (detect_build_system w s) = Return (Some b) ->
  all_succeed w (builds_of b) ->
  which w (hd "" (install_of b)) = true ->
  returncode (install_process w s b) = 0%Z ->
  exists lines,
    run_installation w s =
      (Return (true, Message "Success"),
       after (staged s (without (staging_of w s) (tmp_dirs s ++ [staging_of w s]))
                     (store_after_install w s b))
             lines
             (map as_build (builds_of b) ++
              [(install_of b, Some (staging_of w s))])) /\
    In ("Tracked " ++ Str.of_nat (List.length (manifest_of w s b)) ++
        " installed files:") lines.
Proof.
  intros Hdetect Hall Hwhich Hcode. enter_run Hdetect b.
  destruct (RunFacts.run_build_commands_ok w (builds_of b) s
              ["Detected build system: " ++ build_system_name b] [] Hall)
    as [lines Hrun].
  unfold bind at 1. rewrite Hrun. enter_install.
  unfold bind at 1. rewrite RunFacts.popen_found by exact Hwhich.
  unfold bind at 1. rewrite RunFacts.log_each_spec.
  unfold install_process, staging_of in Hcode. rewrite Hcode.
  change (negb (0 =? 0)%Z) with false. cbv iota zeta.
  fold (staging_of w s). fold (install_process w s b). fold (manifest_of w s b).
  unfold bind at 1. rewrite RunFacts.log_after.
  unfold bind at 1. rewrite RunFacts.log_each_spec.
  unfold bind at 1. unfold get at 1.
  match goal with
  | |- context [db_manager (after ?s0 ?l0 ?p0)] =>
      change (db_manager (after s0 l0 p0)) with (db_manager s)
  end.
  unfold store_after_install.
  destruct (db_manager s) as [c|] eqn:Hdb.
  - destruct (nonempty (manifest_of w s b)) eqn:Hfiles.
    + unfold bind at 1. unfold bind at 1.
      unfold _get_package_name at 1. unfold bind at 1, get at 1, ret at 1.
      unfold bind at 1.
      unfold _get_package_version at 1. unfold bind at 1, get at 1, ret at 1.
      unfold bind at 1. rewrite RunFacts.log_after.
      unfold bind at 1.
      match goal with
      | |- context [db_add_package ?n ?v ?f (after ?s0 ?l0 ?p0)] =>
          rewrite (db_add_package_after n v f c s0 l0 p0 Hdb)
      end.
      rewrite RunFacts.log_after.
      unfold bind at 1. rewrite (RunFacts.rmtree_after w) by apply RunFacts.mem_last.
      unfold bind at 1. rewrite RunFacts.log_after.
      unfold bind at 1. rewrite RunFacts.log_after.
      unfold ret. eexists. split; [reflexivity|].
      find_line.
    + unfold bind at 1. unfold ret at 1.
      unfold bind at 1. rewrite (RunFacts.rmtree_after w) by apply RunFacts.mem_last.
      unfold bind at 1. rewrite RunFacts.log_after.
      unfold bind at 1. rewrite RunFacts.log_after.
      unfold ret. rewrite <- Hdb. eexists. split; [reflexivity|].
      find_line.
  - unfold bind at 1. unfold ret at 1.
    unfold bind at 1. rewrite (RunFacts.rmtree_after w) by apply RunFacts.mem_last.
    unfold bind at 1. rewrite RunFacts.log_after.
    unfold bind at 1. rewrite RunFacts.log_after.
    unfold ret. rewrite <- Hdb. eexists. split; [reflexivity|].
    find_line.
Qed.

(** Once a build system is detected, [run_installation] ends in one of
    four ways. *)
Lemma run_installation_with (w : World) (s : state) (b : build_system) :
  fst (detect_build_system w s) = Return (Some b) ->
  outcome_with w s b (run_installation w s).
Proof.
  intros Hdetect.
  destruct (run_build_commands_cases w (builds_of b) s [] [])
    as [[Hall _]|[Hnot _]].
  - destruct (which w (hd "" (install_of b))) eqn:Hwhich.
    + destruct (Z.eq_dec (returncode (install_process w s b)) 0) as [Hcode|Hcode].
      * destruct (run_installation_succeeds w s b Hdetect Hall Hwhich Hcode)
          as [lines [-> _]].
        now apply install_succeeded.
      * destruct (run_installation_install_failed w s b Hdetect Hall Hwhich Hcode)
          as [lines ->].
        now apply install_failed.
    + destruct (run_installation_install_missing w s b Hdetect Hall Hwhich)
        as [lines ->].
      now apply install_missing.
  - destruct (run_installation_build_stopped w s b Hdetect Hnot)
      as [lines [started [result ->]]].
    now apply build_stopped.
Qed.

(** No build system is detected. *)
Lemma run_installation_undetected (w : World) (s : state) (lines : list string) :
  detect_build_system w s = (Return None, after s lines []) ->
  run_installation w s =
    (Return (false, Message "Build system not detected"),
     after s (lines ++ ["Could not detect a known build system."]) []).
Proof.
  intros Hdetect. unfold run_installation, bind at 1. rewrite Hdetect.
  unfold bind at 1. now rewrite RunFacts.log_after.
Qed.

(** Detection on a root that is not a directory, or that has none of
    the four files. *)
Lemma detect_nothing (w : World) (s : state) (root : string) :
  extracted_path s = Some root ->
  path_isdir w root = false \/
  (forall f, In f ["configure"; "CMakeLists.txt"; "setup.py"; "Makefile"] ->
             path_exists w (OsPath.join root [f]) = false) ->
  exists lines, detect_build_system w s = (Return None, after s lines []).
Proof.
  intros Hroot Hnone. unfold detect_build_system, bind, get. rewrite Hroot.
  destruct (negb (Str.truthy root) || negb (path_isdir w root)) eqn:Hdir.
  - eexists. now rewrite RunFacts.log_start.
  - destruct Hnone as [Hnot|Hnone].
    + rewrite Hnot in Hdir. cbn in Hdir. now rewrite Bool.orb_true_r in Hdir.
    + rewrite !Hnone by (cbn; tauto). exists []. unfold ret.
      now rewrite RunFacts.after_nil.
Qed.

(** X12.  When the extracted root is not a directory, or holds none of
    configure, CMakeLists.txt, setup.py and Makefile, [run_installation]
    returns [(False, "Build system not detected")]; it starts no
    process, creates no directory and leaves the store alone. *)
Theorem run_installation_without_build_system (w : World) (s : state)
        (root : string) :
  extracted_path s = Some root ->
  path_isdir w root = false \/
  (forall f, In f ["configure"; "CMakeLists.txt"; "setup.py"; "Makefile"] ->
             path_exists w (OsPath.join root [f]) = false) ->
  exists s',
    run_installation w s =
      (Return (false, Message "Build system not detected"), s') /\
    spawned s' = spawned s /\
    tmp_dirs s' = tmp_dirs s /\
    tmp_count s' = tmp_count s /\
    db_manager s' = db_manager s /\
    In "Could not detect a known build system." (log s').
Proof.
  intros Hroot Hnone.
  destruct (detect_nothing w s root Hroot Hnone) as [lines Hdetect].
  rewrite (run_installation_undetected w s lines Hdetect).
  eexists. split; [reflexivity|]. cbn. rewrite app_nil_r.
  repeat split. apply in_or_app. right. apply in_or_app. right. now left.
Qed.

Lemma run_installation_without_build_system_witness :
  exists s',
    run_installation (Samples.healthy Samples.flat_members ["Makefile"])
      (Samples.extracted "flat.tar.gz" "/tmp/library_0/Makefile" None) =
      (Return (false, Message "Build system not detected"), s') /\
    spawned s' = [] /\ tmp_dirs s' = ["/tmp/library_0"].
Proof.
  destruct (run_installation_without_build_system
              (Samples.healthy Samples.flat_members ["Makefile"])
              (Samples.extracted "flat.tar.gz" "/tmp/library_0/Makefile" None)
              "/tmp/library_0/Makefile" eq_refl (or_introl eq_refl))
    as [s' [Hrun [Hsp [Hdirs _]]]].
  exists s'. repeat split; assumption.
Defined.

Lemma run_build_commands_missing (w : World) (pre post : list (list string))
      (command : list string) (s : state)
      (l : list string) (p : list (list string * option string)) :
  all_succeed w pre ->
  which w (hd "" command) = false ->
  exists lines,
    run_build_commands w (pre ++ command :: post) (after s l p) =
      (Return (Some (false, Message ("Command not found: " ++ hd "" command))),
       after s (l ++ lines) (p ++ map as_build pre)).
Proof.
  intros Hpre Hwhich. revert l p.
  induction pre as [|c pre IH]; intros l p.
  - destruct (RunFacts.run_build_command_missing w command s l p Hwhich)
      as [lines Hrun].
    exists lines. cbn [app run_build_commands map]. unfold bind.
    rewrite Hrun. now rewrite app_nil_r.
  - destruct (Hpre c (or_introl eq_refl)) as [Hc1 Hc2].
    destruct (RunFacts.run_build_command_ok w c s l p Hc1 Hc2)
      as [lines1 Hrun1].
    destruct (IH (fun c' H => Hpre c' (or_intror H))
                 (l ++ lines1)%list (p ++ [as_build c])%list)
      as [lines2 Hrun2].
    exists (lines1 ++ lines2)%list.
    cbn [app run_build_commands]. unfold bind at 1. rewrite Hrun1, Hrun2.
    cbn [map]. now rewrite <- !app_assoc.
Qed.

(** X13.  When the executable of a build command cannot be started
    (the commands before it having succeeded), [run_installation]
    returns [(False, "Command not found: <executable>")]; the commands
    before it are the only processes started, no later build command
    and no install command runs, and no staging directory is created. *)
Theorem build_command_not_found (w : World) (s : state) (b : build_system)
        (pre post : list (list string)) (command : list string) :
  fst (detect_build_system w s) = Return (Some b) ->
  builds_of b = (pre ++ command :: post)%list ->
  all_succeed w pre ->
  which w (hd "" command) = false ->
  exists s',
    run_installation w s =
      (Return (false, Message ("Command not found: " ++ hd "" command)), s') /\
    spawned s' = (spawned s ++ map as_build pre)%list /\
    tmp_dirs s' = tmp_dirs s /\
    tmp_count s' = tmp_count s /\
    db_manager s' = db_manager s.
Proof.
  intros Hdetect Hbuilds Hpre Hwhich. enter_run Hdetect b. rewrite Hbuilds.
  destruct (run_build_commands_missing w pre post command s
              ["Detected build system: " ++ build_system_name b] []
              Hpre Hwhich) as [lines Hrun].
  unfold bind at 1. rewrite Hrun. unfold ret.
  eexists. split; [reflexivity|]. repeat split.
Qed.

Lemma build_command_not_found_witness :
  let w := Samples.broken
             (Samples.healthy Samples.wrapped_members ["configure"])
             ["make"] [] "" in
  let s := Samples.extracted "pkg-1.0.tar.gz" "/tmp/library_0/pkg-1.0" None in
  exists s',
    run_installation w s = (Return (false, Message "Command not found: make"), s') /\
    spawned s' = [(["./configure"], None)] /\
    tmp_dirs s' = ["/tmp/library_0"].
Proof.
  intros w s.
  destruct (build_command_not_found w s autotools [["./configure"]] []
              ["make"]) as [s' [Hrun [Hsp [Hdirs _]]]].
  - reflexivity.
  - reflexivity.
  - intros c [<-|[]]. split; reflexivity.
  - reflexivity.
  - exists s'. repeat split; assumption.
Defined.




(** Every way [run_installation] can end. *)
Lemma run_installation_cases (w : World) (s : state) :
  (extracted_path s = None /\
   run_installation w s = (Raise (AttributeError "extracted_path"), s))
  \/
  (extracted_path s <> None /\
   exists lines,
     run_installation w s =
       (Return (false, Message "Build system not detected"), after s lines []))
  \/
  (exists b,
     fst (detect_build_system w s) = Return (Some b) /\
     outcome_with w s b (run_installation w s)).
Proof.
  destruct (detect_cases w s)
    as [[Hnone Hdetect]|[[b Hdetect]|[Hsome [lines Hdetect]]]].
  - left. split; [exact Hnone|].
    unfold run_installation, bind at 1. now rewrite Hdetect.
  - right. right. exists b.
    assert (H : fst (detect_build_system w s) = Return (Some b))
      by now rewrite Hdetect.
    split; [exact H|]. now apply run_installation_with.
  - right. left. split; [exact Hsome|]. eexists.
    exact (run_installation_undetected w s lines Hdetect).
Qed.

(** X15.  [run_installation] returns [True] only with the message
    [Success], and only when a build system was detected and every
    build command and the install command started and exited with
    status 0; in particular it never returns "Build successful (no
    install step)". *)
Theorem success_means_all_commands_succeeded (w : World) (s s' : state)
        (result : payload) :
  run_installation w s = (Return (true, result), s') ->
  result = Message "Success" /\
  exists b,
    fst (detect_build_system w s) = Return (Some b) /\
    all_succeed w (builds_of b) /\
    which w (hd "" (install_of b)) = true /\
    returncode (install_process w s b) = 0%Z.
Proof.
  intros Hrun.
  destruct (run_installation_cases w s)
    as [[_ H]|[[_ [lines H]]|[b [Hdetect H]]]];
    try (rewrite Hrun in H; discriminate).
  rewrite Hrun in H. inversion H; subst.
  split; [reflexivity|]. exists b.
  split; [exact Hdetect|]. split; [assumption|]. split; assumption.
Qed.

Lemma success_means_all_commands_succeeded_witness :
  let w := Samples.healthy Samples.wrapped_members ["Makefile"] in
  let s := Samples.extracted "dummy_ok-1.0.tar.gz"
             "/tmp/library_0/dummy_package_ok-1.0" None in
  exists b,
    fst (detect_build_system w s) = Return (Some b) /\
    all_succeed w (builds_of b) /\
    returncode (install_process w s b) = 0%Z.
Proof.
  intros w s.
  destruct (success_means_all_commands_succeeded w s
              (snd (run_installation w s)) (Message "Success"))
    as [_ [b [Hdetect [Hall [_ Hcode]]]]].
  - vm_compute. reflexivity.
  - exists b. split; [exact Hdetect|]. split; assumption.
Defined.

(** X16.  When the archive cannot be opened or listed,
    [extract_package] returns [None] without ever assigning
    [extracted_path]; a [run_installation] that follows raises the
    [AttributeError] of that attribute in [detect_build_system] and
    does nothing else: no line is logged, no process is started, no
    directory is created and the store is not touched. *)
Theorem run_installation_after_failed_open (w : World) (s : state)
        (e : string) :
  extracted_path s = None ->
  Str.endswith (file_path s) ".tar.gz" = true ->
  tar_open w (file_path s) = TarError e ->
  exists s1,
    extract_package w s = (Return None, s1) /\
    extracted_path s1 = None /\
    run_installation w s1 = (Raise (AttributeError "extracted_path"), s1).
Proof.
  intros Hnone Hsuf Hopen.
  pose proof (ExtractMore.extract_package_cases w s Hsuf) as Hcases.
  cbv zeta in Hcases. rewrite Hopen in Hcases.
  eexists. split; [exact Hcases|].
  assert (Hstill : extracted_path
            (after (unpacked w s (extracted_path s)
                      (without (next_temp_dir w s)
                               (tmp_dirs s ++ [next_temp_dir w s])))
                   ["Extracting " ++ file_path s ++ " to " ++ next_temp_dir w s;
                    "Error extracting tar file: " ++ e;
                    "Cleaned up temporary directory: " ++ next_temp_dir w s]
                   []) = None) by exact Hnone.
  split; [exact Hstill|].
  unfold run_installation, bind at 1, detect_build_system, bind at 1, get.
  now rewrite Hstill.
Qed.

Lemma run_installation_after_failed_open_witness :
  let w := {| gettempdir := "/tmp";
              mkdtemp_random := fun n => Str.of_nat n;
              getcwd := "/home/user";
              tar_open := fun _ => TarError "not a gzip file";
              path_isdir := fun _ => false;
              path_exists := fun _ => false;
              which := fun _ => true;
              run := fun _ _ =>
                {| output := ""; returncode := 0; destdir_entries := [] |} |} in
  let s := init "notes.tar.gz" None in
  exists s1,
    extract_package w s = (Return None, s1) /\
    extracted_path s1 = None /\
    run_installation w s1 = (Raise (AttributeError "extracted_path"), s1).
Proof.
  intros w s.
  exact (run_installation_after_failed_open w s "not a gzip file"
           eq_refl eq_refl eq_refl).
Defined.

(** X17.  Whatever happens, [run_installation] leaves [file_path],
    [temp_dir] and [extracted_path] as they are, only adds lines to the
    log and processes to the list of started processes, and creates at
    most one temporary directory. *)
Theorem run_installation_frame (w : World) (s : state) :
  let s' := snd (run_installation w s) in
  file_path s' = file_path s /\
  temp_dir s' = temp_dir s /\
  extracted_path s' = extracted_path s /\
  (exists lines, log s' = (log s ++ lines)%list) /\
  (exists started, spawned s' = (spawned s ++ started)%list) /\
  (tmp_count s' = tmp_count s \/ tmp_count s' = S (tmp_count s)).
Proof.
  cbv zeta.
  destruct (run_installation_cases w s)
    as [[_ H]|[[_ [lines H]]|[b [_ H]]]].
  - rewrite H. cbn [snd]. repeat split; try (exists []; now rewrite app_nil_r).
    now left.
  - rewrite H. cbn. repeat split; try (now eexists). now left.
  - inversion H; cbn; repeat split; try (now eexists); tauto.
Qed.

(** X18.  When [run_installation] returns, no temporary directory
    exists that did not exist before (the staging directory is gone),
    and when it returns [False] the store is the one from before the
    call. *)
Theorem run_installation_returns_clean (w : World) (s s' : state)
        (ok : bool) (result : payload) :
  run_installation w s = (Return (ok, result), s') ->
  (forall d, In d (tmp_dirs s') -> In d (tmp_dirs s)) /\
  (ok = false -> db_manager s' = db_manager s).
Proof.
  intros Hrun.
  assert (Hclean : forall d,
    In d (without (staging_of w s) (tmp_dirs s ++ [staging_of w s])) ->
    In d (tmp_dirs s)).
  { intros d Hd. apply ExtractMore.in_without in Hd. destruct Hd as [Hd Hne].
    apply in_app_or in Hd. destruct Hd as [Hd|[Hd|[]]]; congruence. }
  destruct (run_installation_cases w s)
    as [[_ H]|[[_ [lines H]]|[b [_ H]]]].
  - rewrite Hrun in H. discriminate.
  - rewrite Hrun in H. inversion H. cbn. now split.
  - rewrite Hrun in H. inversion H; subst; cbn; split;
      try assumption; try reflexivity; try tauto; discriminate.
Qed.

Lemma run_installation_returns_clean_witness :
  let w := Samples.broken (Samples.healthy Samples.wrapped_members ["Makefile"])
                          [] [["make"]] "make: *** [all] Error 1" in
  let s := Samples.extracted "dummy_fail.tar.gz"
             "/tmp/library_0/dummy_package_fail" (Some DBManager.connect) in
  incl (tmp_dirs (snd (run_installation w s))) (tmp_dirs s) /\
  db_manager (snd (run_installation w s)) = db_manager s.
Proof.
  intros w s.
  destruct (run_installation_returns_clean w s (snd (run_installation w s))
              false (Message "Command failed: make")
              ltac:(vm_compute; reflexivity)) as [Hdirs Hdb].
  split; [exact Hdirs|now apply Hdb].
Defined.

End RunMore.

(* ================================================================== *)
(** ** Where a dependency result comes from *)

Module RunDeps.

Import Installer Spec.
Local Open Scope string_scope.

(** A dependency result of the build loop comes from a command that
    exited with a status other than 0 and in whose output the parser
    found the package. *)
Lemma run_build_commands_dependency (w : World) (cmds : list (list string))
      (s : state) (l : list string) (p : list (list string * option string))
      (package : string) (s' : state) :
  run_build_commands w cmds (after s l p) =
    (Return (Some (false, DependencyInfo package)), s') ->
  exists c,
    In c cmds /\ which w (hd "" c) = true /\
    returncode (run w c None) <> 0%Z /\
    diagnose (output (run w c None)) = Some package.
Proof.
  revert l p. induction cmds as [|c cmds IH]; intros l p Hrun;
    [discriminate|].
  cbn [run_build_commands] in Hrun. unfold bind at 1 in Hrun.
  destruct (which w (hd "" c)) eqn:Hwhich.
  - destruct (Z.eq_dec (returncode (run w c None)) 0) as [Hcode|Hcode].
    + destruct (RunFacts.run_build_command_ok w c s l p Hwhich Hcode)
        as [lines Hc].
      rewrite Hc in Hrun. destruct (IH _ _ Hrun) as [c' [Hin Hc']].
      exists c'. split; [now right|exact Hc'].
    + destruct (RunFacts.run_build_command_failed w c s l p Hwhich Hcode)
        as [lines [Hc _]].
      rewrite Hc in Hrun. unfold ret in Hrun.
      injection Hrun as Hpayload _. exists c. split; [now left|].
      split; [exact Hwhich|]. split; [exact Hcode|].
      unfold build_failure in Hpayload.
      destruct (diagnose (output (run w c None))); [|discriminate].
      now injection Hpayload as ->.
  - destruct (RunFacts.run_build_command_missing w c s l p Hwhich)
      as [lines Hc].
    rewrite Hc in Hrun. discriminate.
Qed.

(** X19.  [run_installation] returns a dependency result
    [{"type": "dependency", "package": p}] only when a build command of
    the detected build system exited with a status other than 0 and the
    parser found [p] in the output of that command. *)
Theorem dependency_result_comes_from_failed_build (w : World) (s s' : state)
        (package : string) :
  run_installation w s = (Return (false, DependencyInfo package), s') ->
  exists b c,
    fst (detect_build_system w s) = Return (Some b) /\
    In c (builds_of b) /\
    which w (hd "" c) = true /\
    returncode (run w c None) <> 0%Z /\
    diagnose (output (run w c None)) = Some package.
Proof.
  intros Hrun.
  destruct (RunMore.detect_cases w s)
    as [[_ Hdetect]|[[b Hdetect]|[_ [lines Hdetect]]]].
  - unfold run_installation, bind at 1 in Hrun. rewrite Hdetect in Hrun.
    discriminate.
  - assert (Hb : fst (detect_build_system w s) = Return (Some b))
      by now rewrite Hdetect.
    exists b.
    destruct (RunMore.run_build_commands_cases w (builds_of b) s
                ["Detected build system: " ++ build_system_name b] [])
      as [[Hall _]|[_ [lines [started [payload Hloop]]]]].
    + pose proof (RunMore.run_installation_with w s b Hb) as Hout.
      rewrite Hrun in Hout. inversion Hout; subst; contradiction.
    + unfold run_installation, bind at 1 in Hrun.
      rewrite Hdetect in Hrun. unfold bind at 1 in Hrun.
      rewrite RunFacts.log_start in Hrun. cbv zeta in Hrun.
      fold (builds_of b) in Hrun. unfold bind at 1 in Hrun.
      rewrite Hloop in Hrun. unfold ret in Hrun.
      injection Hrun as Hpayload _. subst payload.
      destruct (run_build_commands_dependency _ _ _ _ _ _ _ Hloop)
        as [c Hc].
      exists c. split; [exact Hb|exact Hc].
  - rewrite (RunMore.run_installation_undetected w s lines Hdetect) in Hrun.
    discriminate.
Qed.

Lemma dependency_result_comes_from_failed_build_witness :
  let w := Samples.broken (Samples.healthy Samples.wrapped_members ["Makefile"])
                          [] [["make"]]
                          "main.c:1:10: fatal error: nonexistent.h: No such file" in
  let s := Samples.extracted "dummy_fail.tar.gz"
             "/tmp/library_0/dummy_package_fail" None in
  exists b c,
    fst (detect_build_system w s) = Return (Some b) /\
    In c (builds_of b) /\
    diagnose (output (run w c None)) = Some "package containing nonexistent.h".
Proof.
  intros w s.
  destruct (dependency_result_comes_from_failed_build w s
              (snd (run_installation w s)) "package containing nonexistent.h"
              ltac:(vm_compute; reflexivity))
    as [b [c [Hdetect [Hin [_ [_ Hhint]]]]]].
  exists b, c. repeat split; assumption.
Defined.

End RunDeps.

(* ================================================================== *)
(** ** The worker thread: one run from archive to signal *)

Module WorkerFacts.

Import Installer Spec.
Local Open Scope string_scope.

(** Joining onto a non-empty path gives a non-empty path. *)
Lemma join2_left_nonempty (a b : string) : a <> "" -> OsPath.join2 a b <> "".
Proof.
  intros Ha. unfold OsPath.join2.
  destruct (Str.startswith b "/") eqn:Hb.
  - destruct b; [discriminate|discriminate].
  - destruct (negb (Str.truthy a) || Str.endswith a "/");
      destruct a; solve [congruence | discriminate].
Qed.

(** The extracted root is never the empty path. *)
Lemma root_of_truthy (tmp : string) (members : list tarinfo) :
  tmp <> "" -> Str.truthy (root_of tmp members) = true.
Proof.
  intros Htmp. apply StrFacts.truthy_true.
  destruct members as [|first rest]; [exact Htmp|].
  unfold root_of, OsPath.join. cbn [fold_left].
  now apply join2_left_nonempty.
Qed.

(** [extract_package] on a path that does not end in [.tar.gz]. *)
Lemma extract_package_other_suffix (w : World) (s : state) :
  Str.endswith (file_path s) ".tar.gz" = false ->
  exists e, extract_package w s = (Raise e, s).
Proof.
  intros H. unfold extract_package, bind, get, raise. rewrite H.
  now eexists.
Qed.

(** When [run_installation] returns, the directories that exist
    existed before, and the installer still knows its temporary
    directory. *)
Lemma run_installation_returned (w : World) (s s' : state)
      (r : bool * payload) :
  run_installation w s = (Return r, s') ->
  (forall d, In d (tmp_dirs s') -> In d (tmp_dirs s)) /\
  temp_dir s' = temp_dir s /\
  (fst r = true ->
   exists b,
     fst (detect_build_system w s) = Return (Some b) /\
     all_succeed w (builds_of b) /\
     which w (hd "" (install_of b)) = true /\
     returncode (install_process w s b) = 0%Z).
Proof.
  intros Hrun.
  assert (Hclean : forall d,
    In d (without (staging_of w s) (tmp_dirs s ++ [staging_of w s])) ->
    In d (tmp_dirs s)).
  { intros d Hd. apply ExtractMore.in_without in Hd. destruct Hd as [Hd Hne].
    apply in_app_or in Hd. destruct Hd as [Hd|[Hd|[]]]; congruence. }
  destruct (RunMore.run_installation_cases w s)
    as [[_ H]|[[_ [lines H]]|[b [Hdetect H]]]].
  - rewrite Hrun in H. discriminate.
  - rewrite Hrun in H. inversion H. cbn.
    split; [tauto|]. split; [reflexivity|discriminate].
  - rewrite Hrun in H. inversion H; subst; cbn [fst tmp_dirs temp_dir after
      staged set_spawned set_log set_db_manager set_tmp].
    + split; [tauto|]. split; [reflexivity|discriminate].
    + split; [exact Hclean|]. split; [reflexivity|discriminate].
    + split; [exact Hclean|]. split; [reflexivity|].
      intros _. exists b. split; [exact Hdetect|].
      split; [assumption|]. split; assumption.
Qed.

(** The directories left by [cleanup]. *)
Lemma cleanup_leaves (s : state) (d : string) :
  temp_dir s = Some d -> d <> "" ->
  exists s',
    cleanup s = (Return tt, s') /\
    forall x, In x (tmp_dirs s') -> In x (tmp_dirs s) /\ x <> d.
Proof.
  intros Htemp Hne.
  destruct (ExtractMore.cleanup_cases s)
    as [[d' [Htemp' [_ [_ Hrun]]]]|[Hgone Hrun]].
  - rewrite Htemp in Htemp'. injection Htemp' as <-.
    eexists. split; [exact Hrun|]. cbn. intros x Hx.
    now apply ExtractMore.in_without.
  - exists s. split; [exact Hrun|]. intros x Hx. split; [exact Hx|].
    intros ->. exact (Hgone d Htemp Hne Hx).
Qed.

(** Every way [Worker.run] can return. *)
Lemma worker_run_returned (w : World) (path : string) (s s' : state)
      (signals : list Worker.signal) :
  Worker.run w path s = (Return signals, s') ->
  (forall d, In d (tmp_dirs s') -> In d (tmp_dirs s)) /\
  (signals = [Worker.finished "Failed to extract package."] \/
   exists root s1 s2 r,
     extract_package w (Worker.new_installer path s) = (Return (Some root), s1) /\
     run_installation w s1 = (Return r, s2) /\
     signals = [Worker.signal_of (fst r) (snd r)]).
Proof.
  intros Hrun. unfold Worker.run, bind at 1 in Hrun.
  set (s0 := Worker.new_installer path s) in *.
  assert (Hdirs0 : forall d,
    In d (without (next_temp_dir w s0) (tmp_dirs s ++ [next_temp_dir w s0])) ->
    In d (tmp_dirs s)).
  { intros d Hd. apply ExtractMore.in_without in Hd. destruct Hd as [Hd Hne].
    apply in_app_or in Hd. destruct Hd as [Hd|[Hd|[]]]; congruence. }
  destruct (Str.endswith (file_path s0) ".tar.gz") eqn:Hsuf.
  - pose proof (ExtractMore.extract_package_cases w s0 Hsuf) as Hcases.
    cbv zeta in Hcases.
    destruct (tar_open w (file_path s0)) as [e|members [e|]].
    + rewrite Hcases in Hrun. unfold ret in Hrun.
      injection Hrun as <- <-. split; [exact Hdirs0|now left].
    + rewrite Hcases in Hrun. unfold ret in Hrun.
      injection Hrun as <- <-. split; [exact Hdirs0|now left].
    + rewrite Hcases in Hrun.
      rewrite (root_of_truthy _ members (ExtractMore.next_temp_dir_nonempty w s0))
        in Hrun.
      unfold bind at 1 in Hrun.
      match type of Hrun with
      | context [run_installation w ?X] =>
          set (s1 := X) in *; destruct (run_installation w s1) as [[r|e] s2] eqn:Hinst
      end; [|discriminate].
      destruct (run_installation_returned w s1 s2 r Hinst) as [Hkeep [Htemp _]].
      destruct (cleanup_leaves s2 (next_temp_dir w s0))
        as [s3 [Hclean Hleft]].
      { rewrite Htemp. reflexivity. }
      { apply ExtractMore.next_temp_dir_nonempty. }
      unfold bind at 1 in Hrun. rewrite Hclean in Hrun.
      unfold bind at 1, _log, modify, ret in Hrun.
      injection Hrun as <- <-. split.
      * cbn [tmp_dirs set_log]. intros d Hd.
        destruct (Hleft d Hd) as [Hd2 Hne].
        specialize (Hkeep d Hd2). subst s1. cbn in Hkeep.
        apply in_app_or in Hkeep. destruct Hkeep as [Hk|[Hk|[]]];
          [exact Hk|].
        subst d. exfalso. apply Hne. reflexivity.
      * right. exists (root_of (next_temp_dir w s0) members), s1, s2, r.
        split; [exact Hcases|]. split; [exact Hinst|reflexivity].
  - destruct (extract_package_other_suffix w s0 Hsuf) as [e He].
    rewrite He in Hrun. discriminate.
Qed.

(** The success message differs from every other message of the
    worker. *)
Lemma signal_of_success (success : bool) (result : payload) :
  Worker.signal_of success result =
    Worker.finished "Installation completed successfully!" ->
  success = true.
Proof.
  destruct success; [reflexivity|].
  destruct result; cbn; discriminate.
Qed.

(** X20.  When [Worker.run] returns it has emitted exactly one of the
    signals [finished] and [dependency_found], and every temporary
    directory it created is gone: the directories that exist afterwards
    existed before the run. *)
Theorem worker_run_one_signal_and_no_leftovers (w : World) (path : string)
        (s s' : state) (signals : list Worker.signal) :
  Worker.run w path s = (Return signals, s') ->
  (exists signal, signals = [signal]) /\
  (forall d, In d (tmp_dirs s') -> In d (tmp_dirs s)).
Proof.
  intros Hrun.
  destruct (worker_run_returned w path s s' signals Hrun)
    as [Hdirs [->|[root [s1 [s2 [r [_ [_ ->]]]]]]]].
  - split; [now eexists|exact Hdirs].
  - split; [now eexists|exact Hdirs].
Qed.

Lemma worker_run_one_signal_and_no_leftovers_witness :
  let w := Samples.broken (Samples.healthy Samples.wrapped_members ["Makefile"])
                          [] [["make"]]
                          "main.c:1:10: fatal error: nonexistent.h: No such file" in
  let s := init "" (Some DBManager.connect) in
  (exists signal,
     [Worker.dependency_found "package containing nonexistent.h"] = [signal]) /\
  incl (tmp_dirs (snd (Worker.run w "dummy_fail.tar.gz" s))) (tmp_dirs s).
Proof.
  intros w s.
  exact (worker_run_one_signal_and_no_leftovers w "dummy_fail.tar.gz" s
           (snd (Worker.run w "dummy_fail.tar.gz" s))
           [Worker.dependency_found "package containing nonexistent.h"]
           ltac:(vm_compute; reflexivity)).
Defined.

(** X21.  The worker reports "Installation completed successfully!"
    only when the archive was extracted, a build system was detected in
    the extracted tree, and every build command and the install command
    could be started and exited with status 0. *)
Theorem worker_success_signal_is_earned (w : World) (path : string)
        (s s' : state) (signals : list Worker.signal) :
  Worker.run w path s = (Return signals, s') ->
  In (Worker.finished "Installation completed successfully!") signals ->
  exists root s1 b,
    extract_package w (Worker.new_installer path s) = (Return (Some root), s1) /\
    fst (detect_build_system w s1) = Return (Some b) /\
    all_succeed w (builds_of b) /\
    which w (hd "" (install_of b)) = true /\
    returncode (install_process w s1 b) = 0%Z.
Proof.
  intros Hrun Hin.
  destruct (worker_run_returned w path s s' signals Hrun)
    as [_ [->|[root [s1 [s2 [r [Hextract [Hinst ->]]]]]]]].
  - destruct Hin as [Hin|[]]. discriminate Hin.
  - destruct Hin as [Hin|[]]. apply signal_of_success in Hin.
    destruct (run_installation_returned w s1 s2 r Hinst) as [_ [_ Hok]].
    destruct (Hok Hin) as [b Hb]. now exists root, s1, b.
Qed.

Lemma worker_success_signal_is_earned_witness :
  let w := {| gettempdir := "/tmp";
              mkdtemp_random := fun n => Str.of_nat n;
              getcwd := "/home/user";
              tar_open := fun _ => TarFile Samples.wrapped_members None;
              path_isdir := fun p => negb (Samples.ends_with_any p ["Makefile"]);
              path_exists := fun p => Samples.ends_with_any p ["Makefile"];
              which := fun _ => true;
              run := fun _ _ =>
                {| output := "ok" ++ Str.nl; returncode := 0;
                   destdir_entries := [] |} |} in
  let s := init "" (Some DBManager.connect) in
  exists root s1 b,
    extract_package w (Worker.new_installer "dummy_package_ok-1.0.tar.gz" s)
      = (Return (Some root), s1) /\
    fst (detect_build_system w s1) = Return (Some b) /\
    all_succeed w (builds_of b) /\
    which w (hd "" (install_of b)) = true /\
    returncode (install_process w s1 b) = 0%Z.
Proof.
  intros w s.
  apply (worker_success_signal_is_earned w "dummy_package_ok-1.0.tar.gz" s
           (snd (Worker.run w "dummy_package_ok-1.0.tar.gz" s))
           [Worker.finished "Installation completed successfully!"]).
  - vm_compute. reflexivity.
  - now left.
Defined.

(** What a successful [extract_package] leaves. *)
Lemma extract_package_returned_path (w : World) (s s1 : state) (root : string) :
  extract_package w s = (Return (Some root), s1) ->
  Str.truthy root = true /\
  tmp_dirs s1 = (tmp_dirs s ++ [next_temp_dir w s])%list /\
  db_manager s1 = db_manager s.
Proof.
  intros Hextract.
  destruct (Str.endswith (file_path s) ".tar.gz") eqn:Hsuf.
  - pose proof (ExtractMore.extract_package_cases w s Hsuf) as Hcases.
    cbv zeta in Hcases.
    destruct (tar_open w (file_path s)) as [e|members [e|]];
      rewrite Hcases in Hextract; try discriminate.
    injection Hextract as <- <-.
    split; [|now split].
    apply root_of_truthy, ExtractMore.next_temp_dir_nonempty.
  - destruct (extract_package_other_suffix w s Hsuf) as [e He].
    rewrite He in Hextract. discriminate.
Qed.

(** X22.  When the archive was extracted, a build system was detected
    and every build command succeeded, but the install command cannot
    be started, [Worker.run] ends with the [FileNotFoundError] of that
    command: neither [finished] nor [dependency_found] is emitted,
    [cleanup] does not run, so the directory of the extraction and the
    staging directory are both left behind, and the store is
    untouched. *)
Theorem worker_run_install_command_missing (w : World) (path : string)
        (s s1 : state) (root : string) (b : build_system) :
  extract_package w (Worker.new_installer path s) = (Return (Some root), s1) ->
  fst (detect_build_system w s1) = Return (Some b) ->
  all_succeed w (builds_of b) ->
  which w (hd "" (install_of b)) = false ->
  exists s',
    Worker.run w path s =
      (Raise (FileNotFoundError (hd "" (install_of b))), s') /\
    tmp_dirs s' =
      (tmp_dirs s ++ [next_temp_dir w (Worker.new_installer path s);
                      staging_of w s1])%list /\
    db_manager s' = db_manager s.
Proof.
  intros Hextract Hdetect Hall Hwhich.
  destruct (extract_package_returned_path w _ s1 root Hextract)
    as [Hroot [Hdirs Hdb]].
  destruct (RunMore.run_installation_install_missing w s1 b Hdetect Hall Hwhich)
    as [lines Hinst].
  eexists. split; [|split].
  - unfold Worker.run, bind at 1. rewrite Hextract, Hroot.
    unfold bind at 1. rewrite Hinst. reflexivity.
  - cbn [tmp_dirs after staged set_spawned set_log set_db_manager set_tmp].
    rewrite Hdirs, <- app_assoc. reflexivity.
  - cbn [db_manager after staged set_spawned set_log set_db_manager set_tmp].
    exact Hdb.
Qed.

Lemma worker_run_install_command_missing_witness :
  let w := Samples.broken
             (Samples.healthy Samples.wrapped_members ["setup.py"])
             ["python3"] [] "" in
  let s := init "" (Some DBManager.connect) in
  let s1 := snd (extract_package w (Worker.new_installer "tool-1.0.tar.gz" s)) in
  exists s',
    Worker.run w "tool-1.0.tar.gz" s =
      (Raise (FileNotFoundError (hd "" (install_of python))), s') /\
    tmp_dirs s' =
      (tmp_dirs s ++ [next_temp_dir w (Worker.new_installer "tool-1.0.tar.gz" s);
                      staging_of w s1])%list /\
    db_manager s' = db_manager s.
Proof.
  intros w s s1.
  apply (worker_run_install_command_missing w "tool-1.0.tar.gz" s s1
           "/tmp/library_0/dummy_package_ok-1.0" python).
  - vm_compute. reflexivity.
  - vm_compute. reflexivity.
  - intros c [].
  - reflexivity.
Defined.

End WorkerFacts.

(* ================================================================== *)
(** ** The name and the version read off a file name *)

Module NameMore.

Import Installer Spec.
Local Open Scope string_scope.

Lemma concat_matched (pieces : list string) :
  String.concat "" pieces = matched pieces.
Proof.
  induction pieces as [|x [|y l] IH]; [reflexivity| |].
  - cbn. now rewrite StrFacts.append_nil_r.
  - change (x ++ "" ++ String.concat "" (y :: l) = x ++ matched (y :: l)).
    now rewrite IH.
Qed.

(** The first text [re.findall] returns is a match of one of the
    alternatives and occurs in the subject. *)
Lemma findall_first_sound (alts : list Re.pattern) (s v : string) :
  hd_error (Re.findall alts s) = Some v ->
  exists p pieces pre rest,
    In p alts /\ Forall2 piece_of p pieces /\
    v = matched pieces /\ s = pre ++ v ++ rest.
Proof.
  rewrite ReFacts.findall_head.
  induction s as [|c s IH]; [discriminate|].
  destruct (Re.match_alt alts (String c s)) as [pieces|] eqn:Hm.
  - intros H. injection H as <-.
    destruct (ReSound.match_alt_sound alts _ pieces Hm)
      as [p [Hin [Hp [rest Hrest]]]].
    exists p, pieces, "", rest. rewrite concat_matched.
    split; [exact Hin|]. split; [exact Hp|]. split; [reflexivity|exact Hrest].
  - intros H. destruct (IH H) as [p [pieces [pre [rest [Hin [Hp [Hv Hs]]]]]]].
    exists p, pieces, (String c pre), rest.
    split; [exact Hin|]. split; [exact Hp|]. split; [exact Hv|].
    cbn. now rewrite <- Hs.
Qed.

(** The last character of a non-empty run. *)
Lemma all_chars_last (cls : ascii -> bool) (s : string) :
  s <> "" -> all_chars cls s = true ->
  exists s' c, s = s' ++ String c "" /\ cls c = true.
Proof.
  induction s as [|c s IH]; [congruence|]. intros _ H.
  cbn in H. apply andb_prop in H. destruct H as [Hc Hs].
  destruct s as [|d s].
  - now exists "", c.
  - destruct (IH ltac:(discriminate) Hs) as [s' [c' [Heq Hc']]].
    exists (String c s'), c'. split; [|exact Hc']. cbn. now rewrite <- Heq.
Qed.

(** The shape of a match of the version expression. *)
Lemma version_match_shape (p : Re.pattern) (pieces : list string) :
  In p version_re -> Forall2 piece_of p pieces ->
  exists a b tail,
    matched pieces = a ++ "." ++ b ++ tail /\
    numeral a /\ numeral b /\
    (tail = "" \/ exists c, tail = "." ++ c /\ numeral c).
Proof.
  intros [<-|[<-|[]]] H.
  - inversion H as [|? a ? l1 Ha H1]; subst.
    inversion H1 as [|? d1 ? l2 Hd1 H2]; subst.
    inversion H2 as [|? b ? l3 Hb H3]; subst.
    inversion H3 as [|? d2 ? l4 Hd2 H4]; subst.
    inversion H4 as [|? c ? l5 Hc H5]; subst.
    inversion H5; subst.
    apply DiagnoseMore.piece_of_lit in Hd1, Hd2. subst.
    apply DiagnoseMore.piece_of_plus in Ha, Hb, Hc.
    exists a, b, ("." ++ c). split.
    + cbn. now rewrite StrFacts.append_nil_r.
    + split; [exact Ha|]. split; [exact Hb|]. right. now exists c.
  - apply DiagnoseMore.three_pieces in H.
    destruct H as [a [d [b [-> [Ha [Hd Hb]]]]]].
    apply DiagnoseMore.piece_of_lit in Hd. subst.
    apply DiagnoseMore.piece_of_plus in Ha, Hb.
    exists a, b, "". split; [reflexivity|].
    split; [exact Ha|]. split; [exact Hb|now left].
Qed.

(** A digit, a dot and a digit start a version. *)
Lemma version_at_digits (x y : ascii) (rest : string) :
  Re.isdigit x = true -> Re.isdigit y = true ->
  version_at (String x (String "." (String y rest))) <> None.
Proof.
  intros Hx Hy. unfold version_at.
  cbn [Re.span]. rewrite Hx.
  change (Re.isdigit ".") with false. cbv iota.
  cbn [Re.drop Str.startswith Ascii.eqb Bool.eqb andb Nat.ltb Nat.leb].
  cbn [Re.span]. rewrite Hy.
  cbn [Nat.ltb Nat.leb andb].
  match goal with |- (if ?c then _ else _) <> None => destruct c end;
    discriminate.
Qed.

Lemma first_version_finds (pre s : string) :
  version_at s <> None -> s <> "" -> first_version (pre ++ s) <> None.
Proof.
  intros Hs Hne. induction pre as [|c pre IH].
  - destruct s as [|c s]; [congruence|]. cbn [String.append first_version].
    destruct (version_at (String c s)); [discriminate|congruence].
  - cbn [String.append first_version].
    destruct (version_at (String c (pre ++ s))); [discriminate|exact IH].
Qed.

(** No part of a split text contains the separator. *)
Lemma split_parts_no_sep (sep : ascii) (s : string) :
  Forall (fun part => Str.contains part (String sep "") = false)
         (Str.split sep s).
Proof.
  induction s as [|c s IH]; [repeat constructor|].
  cbn [Str.split]. destruct (Ascii.eqb c sep) eqn:Hc.
  - constructor; [reflexivity|exact IH].
  - destruct (Str.split sep s) as [|h t]; [repeat constructor|].
    + rewrite StrFacts.contains_char_cons, Ascii.eqb_sym, Hc. reflexivity.
    + inversion IH as [|? ? Hh Ht]; subst. constructor; [|exact Ht].
      rewrite StrFacts.contains_char_cons, Ascii.eqb_sym, Hc. exact Hh.
Qed.

Lemma split_append (sep : ascii) (x rest : string) :
  Str.contains x (String sep "") = false ->
  Str.split sep (x ++ String sep rest) = x :: Str.split sep rest.
Proof.
  induction x as [|c x IH]; intros H.
  - cbn [String.append Str.split]. now rewrite Ascii.eqb_refl.
  - rewrite StrFacts.contains_char_cons in H.
    apply Bool.orb_false_elim in H. destruct H as [Hc Hx].
    cbn [String.append Str.split].
    rewrite Ascii.eqb_sym, Hc, (IH Hx). reflexivity.
Qed.

(** Splitting what was joined gives the parts back. *)
Lemma split_of_join (sep : ascii) (l : list string) :
  l <> [] ->
  Forall (fun part => Str.contains part (String sep "") = false) l ->
  Str.split sep (Str.join (String sep "") l) = l.
Proof.
  induction l as [|x [|y l] IH]; intros Hne H; [congruence| |].
  - inversion H; subst. now apply StrFacts.split_no_sep.
  - inversion H as [|? ? Hx Hl]; subst.
    change (Str.join (String sep "") (x :: y :: l))
      with (x ++ String sep (Str.join (String sep "") (y :: l))).
    rewrite (split_append sep x _ Hx), IH; [reflexivity|discriminate|exact Hl].
Qed.

(** What the first text found by the version expression looks like. *)
Lemma first_match_shape (s v : string) :
  hd_error (Re.findall version_re s) = Some v ->
  exists pre rest a b tail,
    s = pre ++ v ++ rest /\
    v = a ++ "." ++ b ++ tail /\
    numeral a /\ numeral b /\
    (tail = "" \/ exists c, tail = "." ++ c /\ numeral c).
Proof.
  intros Hfirst.
  destruct (findall_first_sound version_re s v Hfirst)
    as [p [pieces [pre [rest [Hin [Hp [Hv Hs]]]]]]].
  destruct (version_match_shape p pieces Hin Hp) as [a [b [tail [Hm H]]]].
  exists pre, rest, a, b, tail. split; [exact Hs|].
  split; [now rewrite Hv|exact H].
Qed.

(** X23.  The version [_get_package_version] returns is either
    [unknown] or a text [a.b] or [a.b.c] of numerals that occurs in the
    base name of the file. *)
Theorem package_version_shape (path : string) :
  package_version_of path = "unknown" \/
  exists pre rest a b tail,
    OsPath.basename path = pre ++ package_version_of path ++ rest /\
    package_version_of path = a ++ "." ++ b ++ tail /\
    numeral a /\ numeral b /\
    (tail = "" \/ exists c, tail = "." ++ c /\ numeral c).
Proof.
  unfold package_version_of. cbv zeta.
  destruct (Re.findall version_re (OsPath.basename path)) as [|v l] eqn:Hall.
  - now left.
  - right. apply first_match_shape. now rewrite Hall.
Qed.

(** X24.  [_get_package_version] returns [unknown] exactly when the
    base name of the file has no digit that is followed by a dot and a
    digit. *)
Theorem package_version_unknown (path : string) :
  package_version_of path = "unknown" <->
  (forall pre x y rest,
     OsPath.basename path = pre ++ String x (String "." (String y rest)) ->
     Re.isdigit x && Re.isdigit y = false).
Proof.
  split.
  - intros Hv pre x y rest Hs.
    destruct (Re.isdigit x) eqn:Hx; [|reflexivity].
    destruct (Re.isdigit y) eqn:Hy; [|reflexivity]. exfalso.
    rewrite NameFacts.package_version_by_spec in Hv. unfold version_by_spec in Hv.
    destruct (first_version (OsPath.basename path)) as [v|] eqn:Hfirst.
    + subst v. rewrite <- NameFacts.findall_first_version in Hfirst.
      destruct (first_match_shape _ _ Hfirst)
        as [_ [_ [a [b [tail [_ [Heq [[Ha Hda] _]]]]]]]].
      destruct a as [|c a]; [congruence|].
      cbn in Heq, Hda. injection Heq as <- _. discriminate Hda.
    + apply (first_version_finds pre _ (version_at_digits x y rest Hx Hy)).
      * discriminate.
      * now rewrite <- Hs.
  - intros Hnone. unfold package_version_of. cbv zeta.
    destruct (Re.findall version_re (OsPath.basename path)) as [|v l] eqn:Hall;
      [reflexivity|exfalso].
    destruct (first_match_shape (OsPath.basename path) v)
      as [pre [rest [a [b [tail [Hs [Hv [[Ha Hda] [[Hb Hdb] _]]]]]]]]].
    { now rewrite Hall. }
    destruct (all_chars_last _ a Ha Hda) as [a' [x [-> Hx]]].
    destruct b as [|y b]; [congruence|].
    cbn in Hdb. apply andb_prop in Hdb. destruct Hdb as [Hy _].
    rewrite Hv in Hs.
    specialize (Hnone (pre ++ a') x y (b ++ tail ++ rest)).
    rewrite Hx, Hy in Hnone. enough (false = true) by discriminate.
    symmetry. apply Hnone. rewrite Hs.
    rewrite !StrFacts.append_assoc. reflexivity.
Qed.

(** X25.  The name [_get_package_name] returns is never empty, and
    none of its parts between hyphens starts with a digit. *)
Theorem package_name_has_no_version_part (path : string) :
  package_name_of path <> "" /\
  Forall (fun part => Re.match_leading_digit part = false)
         (Str.split "-" (package_name_of path)).
Proof.
  unfold package_name_of. cbv zeta.
  set (parts := Str.split "-" (Str.replace (OsPath.basename path) ".tar.gz" "")).
  set (name_parts := filter (fun p => negb (Re.match_leading_digit p)) parts).
  destruct (Str.truthy (Str.join "-" name_parts)) eqn:Hjoined.
  - split; [now apply StrFacts.truthy_true|].
    assert (Hne : name_parts <> []).
    { intros Hnil. rewrite Hnil in Hjoined. discriminate. }
    assert (Hsep : Forall (fun part => Str.contains part "-" = false) name_parts).
    { apply Forall_forall. intros part Hin. apply filter_In in Hin.
      destruct Hin as [Hin _].
      pose proof (split_parts_no_sep "-"
                    (Str.replace (OsPath.basename path) ".tar.gz" "")) as Hall.
      rewrite Forall_forall in Hall. now apply Hall. }
    rewrite (split_of_join "-" name_parts Hne Hsep).
    apply Forall_forall. intros part Hin. apply filter_In in Hin.
    destruct Hin as [_ Hdigit]. now apply Bool.negb_true_iff in Hdigit.
  - split; [discriminate|]. repeat constructor.
Qed.

End NameMore.
